(** * clothfigurator: catalog walkers, name sanitizers and the texture fetcher

    A shallow embedding of the three scripts under [Python/]:
    [create-folders.py], [create_materials.py] and [downloadTextures.py].

    - Python [str] values are lists of Unicode code points.  Everything the
      scripts do to ASCII is written out; the parts of the Unicode character
      database that reach beyond ASCII (case mappings, NFKD, combining
      classes) are an interface, [UnicodeData], that the definitions take as
      a parameter.
    - The catalog is the value [json.load] returns; an operation that Python
      refuses on a value of the wrong type raises in the model too.
    - The file system is a finite map from paths to nodes, the remote end an
      oracle indexed by the number of the request, and a script is a function
      from worlds to worlds that may raise and leaves a trace of what it did.
      The working directory of the process is a parameter, [Os.Process], of
      the definitions that call [resolve()].

    The first half of the file holds the definitions, the second the
    properties. *)

From Stdlib Require Import NArith ZArith QArith List Ascii String Lia.
From Stdlib Require Import DecimalString.
From stdpp Require Import gmap strings list fin_maps.

Set Warnings "-register-all".
Local Open Scope N_scope.

(** ** Python strings *)

Abbreviation str := (list N).

(** A string literal of the source, as code points. *)
Definition py (s : string) : str :=
  List.map N_of_ascii (list_ascii_of_string s).

(** The Unicode tables that CPython consults outside ASCII.
    - [unicode_lower c], [unicode_upper c]: the full case mapping of one
      non-ASCII code point, as [str.lower] and [str.upper] apply it;
    - [normalize_NFKD]: [unicodedata.normalize('NFKD', _)];
    - [combining]: [unicodedata.combining], the canonical combining class;
    - [repr_str]: [repr] of a str, whose quoting and escapes follow the
      table of printable code points. *)
Class UnicodeData := {
  unicode_lower : N -> str;
  unicode_upper : N -> str;
  normalize_NFKD : str -> str;
  combining : N -> N;
  repr_str : str -> str;
}.

(** The trivial tables: no case mapping and no decomposition beyond ASCII. *)
Definition ascii_only : UnicodeData :=
  {| unicode_lower := fun c => [c];
     unicode_upper := fun c => [c];
     normalize_NFKD := fun s => s;
     combining := fun _ => 0;
     repr_str := fun s => [39] ++ s ++ [39] |}.

Module PyStr.

(** [str.isspace] for one code point; the regex class [\s] on [str]
    patterns matches the same set. *)
Definition isspace (c : N) : bool :=
  ((0x09 <=? c) && (c <=? 0x0D)) || ((0x1C <=? c) && (c <=? 0x20))
  || (c =? 0x85) || (c =? 0xA0) || (c =? 0x1680)
  || ((0x2000 <=? c) && (c <=? 0x200A))
  || (c =? 0x2028) || (c =? 0x2029) || (c =? 0x202F) || (c =? 0x205F)
  || (c =? 0x3000).

Definition is_ascii (c : N) : bool := c <? 128.
Definition is_upper_az (c : N) : bool := (65 <=? c) && (c <=? 90).
Definition is_lower_az (c : N) : bool := (97 <=? c) && (c <=? 122).
Definition is_digit (c : N) : bool := (48 <=? c) && (c <=? 57).

(** [s.lstrip(...)], [s.rstrip(...)], [s.strip(...)] for the set of code
    points that satisfy [p]. *)
Fixpoint lstrip_with (p : N -> bool) (s : str) : str :=
  match s with
  | [] => []
  | c :: t => if p c then lstrip_with p t else s
  end.

Fixpoint rstrip_with (p : N -> bool) (s : str) : str :=
  match s with
  | [] => []
  | c :: t =>
      match rstrip_with p t with
      | [] => if p c then [] else [c]
      | t' => c :: t'
      end
  end.

Definition strip_with (p : N -> bool) (s : str) : str :=
  rstrip_with p (lstrip_with p s).

Definition one_of (chars : str) (c : N) : bool := existsb (N.eqb c) chars.

(** [s.strip()] *)
Definition strip (s : str) : str := strip_with isspace s.
(** [s.strip(chars)], [s.rstrip(chars)] *)
Definition strip_chars (chars s : str) : str := strip_with (one_of chars) s.
Definition rstrip_chars (chars s : str) : str := rstrip_with (one_of chars) s.

(** [s.replace(a, b)] for one-character [a]. *)
Definition replace_char (a : N) (b : str) (s : str) : str :=
  flat_map (fun c => if c =? a then b else [c]) s.

(** [re.sub("[class]", r, s)]: every code point of the class is replaced. *)
Definition re_sub1 (p : N -> bool) (r : str) (s : str) : str :=
  flat_map (fun c => if p c then r else [c]) s.

(** [re.sub("[class]+", r, s)]: the scanner replaces each maximal run of
    class members by [r]; [in_run] says that the previous code point was
    part of the run being replaced. *)
Fixpoint re_sub_plus_from (p : N -> bool) (r : str) (in_run : bool) (s : str) : str :=
  match s with
  | [] => []
  | c :: t =>
      if p c then
        if in_run then re_sub_plus_from p r true t
        else r ++ re_sub_plus_from p r true t
      else c :: re_sub_plus_from p r false t
  end.

Definition re_sub_plus (p : N -> bool) (r : str) (s : str) : str :=
  re_sub_plus_from p r false s.

(** [re.sub("[class]{2,}", r, s)]: only runs of two or more are replaced; a
    lone class member is kept. *)
Fixpoint re_sub_two_from (p : N -> bool) (r : str) (in_run : bool) (s : str) : str :=
  match s with
  | [] => []
  | c :: t =>
      if p c then
        if in_run then re_sub_two_from p r true t
        else
          match t with
          | c' :: _ =>
              if p c' then r ++ re_sub_two_from p r true t
              else c :: re_sub_two_from p r false t
          | [] => [c]
          end
      else c :: re_sub_two_from p r false t
  end.

Definition re_sub_two (p : N -> bool) (r : str) (s : str) : str :=
  re_sub_two_from p r false s.

Section Case.
Context {U : UnicodeData}.

(** [str.lower] and [str.upper], one code point at a time.  (CPython maps
    capital sigma to one of two small sigmas by context; both are outside
    ASCII, and the table stands for either.) *)
Definition lower_char (c : N) : str :=
  if is_upper_az c then [c + 32]
  else if is_ascii c then [c]
  else unicode_lower c.

Definition upper_char (c : N) : str :=
  if is_lower_az c then [c - 32]
  else if is_ascii c then [c]
  else unicode_upper c.

Definition lower (s : str) : str := flat_map lower_char s.
Definition upper (s : str) : str := flat_map upper_char s.
End Case.

(** Does [s] start, or end, with a member of the class [p]? *)
Definition starts (p : N -> bool) (s : str) : bool :=
  match head s with Some c => p c | None => false end.

Definition ends (p : N -> bool) (s : str) : bool :=
  match last s with Some c => p c | None => false end.

(** No two neighbours both satisfy [p]. *)
Fixpoint no_pair (p : N -> bool) (s : str) : bool :=
  match s with
  | [] => true
  | c :: t => negb (p c && starts p t) && no_pair p t
  end.

End PyStr.

(** ** Python values and exceptions *)

Module Py.
Import PyStr.

(** The exception classes that the scripts raise or catch.  [HTTPError],
    [URLError], [TimeoutError], [socket_timeout] and [OSError] are the
    classes in the [except] clause of [download_with_retries]; the string
    is what [str(e)] returns. *)
Inductive exn :=
| AttributeError
| TypeError
| ValueError
| HTTPError (msg : str)
| URLError (msg : str)
| TimeoutError (msg : str)
| socket_timeout (msg : str)
| OSError (msg : str)
| OtherError (msg : str).

Inductive result (A : Type) :=
| Ok (a : A)
| Raise (e : exn).
Arguments Ok {A} a.
Arguments Raise {A} e.

#[export] Instance result_ret : MRet result := fun _ a => Ok a.
#[export] Instance result_bind : MBind result := fun _ _ f m =>
  match m with
  | Ok a => f a
  | Raise e => Raise e
  end.

(** What [json.load] returns.  (Numbers are integers here: the scripts only
    test them for truth.) *)
Inductive json :=
| JNull
| JBool (b : bool)
| JNum (n : Z)
| JStr (s : str)
| JArr (items : list json)
| JObj (fields : list (str * json)).

Definition str_eqb (a b : str) : bool := bool_decide (a = b).

Definition nonempty {A} (l : list A) : bool :=
  match l with [] => false | _ => true end.

(** Truth value of an object ([bool(v)]). *)
Definition truthy (v : json) : bool :=
  match v with
  | JNull => false
  | JBool b => b
  | JNum n => negb (n =? 0)%Z
  | JStr s => nonempty s
  | JArr l => nonempty l
  | JObj f => nonempty f
  end.

(** [a or b]; [b] is evaluated only when [a] is falsy. *)
Definition or_else (a : json) (b : result json) : result json :=
  if truthy a then Ok a else b.

Fixpoint assoc (k : str) (fields : list (str * json)) : option json :=
  match fields with
  | [] => None
  | (k', v) :: rest => if str_eqb k k' then Some v else assoc k rest
  end.

(** [v.get(k)]: only a dict has the method. *)
Definition get (v : json) (k : str) : result json :=
  match v with
  | JObj fields => Ok (default JNull (assoc k fields))
  | _ => Raise AttributeError
  end.

(** [v.strip()]: only a str has the method. *)
Definition strip_of (v : json) : result str :=
  match v with
  | JStr s => Ok (strip s)
  | _ => Raise AttributeError
  end.

(** The items a [for] loop over [v] visits. *)
Definition iter (v : json) : result (list json) :=
  match v with
  | JArr l => Ok l
  | JStr s => Ok (List.map (fun c => JStr [c]) s)
  | JObj f => Ok (List.map (fun kv => JStr (fst kv)) f)
  | _ => Raise TypeError
  end.

Definition isinstance_dict (v : json) : bool :=
  match v with JObj _ => true | _ => false end.

Definition decimal (n : Z) : str := py (NilEmpty.string_of_int (Z.to_int n)).

Fixpoint join (sep : str) (l : list str) : str :=
  match l with
  | [] => []
  | [x] => x
  | x :: rest => x ++ sep ++ join sep rest
  end.

Section Repr.
Context {U : UnicodeData}.

Fixpoint repr (v : json) : str :=
  match v with
  | JNull => py "None"
  | JBool true => py "True"
  | JBool false => py "False"
  | JNum n => decimal n
  | JStr s => repr_str s
  | JArr l => py "[" ++ join (py ", ") (List.map repr l) ++ py "]"
  | JObj f =>
      py "{" ++
      join (py ", ")
        (List.map (fun kv => repr_str (fst kv) ++ py ": " ++ repr (snd kv)) f)
      ++ py "}"
  end.

(** [str(v)] *)
Definition str_of (v : json) : str :=
  match v with
  | JStr s => s
  | _ => repr v
  end.
End Repr.

(** [a or b or ''], both operands already evaluated. *)
Definition first_truthy (a b : json) : json :=
  if truthy a then a else if truthy b then b else JStr [].

(** [for x in items: acc = body(x, acc)], stopping at the first exception. *)
Fixpoint for_each {A S} (body : A -> S -> result S) (items : list A) (acc : S)
  : result S :=
  match items with
  | [] => Ok acc
  | x :: rest =>
      match body x acc with
      | Ok acc' => for_each body rest acc'
      | Raise e => Raise e
      end
  end.

End Py.

(** ** Paths, the file system and the network *)

Module Os.
Import PyStr Py.

(** A [pathlib] path is the list of its components, outermost first (POSIX
    flavour).  The empty list is the current directory. *)
Abbreviation path := (list str).

Fixpoint split_on (sep : N) (cur : str) (s : str) : list str :=
  match s with
  | [] => [cur]
  | c :: t =>
      if c =? sep then cur :: split_on sep [] t
      else split_on sep (cur ++ [c]) t
  end.

(** The components of a path segment: split at ['/'], empty and ['.']
    components dropped. *)
Definition components (s : str) : list str :=
  List.filter (fun c => negb (str_eqb c [] || str_eqb c (py ".")))
    (split_on 47 [] s).

(** [p / s]: an absolute segment replaces [p]. *)
Definition joinpath (p : path) (s : str) : path :=
  match s with
  | 47 :: _ => py "/" :: components s
  | _ => p ++ components s
  end.

(** [p.parent] and [p.name] *)
Definition parent (p : path) : path := removelast p.
Definition name (p : path) : str := List.last p [].

Fixpoint rfind (x : N) (s : str) (i : nat) : option nat :=
  match s with
  | [] => None
  | c :: t =>
      match rfind x t (S i) with
      | Some j => Some j
      | None => if c =? x then Some i else None
      end
  end.

(** [p.suffix], on the final component. *)
Definition suffix (nm : str) : str :=
  match rfind 46 nm 0 with
  | Some i =>
      if ((0 <? i)%nat && (i <? length nm - 1)%nat)%bool then drop i nm else []
  | None => []
  end.

(** [p.with_suffix(suf)]: the new final component. *)
Definition with_suffix_name (nm suf : str) : result str :=
  if negb (nonempty nm) then Raise ValueError
  else if one_of suf 47 then Raise ValueError
  else if (nonempty suf && negb (one_of (take 1 suf) 46))%bool
          || str_eqb suf (py ".") then Raise ValueError
  else Ok (take (length nm - length (suffix nm)) nm ++ suf).

Definition with_suffix (p : path) (suf : str) : result path :=
  nm ← with_suffix_name (name p) suf; Ok (parent p ++ [nm]).

(** [os.getcwd()]: the directory the process runs in, an absolute path
    without [".."].  The scripts never change it. *)
Class Process := cwd : path.

Definition is_absolute (p : path) : bool :=
  match p with
  | c :: _ => str_eqb c (py "/")
  | [] => false
  end.

(** One level up; the parent of the root is the root. *)
Definition up (p : path) : path :=
  match p with
  | [] | [_] => p
  | _ => removelast p
  end.

(** The components [todo] followed from the directory [cur]: a [".."]
    leads one level up. *)
Fixpoint normalize (cur todo : path) : path :=
  match todo with
  | [] => cur
  | c :: rest =>
      if str_eqb c (py "..") then normalize (up cur) rest
      else normalize (cur ++ [c]) rest
  end.

(** [p.resolve()] on a store without links: a relative path starts at the
    working directory, the [".."] components are followed, and the result
    is absolute.  A NUL character in a component makes the system call
    behind it raise [ValueError]. *)
Definition resolve `{Process} (p : path) : result path :=
  if existsb (fun c => one_of c 0) p then Raise ValueError
  else Ok (if is_absolute p then normalize [py "/"] (tail p)
           else normalize cwd p).

(** No component is [".."]: the path names what it spells. *)
Definition plain (p : path) : bool :=
  forallb (fun c => negb (str_eqb c (py ".."))) p.

(** *** File system *)

Inductive node :=
| Dir
| File (content : list Byte.byte).

(** The operations the scripts perform.  Each is one step for an observer
    of the store; [Replace] is [os.replace], which swaps the name in one
    step, and a write is observed byte by byte. *)
Inductive fs_op :=
| Mkdirs (p : path)                  (* p.mkdir(parents=True, exist_ok=True) *)
| OpenWb (p : path)                  (* open(p, 'wb'): create or truncate *)
| Append (p : path) (b : Byte.byte)  (* one more byte of f.write(data) reaches p *)
| Replace (src dst : path).          (* src.replace(dst) *)

(** What a script does to the world.  Durations are rationals; the default
    backoff 1.5 and its powers 1.5 and 2.25 are the same numbers as floats. *)
Inductive event :=
| Request (url : str)
| Sleep (seconds : Q)
| Fs (op : fs_op).

(** The store has no permissions, quotas or links: an operation fails only
    when the kind of a node is in its way.  A node is kept under the path
    it was written with, so the store speaks for the file system on [plain]
    paths of one kind (all absolute, or all relative to the working
    directory); a path with a [".."] component is another spelling of a
    plain one, and the store does not identify the two. *)
Definition is_dir (fs : gmap path node) (p : path) : bool :=
  match p with
  | [] => true
  | _ => match fs !! p with Some Dir => true | _ => false end
  end.

Fixpoint mkdirs_from (fs : gmap path node) (above todo : path)
  : gmap path node * option exn :=
  match todo with
  | [] => (fs, None)
  | c :: rest =>
      let q := above ++ [c] in
      match fs !! q with
      | Some (File _) => (fs, Some (OSError (py "File exists")))
      | Some Dir => mkdirs_from fs q rest
      | None => mkdirs_from (<[q := Dir]> fs) q rest
      end
  end.

Definition apply_op (op : fs_op) (fs : gmap path node)
  : gmap path node * option exn :=
  match op with
  | Mkdirs p => mkdirs_from fs [] p
  | OpenWb p =>
      match fs !! p with
      | Some Dir => (fs, Some (OSError (py "Is a directory")))
      | _ =>
          if is_dir fs (parent p) then (<[p := File []]> fs, None)
          else (fs, Some (OSError (py "No such file or directory")))
      end
  | Append p b =>
      match fs !! p with
      | Some (File c) => (<[p := File (c ++ [b])]> fs, None)
      | _ => (fs, Some (OSError (py "Bad file descriptor")))
      end
  | Replace src dst =>
      match fs !! src with
      | Some (File c) =>
          match fs !! dst with
          | Some Dir => (fs, Some (OSError (py "Is a directory")))
          | _ => (<[dst := File c]> (delete src fs), None)
          end
      | Some Dir =>
          match fs !! dst with
          | Some (File _) => (fs, Some (OSError (py "Not a directory")))
          | _ => (<[dst := Dir]> (delete src fs), None)
          end
      | None => (fs, Some (OSError (py "No such file or directory")))
      end
  end.

(** *** The world a script runs in *)

Record world := World {
  files : gmap path node;
  requests : nat;            (* number of HTTP requests sent so far *)
  trace : list event;        (* what the script did, oldest first *)
}.

(** The remote end: the outcome of the [n]-th request of the run. *)
Class Network := respond : nat -> str -> result (list Byte.byte).

(** Computations with effects on the world that may raise. *)
Definition M (A : Type) : Type := world -> world * result A.

#[export] Instance M_ret : MRet M := fun _ a w => (w, Ok a).
#[export] Instance M_bind : MBind M := fun _ _ f m w =>
  match m w with
  | (w', Ok a) => f a w'
  | (w', Raise e) => (w', Raise e)
  end.

Definition lift {A} (r : result A) : M A := fun w => (w, r).

(** The store after a run of operations that stops at the first failure,
    and that failure. *)
Fixpoint run_ops (ops : list fs_op) (fs : gmap path node)
  : gmap path node * option exn :=
  match ops with
  | [] => (fs, None)
  | op :: rest =>
      match apply_op op fs with
      | (fs', None) => run_ops rest fs'
      | (fs', Some e) => (fs', Some e)
      end
  end.

(** [try: body except <caught> as e: handler(e)] *)
Definition try_except {A} (body : M A) (caught : exn -> bool)
    (handler : exn -> M A) : M A := fun w =>
  match body w with
  | (w', Ok a) => (w', Ok a)
  | (w', Raise e) => if caught e then handler e w' else (w', Raise e)
  end.

Definition log (e : event) (w : world) : world :=
  World (files w) (requests w) (trace w ++ [e]).

Definition fs_do (op : fs_op) : M unit := fun w =>
  let '(fs', err) := apply_op op (files w) in
  let w' := World fs' (requests w) (trace w ++ [Fs op]) in
  match err with
  | None => (w', Ok tt)
  | Some e => (w', Raise e)
  end.

(** [p.exists()] *)
Definition exists_ (p : path) : M bool := fun w =>
  (w, Ok (bool_decide (is_Some (files w !! p)))).

(** [time.sleep(seconds)] *)
Definition sleep (seconds : Q) : M unit := fun w =>
  (log (Sleep seconds) w, Ok tt).

(** [for x in items: acc = body(x, acc)] with effects. *)
Fixpoint for_eachM {A S} (body : A -> S -> M S) (items : list A) (acc : S)
  : M S :=
  match items with
  | [] => mret acc
  | x :: rest => acc' ← body x acc; for_eachM body rest acc'
  end.

End Os.

(** ** [create-folders.py] *)

Module create_folders.
Import PyStr Py Os.

Section Script.
Context {U : UnicodeData}.

(** [[\s/\\]] *)
Definition is_separator (c : N) : bool :=
  isspace c || (c =? 47) || (c =? 92).

(** [[^a-z0-9_]] *)
Definition not_slug_char (c : N) : bool :=
  negb (is_lower_az c || is_digit c || (c =? 95)).

Definition slugify (name : str) : str :=
  let name := lower (strip name) in
  let name := re_sub_plus is_separator (py "_") name in
  let name := re_sub1 not_slug_char [] name in
  let name := re_sub_plus (N.eqb 95) (py "_") name in
  let name := strip_chars (py "_") name in
  match name with
  | [] => py "unnamed"
  | _ => name
  end.

(** [slugify] applied to whatever the catalog holds: [name.strip()] raises
    on anything but a str. *)
Definition slugify_value (v : json) : result str :=
  match v with
  | JStr s => Ok (slugify s)
  | _ => Raise AttributeError
  end.

Definition ensure_dir (p : path) : M bool :=
  present ← exists_ p;
  if present : bool then mret false
  else
    try_except (_ ← fs_do (Mkdirs p); mret true)
      (fun _ => true) (fun _ => mret false).

Record counts := Counts {
  created_collections : nat;
  existing_collections : nat;
  created_subcollections : nat;
  existing_subcollections : nat;
}.

(** [collection.get("collection-name") or collection.get("name") or "collection"] *)
Definition collection_name (collection : json) : result json :=
  a ← get collection (py "collection-name");
  or_else a (b ← get collection (py "name");
             or_else b (Ok (JStr (py "collection")))).

(** [sub.get("subcollection-name") or sub.get("name") or "subcollection"] *)
Definition subcollection_name (sub : json) : result json :=
  a ← get sub (py "subcollection-name");
  or_else a (b ← get sub (py "name");
             or_else b (Ok (JStr (py "subcollection")))).

(** Body of the inner loop of [create_structure]. *)
Definition visit_subcollection (col_path : path) (sub : json) (c : counts)
  : M counts :=
  sub_name ← lift (subcollection_name sub);
  sub_slug ← lift (slugify_value sub_name);
  let sub_path := joinpath col_path sub_slug in
  created ← ensure_dir sub_path;
  if created : bool then
    mret (Counts (created_collections c) (existing_collections c)
            (S (created_subcollections c)) (existing_subcollections c))
  else
    mret (Counts (created_collections c) (existing_collections c)
            (created_subcollections c) (S (existing_subcollections c))).

(** Body of the outer loop of [create_structure]. *)
Definition visit_collection (dest : path) (collection : json) (c : counts)
  : M counts :=
  col_name ← lift (collection_name collection);
  col_slug ← lift (slugify_value col_name);
  let col_path := joinpath dest col_slug in
  created ← ensure_dir col_path;
  let c :=
    if created : bool then
      Counts (S (created_collections c)) (existing_collections c)
        (created_subcollections c) (existing_subcollections c)
    else
      Counts (created_collections c) (S (existing_collections c))
        (created_subcollections c) (existing_subcollections c) in
  subs ← lift (s ← get collection (py "subcollection");
               v ← or_else s (Ok (JArr []));
               iter v);
  for_eachM (visit_subcollection col_path) subs c.

Definition create_structure (collections : list json) (dest : path)
  : M counts :=
  for_eachM (visit_collection dest) collections (Counts 0 0 0 0).
End Script.

End create_folders.

(** ** [create_materials.py] *)

Module create_materials.
Import PyStr Py Os.

Definition PARENT_MATERIAL_OBJECT_PATH : str :=
  py "/Game/Materials/MI_Sample.MI_Sample".

Section Script.
Context {U : UnicodeData} {proc : Process}.

Definition strip_accents (text : str) : str :=
  List.filter (fun ch => combining ch =? 0) (normalize_NFKD text).

(** [[^A-Za-z0-9-]] *)
Definition not_token_char (c : N) : bool :=
  negb (is_upper_az c || is_lower_az c || is_digit c || (c =? 45)).

Definition sanitize_token (text : str) : str :=
  let text := strip (strip_accents text) in
  let text := replace_char 32 (py "-") text in
  let text := re_sub1 not_token_char [] text in
  let text := re_sub_two (N.eqb 45) (py "-") text in
  let text := strip_chars (py "-") text in
  upper text.

(** [INVALID_WIN]: the class of [<], [>], [:], the double quote, [/],
    the backslash, [|], [?] and the asterisk. *)
Definition INVALID_WIN (c : N) : bool :=
  one_of [60; 62; 58; 34; 47; 92; 124; 63; 42] c.

Definition sanitize_folder (name : str) : str :=
  let s := re_sub1 INVALID_WIN (py "_") (strip name) in
  let s := re_sub_plus isspace (py " ") s in
  let s := rstrip_chars (py ". ") s in
  if nonempty s then s else py "_".

Definition _get_collection_name (coll : json) : result str :=
  a ← get coll (py "collection-name");
  v ← or_else a (b ← get coll (py "collection");
                 or_else b (Ok (JStr [])));
  strip_of v.

Definition _get_subcollection_list (coll : json) : result json :=
  subs ← get coll (py "subcollection");
  or_else subs (Ok (JArr [])).

Definition _get_subcollection_name (sub : json) : result str :=
  a ← get sub (py "subcollection-name");
  v ← or_else a (b ← get sub (py "name");
                 or_else b (Ok (JStr [])));
  strip_of v.

Definition _get_variations_list (sub : json) : result json :=
  v ← get sub (py "variations");
  v ← match v with
      | JNull => get sub (py "variation")
      | _ => Ok v
      end;
  or_else v (Ok (JArr [])).

Definition _get_variation_label (variation_item : json) : result str :=
  if isinstance_dict variation_item then
    n ← get variation_item (py "variation-name");
    n ← or_else n (Ok (JStr []));
    vname ← strip_of n;
    p ← get variation_item (py "variation-pattern");
    p ← or_else p (Ok (JStr []));
    vpat ← strip_of p;
    if nonempty vname && nonempty vpat then Ok (vname ++ py "-" ++ vpat)
    else if nonempty vname then Ok vname
    else if nonempty vpat then Ok vpat
    else Ok []
  else Ok (strip (str_of variation_item)).

(** One entry of the list that [build_material_specs] returns. *)
Record spec := AssetSpec {
  spec_name : str;
  package_path : str;
  asset_path : str;
  object_path : str;
  filesystem_path : path;
  parent : str;
}.

Section Build.
Variable base_fs_root_vendor : path.
Variable base_asset_root_vendor : str.

(** Body of the loop over the variations of one subcollection. *)
Definition spec_of_variation (coll_raw sub_raw coll_folder sub_folder : str)
    (var : json) (specs : list spec) : result (list spec) :=
  var_raw ← _get_variation_label var;
  let coll_tok := sanitize_token coll_raw in
  let sub_tok := sanitize_token sub_raw in
  let var_tok := sanitize_token var_raw in
  if negb (nonempty coll_tok && nonempty sub_tok && nonempty var_tok)
  then Ok specs
  else
    let name := py "MI_" ++ coll_tok ++ py "_" ++ sub_tok ++ py "_" ++ var_tok in
    let folder_rel :=
      if nonempty sub_folder then coll_folder ++ py "/" ++ sub_folder
      else coll_folder in
    let package_path :=
      if nonempty folder_rel then base_asset_root_vendor ++ py "/" ++ folder_rel
      else base_asset_root_vendor in
    let asset_path := package_path ++ py "/" ++ name in
    let object_path := asset_path ++ py "." ++ name in
    fs_path ←
      resolve
        (joinpath (joinpath (joinpath base_fs_root_vendor coll_folder) sub_folder)
           (name ++ py ".uasset"));
    Ok (specs ++ [AssetSpec name package_path asset_path object_path fs_path
                  PARENT_MATERIAL_OBJECT_PATH]).

(** Body of the loop over the subcollections of one collection. *)
Definition specs_of_subcollection (coll_raw coll_folder : str) (sub : json)
    (specs : list spec) : result (list spec) :=
  sub_raw ← _get_subcollection_name sub;
  if negb (nonempty sub_raw) then Ok specs
  else
    let sub_folder := sanitize_folder sub_raw in
    vars ← (v ← _get_variations_list sub; iter v);
    for_each (spec_of_variation coll_raw sub_raw coll_folder sub_folder)
      vars specs.

(** Body of the outer loop. *)
Definition specs_of_collection (coll : json) (specs : list spec)
  : result (list spec) :=
  coll_raw ← _get_collection_name coll;
  if negb (nonempty coll_raw) then Ok specs
  else
    let coll_folder := sanitize_folder coll_raw in
    sub_list ← (v ← _get_subcollection_list coll; iter v);
    for_each (specs_of_subcollection coll_raw coll_folder) sub_list specs.

Definition build_material_specs (data : json) : result (list spec) :=
  colls ← (v ← or_else data (Ok (JArr [])); iter v);
  for_each specs_of_collection colls [].
End Build.

End Script.

End create_materials.

(** ** [downloadTextures.py] *)

Module downloadTextures.
Import PyStr Py Os.

Definition build_download_url (variation_pattern : str) : str :=
  let pat := strip variation_pattern in
  py "https://images.mayerfabrics.com/item/" ++ pat
    ++ py "/image?download=" ++ pat.

(** [INVALID_WIN], as in [create_materials.py]. *)
Definition INVALID_WIN (c : N) : bool :=
  one_of [60; 62; 58; 34; 47; 92; 124; 63; 42] c.

Definition sanitize_folder (name : str) : str :=
  let s := re_sub1 INVALID_WIN (py "_") (strip name) in
  let s := re_sub_plus isspace (py " ") s in
  let s := rstrip_chars (py ". ") s in
  if nonempty s then s else py "_".

Definition _get_collection_name (coll : json) : result str :=
  a ← get coll (py "collection-name");
  v ← or_else a (b ← get coll (py "collection");
                 or_else b (Ok (JStr [])));
  strip_of v.

Definition _get_subcollection_list (coll : json) : result json :=
  subs ← get coll (py "subcollection");
  or_else subs (Ok (JArr [])).

Definition _get_subcollection_name (sub : json) : result str :=
  a ← get sub (py "subcollection-name");
  v ← or_else a (b ← get sub (py "name");
                 or_else b (Ok (JStr [])));
  strip_of v.

Definition _get_variations_list (sub : json) : result json :=
  v ← get sub (py "variations");
  v ← match v with
      | JNull => get sub (py "variation")
      | _ => Ok v
      end;
  or_else v (Ok (JArr [])).

(** [Optional[str]]: [None] when the item is not a dict or its pattern is
    empty after stripping. *)
Definition _get_variation_pattern (variation_item : json)
  : result (option str) :=
  if isinstance_dict variation_item then
    p ← get variation_item (py "variation-pattern");
    p ← or_else p (Ok (JStr []));
    vp ← strip_of p;
    Ok (if nonempty vp then Some vp else None)
  else Ok None.

(** The classes of the [except] clause. *)
Definition caught (e : exn) : bool :=
  match e with
  | HTTPError _ | URLError _ | TimeoutError _ | socket_timeout _ | OSError _ =>
      true
  | _ => false
  end.

(** [str(e)] *)
Definition str_of_exn (e : exn) : str :=
  match e with
  | HTTPError m | URLError m | TimeoutError m | socket_timeout m | OSError m
  | OtherError m => m
  | AttributeError => py "AttributeError"
  | TypeError => py "TypeError"
  | ValueError => py "ValueError"
  end.

(** The file-system operations of one successful attempt, in program
    order: [mkdir], [open], one [Append] per byte written, [replace]. *)
Definition save_ops (dest_path tmp : path) (data : list Byte.byte) : list fs_op :=
  [Mkdirs (Os.parent dest_path); OpenWb tmp]
    ++ List.map (Append tmp) data ++ [Replace tmp dest_path].

(** Running operations in order, up to the first that raises. *)
Definition exec_ops (ops : list fs_op) : M unit :=
  for_eachM (fun op _ => fs_do op) ops tt.

Record summary := Summary {
  downloaded : nat;
  skipped : nat;
  failed : nat;
  errors : list str;
}.

Section Script.
Context {net : Network} {proc : Process}.

(** One GET; the body is returned unparsed. *)
Definition http_get (url : str) : M (list Byte.byte) := fun w =>
  (World (files w) (S (requests w)) (trace w ++ [Request url]),
   respond (requests w) url).

(** [dest_path.with_suffix(dest_path.suffix + '.part')] *)
Definition part_path (dest_path : path) : result path :=
  with_suffix dest_path (suffix (name dest_path) ++ py ".part").

(** The [try] block of one attempt.  The bytes of [f.write(data)] reach
    the temporary file one at a time. *)
Definition attempt_once (url : str) (dest_path : path) : M unit :=
  data ← http_get url;
  _ ← fs_do (Mkdirs (Os.parent dest_path));
  tmp ← lift (part_path dest_path);
  _ ← fs_do (OpenWb tmp);
  _ ← for_eachM (fun b _ => fs_do (Append tmp b)) data tt;
  fs_do (Replace tmp dest_path).

(** The [return] after the loop: [False, str(last_err) if last_err else "error"]. *)
Definition after_loop (last_err : option exn) : bool * str :=
  (false, match last_err with
          | Some e => str_of_exn e
          | None => py "error"
          end).

(** The loop [for attempt in range(1, retries + 1)] over the attempts
    still [todo], followed by the [return] after it. *)
Fixpoint attempts (url : str) (dest_path : path) (retries : nat)
    (backoff : Q) (todo : list nat) (last_err : option exn)
  : M (bool * str) :=
  match todo with
  | [] => mret (after_loop last_err)
  | attempt :: rest =>
      outcome ← try_except (_ ← attempt_once url dest_path; mret None)
                  caught (fun e => mret (Some e));
      match outcome with
      | None => mret (true, py "ok")
      | Some e =>
          if (attempt <? retries)%nat then
            _ ← sleep (backoff ^ Z.of_nat attempt);
            attempts url dest_path retries backoff rest (Some e)
          else (* break *)
            mret (after_loop (Some e))
      end
  end.

Definition download_with_retries (url : str) (dest_path : path)
    (retries : nat) (backoff : Q) : M (bool * str) :=
  attempts url dest_path retries backoff (seq 1 retries) None.

(** The defaults of the signature: [retries=3], [backoff=1.5]. *)
Definition default_retries : nat := 3.
Definition default_backoff : Q := 3 # 2.

(** Body of the loop over the variations of one subcollection. *)
Definition process_variation (coll_name sub_name : str) (target_dir : path)
    (var : json) (s : summary) : M summary :=
  pattern ← lift (_get_variation_pattern var);
  match pattern with
  | Some ((_ :: _) as pattern) =>
      let url := build_download_url pattern in
      let filename := pattern ++ py ".jpg" in
      let dest_file := joinpath target_dir filename in
      present ← exists_ dest_file;
      if present : bool then
        mret (Summary (downloaded s) (S (skipped s)) (failed s) (errors s))
      else
        r ← download_with_retries url dest_file default_retries default_backoff;
        if fst r : bool then
          mret (Summary (S (downloaded s)) (skipped s) (failed s) (errors s))
        else
          mret (Summary (downloaded s) (skipped s) (S (failed s))
                  (errors s ++ [pattern ++ py ": " ++ snd r]))
  | _ =>
      mret (Summary (downloaded s) (skipped s) (S (failed s))
              (errors s ++
               [py "Sin 'variation-pattern' -> " ++ coll_name ++ py "/" ++ sub_name]))
  end.

(** Body of the loop over the subcollections of one collection. *)
Definition process_subcollection (dest_root : path)
    (coll_name coll_folder : str) (sub : json) (s : summary) : M summary :=
  sub_name ← lift (_get_subcollection_name sub);
  if negb (nonempty sub_name) then mret s
  else
    let sub_folder := sanitize_folder sub_name in
    target_dir ← lift (resolve (joinpath (joinpath dest_root coll_folder) sub_folder));
    vars ← lift (v ← _get_variations_list sub; iter v);
    for_eachM (process_variation coll_name sub_name target_dir) vars s.

(** Body of the outer loop. *)
Definition process_collection (dest_root : path) (coll : json) (s : summary)
  : M summary :=
  coll_name ← lift (_get_collection_name coll);
  if negb (nonempty coll_name) then mret s
  else
    let coll_folder := sanitize_folder coll_name in
    subs ← lift (v ← _get_subcollection_list coll; iter v);
    for_eachM (process_subcollection dest_root coll_name coll_folder) subs s.

(** [process_all], from the parsed catalog on. *)
Definition process_all (data : json) (dest_root : path) : M summary :=
  colls ← lift (v ← or_else data (Ok (JArr [])); iter v);
  for_eachM (process_collection dest_root) colls (Summary 0 0 0 []).
End Script.

End downloadTextures.

(** ** The two sanitizers as the specification words them *)

Module Spec.
Import PyStr.

(** "Replace runs of ... with [r]": a run is read to its end, then [r] is
    written once. *)
Fixpoint replace_runs (p : N -> bool) (r : str) (s : str) : str :=
  match s with
  | [] => []
  | c :: t =>
      if p c then
        match t with
        | c' :: _ => if p c' then replace_runs p r t else r ++ replace_runs p r t
        | [] => r
        end
      else c :: replace_runs p r t
  end.

(** "Delete every character outside" a set. *)
Definition delete_outside (keep : N -> bool) (s : str) : str :=
  List.filter keep s.

(** "Collapse repeated [x]": of two neighbours equal to [x], the first goes. *)
Fixpoint collapse (x : N) (s : str) : str :=
  match s with
  | [] => []
  | a :: t =>
      match t with
      | b :: _ => if (a =? x) && (b =? x) then collapse x t else a :: collapse x t
      | [] => [a]
      end
  end.

(** "Trim leading and trailing [x]". *)
Definition trim (x : N) (s : str) : str :=
  rev (lstrip_with (N.eqb x) (rev (lstrip_with (N.eqb x) s))).

Definition is_path_separator (c : N) : bool := (c =? 47) || (c =? 92).
Definition slug_char (c : N) : bool :=
  is_lower_az c || is_digit c || (c =? 95).
Definition token_char (c : N) : bool :=
  is_upper_az c || is_lower_az c || is_digit c || (c =? 45).

Section Words.
Context {U : UnicodeData}.

Definition slugify_for_directories (raw : str) : str :=
  let s := lower raw in
  let s := replace_runs (fun c => isspace c || is_path_separator c) (py "_") s in
  let s := delete_outside slug_char s in
  let s := collapse 95 s in
  let s := trim 95 s in
  if bool_decide (s = []) then py "unnamed" else s.

(** "Strip Unicode accents": decomposed, a letter with an accent is the
    letter followed by the accent, a combining mark; the accents are deleted
    and the letters stay. *)
Definition is_accent (c : N) : bool := negb (combining c =? 0).

Definition strip_diacritics (s : str) : str :=
  delete_outside (fun c => negb (is_accent c)) (normalize_NFKD s).

Definition tokenize_for_asset_name (raw : str) : str :=
  let s := strip_diacritics raw in
  let s := strip s in
  let s := List.map (fun c => if c =? 32 then 45 else c) s in
  let s := delete_outside token_char s in
  let s := collapse 45 s in
  let s := trim 45 s in
  upper s.
End Words.

End Spec.

(** ** Derived forms used in the proofs *)

Module Views.
Import PyStr Py Os.

(** What [slugify] does after lowercasing. *)
Definition slug_tail (s : str) : str :=
  strip_with (N.eqb 95)
    (re_sub_plus (N.eqb 95) [95]
       (List.filter Spec.slug_char (re_sub_plus create_folders.is_separator [95] s))).

Definition or_unnamed (s : str) : str :=
  match s with [] => py "unnamed" | _ => s end.

(** [str.upper] on one code point of [A-Za-z0-9-]. *)
Definition up1 (c : N) : N := if is_lower_az c then c - 32 else c.

(** The alphabet of a finished token: [A-Z0-9-]. *)
Definition final_char (c : N) : bool :=
  is_upper_az c || is_digit c || (c =? 45).

(** What [sanitize_token] does between [strip_accents] and [upper]. *)
Definition token_body (s : str) : str :=
  strip_with (N.eqb 45)
    (Spec.collapse 45
       (List.filter Spec.token_char
          (List.map (fun c => if c =? 32 then 45 else c) (strip s)))).

(** Everything a save does before the rename, for the destination
    [P / nm]. *)
Definition writes (P : path) (nm : str) (data : list Byte.byte) : list fs_op :=
  [Mkdirs P; OpenWb (P ++ [nm ++ py ".part"])]
    ++ List.map (Append (P ++ [nm ++ py ".part"])) data.

(** The world right after a request was sent. *)
Definition after_request (url : str) (w : world) : world :=
  World (files w) (S (requests w)) (trace w ++ [Request url]).

(** The collections that [create_structure] has counted, created or found. *)
Definition collections_seen (c : create_folders.counts) : nat :=
  (create_folders.created_collections c + create_folders.existing_collections c)%nat.
End Views.

(** ** Sample catalogs and worlds *)

Module Samples.
Import Py Os.

(** A legacy catalog: one collection, one subcollection, one bare-string
    variation. *)
Definition legacy_catalog : json :=
  JArr [JObj [(py "collection", JStr (py "Wools"));
              (py "subcollection",
               JArr [JObj [(py "name", JStr (py "Heavy"));
                           (py "variation", JArr [JStr (py "Red")])]])]].

(** A collection with a blank name that holds a subcollection without one. *)
Definition unnamed_subcollection : json :=
  JObj [(py "subcollection-name", JStr []);
        (py "variations",
         JArr [JObj [(py "variation-pattern", JStr (py "100-200"))]])].

Definition blank_collection : json :=
  JObj [(py "collection-name", JStr (py "  "));
        (py "subcollection", JArr [unnamed_subcollection])].

Definition wools : json :=
  JObj [(py "collection-name", JStr (py "Wools"));
        (py "subcollection",
         JArr [JObj [(py "subcollection-name", JStr (py "Heavy"));
                     (py "variations",
                      JArr [JObj [(py "variation-name", JStr (py "Red"));
                                  (py "variation-pattern", JStr (py "100-200"))]])]])].

Definition empty_world : world := World ∅ 0 [].

(** Tables that know two accented letters: U+00E9 and U+00F1 decompose into
    the letter and a combining mark, U+0301 or U+0303, of class 230. *)
Definition accents : UnicodeData :=
  {| unicode_lower := fun c => [c];
     unicode_upper := fun c => [c];
     normalize_NFKD :=
       flat_map (fun c => if c =? 233 then [101; 769]
                          else if c =? 241 then [110; 771]
                          else [c]);
     combining := fun c => if (c =? 769) || (c =? 771) then 230 else 0;
     repr_str := fun s => [39] ++ s ++ [39] |}.

(** A process started in the directory [/repo]. *)
Definition home : Process := [py "/"; py "repo"].

(** The one structured variation of [wools], and the place of its texture. *)
Definition red_variation : json :=
  JObj [(py "variation-name", JStr (py "Red"));
        (py "variation-pattern", JStr (py "100-200"))].

Definition heavy_dir : path := [py "textures"; py "Wools"; py "Heavy"].

(** A world where the texture of that variation is already on disk. *)
Definition world_with_texture : world :=
  World {[ heavy_dir ++ [py "100-200.jpg"] := File [Byte.x4a] ]} 0 [].

(** A remote end that is down, and one that always answers two bytes. *)
Definition net_down : Network := fun _ _ => Raise (URLError (py "unreachable")).
Definition net_up : Network := fun _ _ => Ok [Byte.x4a; Byte.x46].
(** One that times out on the first request and answers from then on. *)
Definition net_flaky : Network := fun n _ =>
  match n with
  | O => Raise (TimeoutError (py "timed out"))
  | _ => Ok [Byte.x4a; Byte.x46]
  end.
End Samples.

(** ** Reading the catalog and finding the roots *)

(** [json.load]: what the decoder makes of the bytes of a file.  A file that
    does not parse raises ([JSONDecodeError] and [UnicodeDecodeError] are
    subclasses of [ValueError]). *)
Class JsonDecoder := json_load : list Byte.byte -> Py.result Py.json.

(** [load_collections] and [main] of [create-folders.py]. *)
Module create_folders_main.
Import PyStr Py Os create_folders.

Section Script.
Context {U : UnicodeData} {decoder : JsonDecoder}.

Definition JSON_FILENAME : str := py "collections.json".

(** [with json_path.open("r") as f: data = json.load(f)].  Reading is not
    an operation on the store and leaves no trace. *)
Definition read_json (json_path : path) : M json := fun w =>
  match files w !! json_path with
  | Some (File content) => (w, json_load content)
  | Some Dir => (w, Raise (OSError (py "Is a directory")))
  | None => (w, Raise (OSError (py "No such file or directory")))
  end.

(** [FileNotFoundError] is an [OSError]; the text of the two messages is
    not modelled. *)
Definition load_collections (json_path : path) : M (list json) :=
  present ← exists_ json_path;
  if negb present then lift (Raise (OSError (py "FileNotFoundError")))
  else
    data ← read_json json_path;
    match data with
    | JArr l => mret l
    | _ => lift (Raise ValueError)
    end.

(** [main], with the directory of the script and [DEST_DIR] as parameters;
    the prints are left out. *)
Definition main (script_dir DEST_DIR : path) : M unit :=
  let json_path := joinpath script_dir JSON_FILENAME in
  present ← exists_ json_path;
  if negb present then mret tt
  else
    loaded ← try_except (l ← load_collections json_path; mret (Some l))
               (fun _ => true) (fun _ => mret None);
    match loaded with
    | None => mret tt
    | Some collections =>
        _ ← ensure_dir DEST_DIR;
        _ ← create_structure collections DEST_DIR;
        mret tt
    end.
End Script.
End create_folders_main.

(** [resolve_roots] of [create_materials.py]. *)
Module create_materials_main.
Import PyStr Py Os.

Definition BASE_ASSET_ROOT : str := py "/Game/Materials".
Definition MANUFACTURER_FOLDER : str := py "MayerFabrics".

Record roots := Roots {
  project_root : path;
  base_fs_root : path;
  base_fs_root_vendor : path;
  base_asset_root : str;
  base_asset_root_vendor : str;
}.

Section Script.
Context {U : UnicodeData}.

Definition resolve_roots (json_file : path) : roots :=
  let project_root := parent json_file in
  let project_root :=
    if str_eqb (lower (name project_root)) (py "python") then parent project_root
    else project_root in
  let base_fs_root := joinpath (joinpath project_root (py "Content")) (py "Materials") in
  let base_fs_root_vendor := joinpath base_fs_root MANUFACTURER_FOLDER in
  let base_asset_root_vendor := BASE_ASSET_ROOT ++ py "/" ++ MANUFACTURER_FOLDER in
  Roots project_root base_fs_root base_fs_root_vendor BASE_ASSET_ROOT
    base_asset_root_vendor.
End Script.
End create_materials_main.

(** [resolve_project_root] of [downloadTextures.py], and the destination
    that its [main] derives from it. *)
Module downloadTextures_main.
Import PyStr Py Os.

(** [Path('Content') / 'Texture' / 'MayerFabrics'] *)
Definition DEST_RELATIVE : path :=
  joinpath (joinpath (joinpath [] (py "Content")) (py "Texture")) (py "MayerFabrics").

Section Script.
Context {U : UnicodeData}.

Definition resolve_project_root (json_file : path) : path :=
  let project_root := parent json_file in
  if str_eqb (lower (name project_root)) (py "python") then parent project_root
  else project_root.

(** [(project_root / DEST_RELATIVE).resolve()] of [main]: a relative path
    is appended, and [resolve()] leaves a link-free absolute path as it
    is. *)
Definition dest_root (json_file : path) : path :=
  resolve_project_root json_file ++ DEST_RELATIVE.
End Script.
End downloadTextures_main.

(** ** Shapes of names and of changes to the store *)

Module Shapes.
Import PyStr Py Os.

(** A folder name as [sanitize_folder] leaves it: not empty, free of the
    characters of [INVALID_WIN], with single spaces as its only white space,
    no space in front and neither a dot nor a space at the end. *)
Definition wellformed_folder (s : str) : Prop :=
  s <> []
  /\ Forall (fun c => downloadTextures.INVALID_WIN c = false) s
  /\ Forall (fun c => isspace c = true -> c = 32) s
  /\ no_pair isspace s = true
  /\ starts isspace s = false
  /\ ends (one_of (py ". ")) s = false.

(** What a walk raises on a root that is neither a list nor falsy: a dict or
    a str is iterated and its first item has no [get]; a number or [True] is
    not iterable. *)
Definition root_error (data : json) : exn :=
  match data with
  | JStr _ | JObj _ => AttributeError
  | _ => TypeError
  end.

(** An entry of [build_material_specs] whose paths fit together: the name is
    [MI_<collection>_<subcollection>_<variation>] with three tokens that are
    not empty, and the package path, the asset path, the object path and the
    file on disk all name the same two folders and the same asset; the file
    on disk lies two folders below the resolved vendor root. *)
Definition wellformed_spec `{Process} (base_fs : path) (base_asset : str)
    (sp : create_materials.spec) : Prop :=
  exists coll_tok sub_tok var_tok coll_folder sub_folder,
    (coll_tok <> [] /\ sub_tok <> [] /\ var_tok <> [])
    /\ Forall (fun c => Views.final_char c = true) (coll_tok ++ sub_tok ++ var_tok)
    /\ wellformed_folder coll_folder /\ wellformed_folder sub_folder
    /\ create_materials.spec_name sp
       = py "MI_" ++ coll_tok ++ py "_" ++ sub_tok ++ py "_" ++ var_tok
    /\ create_materials.package_path sp
       = base_asset ++ py "/" ++ coll_folder ++ py "/" ++ sub_folder
    /\ create_materials.asset_path sp
       = create_materials.package_path sp ++ py "/" ++ create_materials.spec_name sp
    /\ create_materials.object_path sp
       = create_materials.asset_path sp ++ py "." ++ create_materials.spec_name sp
    /\ (exists root,
          resolve base_fs = Ok root
          /\ create_materials.filesystem_path sp
             = root ++ [coll_folder; sub_folder;
                        create_materials.spec_name sp ++ py ".uasset"])
    /\ create_materials.parent sp = create_materials.PARENT_MATERIAL_OBJECT_PATH.

(** How a run may change the store: at every path outside [free] the node is
    what it was, or a directory was made where there was nothing, at a path
    that satisfies [made]. *)
Definition changes_within (free made : path -> Prop) (fs fs' : gmap path node)
  : Prop :=
  forall q, ~ free q ->
    fs' !! q = fs !! q
    \/ (fs !! q = None /\ fs' !! q = Some Dir /\ made q).

(** Does [s] end with [suf]? *)
Definition ends_with (suf s : str) : bool :=
  str_eqb (drop (length s - length suf) s) suf.

(** The variations for which [process_all] went to the network, as far as
    the summary tells: those downloaded and, at most, those failed. *)
Definition spent (s : downloadTextures.summary) : nat :=
  (downloadTextures.downloaded s + downloadTextures.failed s)%nat.

(** The requests of a stretch of the run are covered by its outcome: at
    least one for every download, at most three for every download or
    failure. *)
Definition within_budget (before after : downloadTextures.summary * world) : Prop :=
  (requests (snd before) + downloadTextures.downloaded (fst after)
   <= requests (snd after) + downloadTextures.downloaded (fst before))%nat
  /\ (requests (snd after) + 3 * spent (fst before)
      <= requests (snd before) + 3 * spent (fst after))%nat.

(** A stretch of a second run that had nothing to do: no download, no
    failure, no error entry. *)
Definition idle (s s' : downloadTextures.summary) : Prop :=
  downloadTextures.downloaded s' = downloadTextures.downloaded s
  /\ downloadTextures.failed s' = downloadTextures.failed s
  /\ downloadTextures.errors s' = downloadTextures.errors s.

(** The variations that [process_all] has counted so far. *)
Definition visited (s : downloadTextures.summary) : nat :=
  (downloadTextures.downloaded s + downloadTextures.skipped s
   + downloadTextures.failed s)%nat.

(** What one download may change: the destination [dir / nm] and its
    temporary sibling are free, and directories may appear at the prefixes of
    [dir]. *)
Definition download_step (dir : path) (nm : str) (fs fs' : gmap path node) : Prop :=
  changes_within
    (fun q => q = dir ++ [nm] \/ q = dir ++ [nm ++ py ".part"])
    (fun q => q `prefix_of` dir) fs fs'.

(** A path as [resolve()] returns it: absolute and free of [".."].  Two
    such paths name the same node only when they are equal. *)
Definition resolved_path (p : path) : bool := is_absolute p && plain p.

(** A store that is written in resolved paths. *)
Definition resolved_store (fs : gmap path node) : Prop :=
  forall p, is_Some (fs !! p) -> resolved_path p = true.

(** The items of a list that a walk reads, none when the read raises. *)
Definition items_of (r : result json) : list json :=
  match r ≫= iter with
  | Ok l => l
  | Raise _ => []
  end.

(** Every variation under a subcollection under a collection of the
    catalog: the variations that [process_all] can get to. *)
Definition variations_reached (data : json) : list json :=
  coll ← items_of (or_else data (Ok (JArr [])));
  sub ← items_of (downloadTextures._get_subcollection_list coll);
  items_of (downloadTextures._get_variations_list sub).

(** A variation whose texture stays under the directory it is joined to as
    written: no component of [<pattern>.jpg] is [".."]. *)
Definition tame_variation (var : json) : bool :=
  match downloadTextures._get_variation_pattern var with
  | Ok (Some pattern) => plain (components (pattern ++ py ".jpg"))
  | _ => true
  end.

Definition tame (data : json) : bool :=
  forallb tame_variation (variations_reached data).

(** Every node of [w] whose name does not end in ".part" is in [w'] as it
    was. *)
Definition keeps_finished (w w' : world) : Prop :=
  forall q n,
    files w !! q = Some n -> ends_with (py ".part") (name q) = false ->
    files w' !! q = Some n.

(** Every node of [fs] is in [fs'] as it was. *)
Definition keeps (fs fs' : gmap path node) : Prop :=
  forall q n, fs !! q = Some n -> fs' !! q = Some n.

(** Paths at which [create_structure] may make a directory: the ancestors
    of the destination, the destination, and two levels below it. *)
Definition near (dest : path) (q : path) : Prop :=
  q `prefix_of` dest
  \/ (dest `prefix_of` q /\ (length q <= length dest + 2)%nat).

(** One step of the materializer, seen from outside. *)
Definition materializer_step (dest : path) (w w' : world) : Prop :=
  changes_within (fun _ => False) (near dest) (files w) (files w')
  /\ requests w' = requests w.

(** Nothing is left for [ensure_dir p] to do: the path exists, or a file
    stands at one of its prefixes below directories. *)
Definition settled (p : path) (fs : gmap path node) : Prop :=
  is_Some (fs !! p)
  \/ exists k content,
       (0 < k <= length p)%nat
       /\ fs !! take k p = Some (File content)
       /\ forall j, (0 < j < k)%nat -> fs !! take j p = Some Dir.

(** Two outcomes of the same walk, the second on a later store: both
    return, and the accumulators are related by [Q], or both raise the same
    exception. *)
Definition agree {S} (Q : S -> S -> Prop) (ab : S) (r1 rb : result S) : Prop :=
  match r1, rb with
  | Ok _, Ok ab' => Q ab ab'
  | Raise e, Raise e' => e = e'
  | _, _ => False
  end.

(** A computation that, run again on a store that keeps what its first run
    left, changes no file, sends no request and ends as the first run did. *)
Definition replays {S} (Q : S -> S -> Prop) (m : S -> M S) : Prop :=
  forall a w ab wb,
    keeps (files (fst (m a w))) (files wb) ->
    files (fst (m ab wb)) = files wb
    /\ requests (fst (m ab wb)) = requests wb
    /\ agree Q ab (snd (m a w)) (snd (m ab wb)).

(** The directories that [create_structure] has counted as created. *)
Definition same_created (c c' : create_folders.counts) : Prop :=
  create_folders.created_collections c' = create_folders.created_collections c
  /\ create_folders.created_subcollections c'
     = create_folders.created_subcollections c.

(** A stretch of [process_all] that, once it has run without a failure,
    finds nothing to do when it is run again on a store that keeps the
    finished files: the world stays as it is and every variation that was
    counted is now counted as skipped. *)
Definition reruns_clean (m : downloadTextures.summary -> M downloadTextures.summary)
  : Prop :=
  forall a w a1 w1 ab wb,
    m a w = (w1, Ok a1) ->
    downloadTextures.failed a1 = downloadTextures.failed a ->
    keeps_finished w1 wb ->
    exists ab',
      m ab wb = (wb, Ok ab')
      /\ idle ab ab'
      /\ (downloadTextures.skipped ab' + visited a
          = downloadTextures.skipped ab + visited a1)%nat.
End Shapes.

(** ** More sample data *)

Module MoreSamples.
Import Py Os.

(** A remote end whose answer breaks off: an exception that the [except]
    clause of [download_with_retries] does not list. *)
Definition net_broken : Network := fun _ _ => Raise (OtherError (py "IncompleteRead")).

(** The folder of the textures of [Samples.wools] under [/repo], resolved. *)
Definition repo_heavy_dir : path :=
  [py "/"; py "repo"; py "textures"; py "Wools"; py "Heavy"].

(** A world with a file that no download is about. *)
Definition repo_with_notes : world :=
  World {[ [py "/"; py "repo"; py "textures"; py "notes.txt"] := File [Byte.x4a] ]} 0 [].

(** The catalog wrapped in an object instead of given as the root list. *)
Definition wrapped_catalog : json :=
  JObj [(py "collections", JArr [Samples.wools])].

(** A world where the catalog file of [create-folders.py] exists. *)
Definition world_with_catalog : world :=
  World {[ [py "Python"; py "collections.json"] := File [Byte.x7b] ]} 0 [].
End MoreSamples.

(** * Properties *)

(** ** Stripping and run replacement *)

Module PyStrFacts.
Import PyStr.

Section Strip.
Variable p : N -> bool.

Abbreviation all_p := (Forall (fun c => p c = true)).

Lemma lstrip_with_skip w s :
  all_p w -> lstrip_with p (w ++ s) = lstrip_with p s.
Proof.
  induction 1 as [|c w Hc _ IH]; simpl; [done|]. by rewrite Hc.
Qed.

Lemma lstrip_with_split s :
  exists w, all_p w /\ s = w ++ lstrip_with p s.
Proof.
  induction s as [|c t [w [Hw Ht]]]; simpl.
  - by exists [].
  - destruct (p c) eqn:Hc.
    + exists (c :: w). split; [by constructor|]. simpl. by f_equal.
    + by exists [].
Qed.

Lemma starts_lstrip_with s : starts p (lstrip_with p s) = false.
Proof.
  induction s as [|c t IH]; simpl; [done|].
  destruct (p c) eqn:Hc; [done|]. unfold starts. simpl. done.
Qed.

Lemma lstrip_with_id s : starts p s = false -> lstrip_with p s = s.
Proof. destruct s as [|c t]; [done|]. unfold starts. simpl. by intros ->. Qed.

Lemma rstrip_with_all w : all_p w -> rstrip_with p w = [].
Proof.
  induction 1 as [|c w Hc _ IH]; simpl; [done|]. by rewrite IH, Hc.
Qed.

Lemma rstrip_with_skip s w :
  all_p w -> rstrip_with p (s ++ w) = rstrip_with p s.
Proof.
  intros Hw. induction s as [|c t IH]; simpl.
  - by apply rstrip_with_all.
  - by rewrite IH.
Qed.

Lemma rstrip_with_split s :
  exists w, all_p w /\ s = rstrip_with p s ++ w.
Proof.
  induction s as [|c t [w [Hw Ht]]]; simpl.
  - by exists [].
  - destruct (rstrip_with p t) as [|d t'] eqn:Hr.
    + destruct (p c) eqn:Hc.
      * exists (c :: w). split; [by constructor|]. simpl in Ht. by rewrite <- Ht.
      * exists w. split; [done|]. simpl in *. by rewrite <- Ht.
    + exists w. split; [done|]. simpl in *. by rewrite <- Ht.
Qed.

Lemma rstrip_with_cons c t :
  rstrip_with p (c :: t) = [] \/ exists r, rstrip_with p (c :: t) = c :: r.
Proof.
  simpl. destruct (rstrip_with p t); [destruct (p c)|]; eauto.
Qed.

Lemma starts_rstrip_with q s :
  starts q s = false -> starts q (rstrip_with p s) = false.
Proof.
  destruct s as [|c t]; [done|]. intros H.
  destruct (rstrip_with_cons c t) as [-> | [r ->]]; [done|].
  exact H.
Qed.

Lemma ends_rstrip_with s : ends p (rstrip_with p s) = false.
Proof.
  induction s as [|c t IH]; simpl; [done|].
  destruct (rstrip_with p t) as [|d t'] eqn:Hr.
  - destruct (p c) eqn:Hc; [done|]. unfold ends. simpl. done.
  - unfold ends in *. simpl in *. done.
Qed.

Lemma rstrip_with_id s : ends p s = false -> rstrip_with p s = s.
Proof.
  induction s as [|c t IH]; [done|]. intros H. simpl.
  destruct t as [|d t'].
  - unfold ends in H. simpl in *. by rewrite H.
  - rewrite IH by exact H. done.
Qed.

Lemma strip_with_fenced w1 s w2 :
  all_p w1 -> all_p w2 -> strip_with p (w1 ++ s ++ w2) = strip_with p s.
Proof.
  intros H1 H2. unfold strip_with. rewrite lstrip_with_skip by done.
  induction s as [|c t IH]; simpl.
  - rewrite <- (app_nil_r w2), lstrip_with_skip by done. done.
  - destruct (p c); [done|].
    by rewrite app_comm_cons, rstrip_with_skip.
Qed.

Lemma strip_with_split s :
  exists w1 w2, all_p w1 /\ all_p w2 /\ s = w1 ++ strip_with p s ++ w2.
Proof.
  destruct (lstrip_with_split s) as [w1 [H1 E1]].
  destruct (rstrip_with_split (lstrip_with p s)) as [w2 [H2 E2]].
  exists w1, w2. repeat split; [done..|].
  unfold strip_with. by rewrite <- E2.
Qed.

Lemma strip_with_idem s : strip_with p (strip_with p s) = strip_with p s.
Proof.
  unfold strip_with.
  rewrite (lstrip_with_id (rstrip_with p (lstrip_with p s))).
  - apply rstrip_with_id, ends_rstrip_with.
  - apply starts_rstrip_with, starts_lstrip_with.
Qed.

Lemma starts_strip_with s : starts p (strip_with p s) = false.
Proof. apply starts_rstrip_with, starts_lstrip_with. Qed.

Lemma ends_strip_with s : ends p (strip_with p s) = false.
Proof. apply ends_rstrip_with. Qed.

Lemma Forall_lstrip_with (Q : N -> Prop) s :
  Forall Q s -> Forall Q (lstrip_with p s).
Proof.
  induction 1 as [|c t Hc Ht IH]; simpl; [done|].
  destruct (p c); [done|]. by constructor.
Qed.

Lemma Forall_rstrip_with (Q : N -> Prop) s :
  Forall Q s -> Forall Q (rstrip_with p s).
Proof.
  induction 1 as [|c t Hc Ht IH]; simpl; [done|].
  destruct (rstrip_with p t); [destruct (p c)|]; auto.
Qed.

Lemma Forall_strip_with (Q : N -> Prop) s :
  Forall Q s -> Forall Q (strip_with p s).
Proof. intros. by apply Forall_rstrip_with, Forall_lstrip_with. Qed.

Lemma strip_with_none s :
  Forall (fun c => p c = false) s -> strip_with p s = s.
Proof.
  intros H. unfold strip_with.
  assert (lstrip_with p s = s) as ->.
  { destruct H as [|c t Hc _]; simpl; [done|]. by rewrite Hc. }
  induction H as [|c t Hc _ IH]; simpl; [done|].
  rewrite IH. destruct t; [by rewrite Hc|done].
Qed.

(** [rstrip] is [lstrip] on the reversed string. *)
Lemma lstrip_with_snoc s c :
  lstrip_with p (s ++ [c]) =
  match lstrip_with p s with
  | [] => if p c then [] else [c]
  | t => t ++ [c]
  end.
Proof.
  induction s as [|d t IH]; simpl; [done|].
  destruct (p d); [done|]. done.
Qed.

Lemma rstrip_with_rev s :
  rstrip_with p s = rev (lstrip_with p (rev s)).
Proof.
  induction s as [|c t IH]; simpl; [done|].
  rewrite lstrip_with_snoc, IH.
  destruct (lstrip_with p (rev t)) as [|d u]; simpl.
  - by destruct (p c).
  - rewrite rev_app_distr. simpl.
    destruct (rev u ++ [d]) eqn:E; [by destruct (rev u)|done].
Qed.
End Strip.

Lemma lstrip_with_ext p q s :
  (forall c, p c = q c) -> lstrip_with p s = lstrip_with q s.
Proof. intros E. induction s as [|c t IH]; simpl; [done|]. by rewrite <- E, IH. Qed.

Lemma rstrip_with_ext p q s :
  (forall c, p c = q c) -> rstrip_with p s = rstrip_with q s.
Proof. intros E. induction s as [|c t IH]; simpl; [done|]. by rewrite <- E, IH. Qed.

Lemma strip_with_ext p q s :
  (forall c, p c = q c) -> strip_with p s = strip_with q s.
Proof.
  intros E. unfold strip_with.
  by rewrite (lstrip_with_ext p q), (rstrip_with_ext p q).
Qed.

Lemma one_of_single x c : one_of [x] c = N.eqb x c.
Proof. unfold one_of. simpl. rewrite orb_false_r. apply N.eqb_sym. Qed.

(** [Spec.trim] is [strip] with a one-character set. *)
Lemma trim_strip_chars x s : Spec.trim x s = strip_chars [x] s.
Proof.
  unfold Spec.trim, strip_chars, strip_with.
  rewrite <- rstrip_with_rev.
  rewrite (lstrip_with_ext (one_of [x]) (N.eqb x)) by apply one_of_single.
  by rewrite (rstrip_with_ext (one_of [x]) (N.eqb x)) by apply one_of_single.
Qed.

Section Runs.
Variable p : N -> bool.
Variable r : str.

Abbreviation all_p := (Forall (fun c => p c = true)).

Lemma sub_plus_true_skip w s :
  all_p w ->
  re_sub_plus_from p r true (w ++ s) = re_sub_plus_from p r true s.
Proof. induction 1 as [|c w Hc _ IH]; simpl; [done|]. by rewrite Hc. Qed.

Lemma sub_plus_false_true s :
  re_sub_plus_from p r false s =
  (if starts p s then r else []) ++ re_sub_plus_from p r true s.
Proof.
  destruct s as [|c t]; [done|]. unfold starts. simpl.
  by destruct (p c).
Qed.

Lemma sub_plus_app_all b s w :
  all_p w ->
  exists e, (e = [] \/ e = r) /\
    re_sub_plus_from p r b (s ++ w) = re_sub_plus_from p r b s ++ e.
Proof.
  intros Hw. induction s as [|c t IH] in b |- *; simpl.
  - destruct Hw as [|c w Hc Hw]; [exists []; auto|].
    simpl. rewrite Hc.
    rewrite <- (app_nil_r w), sub_plus_true_skip by done. simpl.
    destruct b; [exists []; auto|exists r; rewrite app_nil_r; auto].
  - destruct (p c).
    + destruct b.
      * apply IH.
      * destruct (IH true) as [e [He ->]]. exists e. by rewrite app_assoc.
    + destruct (IH false) as [e [He ->]]. exists e. auto.
Qed.

Lemma sub_plus_none b s :
  Forall (fun c => p c = false) s -> re_sub_plus_from p r b s = s.
Proof.
  intros H. induction H as [|c t Hc _ IH] in b |- *; simpl; [done|].
  by rewrite Hc, IH.
Qed.

Lemma Forall_sub_plus (Q : N -> Prop) b s :
  Forall Q r -> Forall Q s -> Forall Q (re_sub_plus_from p r b s).
Proof.
  intros Hr H. induction H as [|c t Hc _ IH] in b |- *; simpl; [done|].
  destruct (p c); [destruct b|]; auto.
  apply Forall_app; auto.
Qed.

Lemma starts_sub_plus_true s :
  starts p (re_sub_plus_from p r true s) = false.
Proof.
  induction s as [|c t IH]; simpl; [done|].
  destruct (p c) eqn:Hc; [done|]. unfold starts. simpl. done.
Qed.

(** Class members around [s] leave at most one [r] on each side. *)
Lemma sub_plus_fenced w1 s w2 :
  all_p w1 -> all_p w2 ->
  exists e1 e2, (e1 = [] \/ e1 = r) /\ (e2 = [] \/ e2 = r) /\
    re_sub_plus_from p r false (w1 ++ s ++ w2)
      = e1 ++ re_sub_plus_from p r true s ++ e2.
Proof.
  intros H1 H2.
  rewrite sub_plus_false_true, app_assoc.
  destruct (sub_plus_app_all true (w1 ++ s) w2 H2) as [e2 [He2 ->]].
  rewrite sub_plus_true_skip by done.
  exists (if starts p ((w1 ++ s) ++ w2) then r else []), e2.
  split; [destruct (starts p _); auto|]. split; [done|].
  by rewrite app_assoc.
Qed.

(** The scanner and the run-by-run reading agree. *)
Lemma sub_plus_replace_runs s :
  re_sub_plus_from p r false s = Spec.replace_runs p r s /\
  (if starts p s then r else []) ++ re_sub_plus_from p r true s
    = Spec.replace_runs p r s.
Proof.
  induction s as [|c t [IH1 IH2]]; [done|].
  assert (re_sub_plus_from p r false (c :: t) = Spec.replace_runs p r (c :: t))
    as E.
  { simpl. destruct (p c) eqn:Hc; [|by rewrite IH1].
    destruct t as [|c' t']; [by rewrite app_nil_r|].
    rewrite <- IH2. unfold starts. change (head (c' :: t')) with (Some c').
    cbv beta iota. by destruct (p c'). }
  split; [exact E|].
  rewrite <- E. symmetry. apply sub_plus_false_true.
Qed.
End Runs.

Lemma re_sub_plus_spec p r s : re_sub_plus p r s = Spec.replace_runs p r s.
Proof. apply sub_plus_replace_runs. Qed.

(** *** Collapsing the repeats of one character *)

Section Collapse.
Variable x : N.

Lemma replace_runs_collapse s :
  Spec.replace_runs (N.eqb x) [x] s = Spec.collapse x s.
Proof.
  induction s as [|a t IH]; [done|].
  simpl. rewrite IH. rewrite (N.eqb_sym a x).
  destruct (N.eqb_spec x a) as [<-|Hne]; simpl.
  - destruct t as [|b t']; [done|].
    rewrite (N.eqb_sym b x). by destruct (x =? b).
  - by destruct t.
Qed.

Lemma re_sub_plus_collapse s :
  re_sub_plus (N.eqb x) [x] s = Spec.collapse x s.
Proof. by rewrite re_sub_plus_spec, replace_runs_collapse. Qed.

Lemma sub_two_collapse s :
  re_sub_two_from (N.eqb x) [x] false s = Spec.collapse x s /\
  (if starts (N.eqb x) s then [x] else []) ++
    re_sub_two_from (N.eqb x) [x] true s = Spec.collapse x s.
Proof.
  induction s as [|a t [IH1 IH2]]; [done|].
  unfold starts in *. change (head (a :: t)) with (Some a). cbv beta iota.
  simpl re_sub_two_from. simpl Spec.collapse.
  rewrite (N.eqb_sym a x).
  destruct (N.eqb_spec x a) as [<-|Hne]; simpl.
  - destruct t as [|b t']; [done|].
    change (head (b :: t')) with (Some b) in IH2. cbv beta iota in IH2.
    rewrite (N.eqb_sym b x).
    destruct (x =? b) eqn:Hb.
    + split; exact IH2.
    + rewrite IH1. split; [done|]. f_equal. exact IH2.
  - rewrite IH1. by destruct t.
Qed.

Lemma re_sub_two_collapse s :
  re_sub_two (N.eqb x) [x] s = Spec.collapse x s.
Proof. apply sub_two_collapse. Qed.

Lemma Forall_collapse (Q : N -> Prop) s :
  Forall Q s -> Forall Q (Spec.collapse x s).
Proof.
  induction 1 as [|a t Ha Ht IH]; [done|].
  simpl. destruct t as [|b t']; [by constructor|].
  destruct ((a =? x) && (b =? x)); [done|by constructor].
Qed.

Lemma no_pair_sub_plus b s :
  no_pair (N.eqb x) (re_sub_plus_from (N.eqb x) [x] b s) = true.
Proof.
  induction s as [|a t IH] in b |- *; simpl; [done|].
  destruct (x =? a) eqn:Ha.
  - destruct b; [done|]. simpl.
    by rewrite starts_sub_plus_true, IH, andb_false_r.
  - simpl. by rewrite Ha, IH.
Qed.

Lemma sub_plus_no_pair s :
  no_pair (N.eqb x) s = true -> re_sub_plus (N.eqb x) [x] s = s.
Proof.
  unfold re_sub_plus. induction s as [|a t IH]; simpl; [done|].
  intros [H1 H2]%andb_prop.
  destruct (N.eqb_spec x a) as [<-|Hne]; simpl in *.
  - apply negb_true_iff in H1. f_equal.
    rewrite <- (IH H2) at 2. rewrite (sub_plus_false_true _ _ t), H1. done.
  - by rewrite (IH H2).
Qed.

Lemma no_pair_lstrip_with q s :
  no_pair (N.eqb x) s = true -> no_pair (N.eqb x) (lstrip_with q s) = true.
Proof.
  induction s as [|a t IH]; simpl; [done|].
  intros H. destruct (q a); [|done].
  apply IH. by apply andb_prop in H as [_ ?].
Qed.

Lemma no_pair_rstrip_with q s :
  no_pair (N.eqb x) s = true -> no_pair (N.eqb x) (rstrip_with q s) = true.
Proof.
  induction s as [|a t IH]; [done|].
  intros [H1 H2]%andb_prop. simpl.
  specialize (IH H2).
  destruct t as [|b t'].
  - simpl. destruct (q a); [done|]. simpl. by rewrite andb_false_r.
  - destruct (rstrip_with_cons q b t') as [E | [u E]]; rewrite E in *.
    + destruct (q a); [done|]. simpl. by rewrite andb_false_r.
    + simpl. simpl in IH. rewrite IH, andb_true_r. exact H1.
Qed.
End Collapse.

Lemma re_sub_plus_ext p q r s b :
  (forall c, p c = q c) ->
  re_sub_plus_from p r b s = re_sub_plus_from q r b s.
Proof.
  intros E. induction s as [|c t IH] in b |- *; simpl; [done|].
  by rewrite <- E, !IH.
Qed.
End PyStrFacts.

(** ** The directory slug *)

Module SlugFacts.
Import PyStr PyStrFacts create_folders Views.

Lemma re_sub1_delete p s :
  re_sub1 p [] s = List.filter (fun c => negb (p c)) s.
Proof.
  unfold re_sub1. induction s as [|c t IH]; simpl; [done|].
  rewrite IH. by destruct (p c).
Qed.

Lemma filter_keep_all (q : N -> bool) s :
  Forall (fun c => q c = true) s -> List.filter q s = s.
Proof. induction 1 as [|c t Hc _ IH]; simpl; [done|]. by rewrite Hc, IH. Qed.

Lemma Forall_filter_keep (q : N -> bool) s :
  Forall (fun c => q c = true) (List.filter q s).
Proof.
  induction s as [|c t IH]; simpl; [done|].
  destruct (q c) eqn:E; [by constructor|done].
Qed.

Lemma slugify_unfold {U : UnicodeData} name :
  slugify name = or_unnamed (slug_tail (lower (strip name))).
Proof.
  unfold slugify, slug_tail, or_unnamed, strip_chars.
  rewrite re_sub1_delete.
  rewrite (strip_with_ext (one_of (py "_")) (N.eqb 95)) by apply one_of_single.
  rewrite (List.filter_ext (fun c => negb (not_slug_char c)) Spec.slug_char).
  2: { intros c. unfold not_slug_char, Spec.slug_char. apply negb_involutive. }
  reflexivity.
Qed.

Lemma all_underscore e : e = [] \/ e = [95] -> Forall (fun c => (95 =? c) = true) e.
Proof. intros [-> | ->]; repeat constructor. Qed.

Lemma filter_underscore e :
  e = [] \/ e = [95] -> List.filter Spec.slug_char e = e.
Proof. by intros [-> | ->]. Qed.

(** Underscores around a string vanish in the collapse-and-trim steps. *)
Lemma collapse_trim_fenced u1 z u2 :
  Forall (fun c => (95 =? c) = true) u1 ->
  Forall (fun c => (95 =? c) = true) u2 ->
  strip_with (N.eqb 95) (re_sub_plus (N.eqb 95) [95] (u1 ++ z ++ u2))
  = strip_with (N.eqb 95) (re_sub_plus_from (N.eqb 95) [95] true z).
Proof.
  intros H1 H2. unfold re_sub_plus.
  destruct (sub_plus_fenced (N.eqb 95) [95] u1 z u2 H1 H2)
    as [e1 [e2 [He1 [He2 ->]]]].
  apply strip_with_fenced; by apply all_underscore.
Qed.

(** Separators around a string leave no trace in the slug. *)
Lemma slug_tail_fenced w1 s w2 :
  Forall (fun c => is_separator c = true) w1 ->
  Forall (fun c => is_separator c = true) w2 ->
  slug_tail (w1 ++ s ++ w2) = slug_tail s.
Proof.
  intros H1 H2. unfold slug_tail, re_sub_plus at 2 4.
  destruct (sub_plus_fenced is_separator [95] w1 s w2 H1 H2)
    as [e1 [e2 [He1 [He2 ->]]]].
  destruct (sub_plus_fenced is_separator [95] [] s [] (Forall_nil_2 _) (Forall_nil_2 _))
    as [d1 [d2 [Hd1 [Hd2 E]]]].
  rewrite app_nil_l, app_nil_r in E. rewrite E.
  rewrite !List.filter_app.
  rewrite (filter_underscore e1), (filter_underscore e2),
    (filter_underscore d1), (filter_underscore d2) by done.
  rewrite (collapse_trim_fenced e1), (collapse_trim_fenced d1)
    by (by apply all_underscore).
  done.
Qed.

(** Comparisons of code points, as linear arithmetic. *)
Ltac to_prop H :=
  rewrite ?orb_true_iff, ?andb_true_iff, ?N.leb_le, ?N.ltb_lt, ?N.eqb_eq in H.

Ltac class_arith :=
  unfold is_separator, Spec.slug_char, Spec.token_char, Spec.is_path_separator,
    isspace, is_upper_az, is_lower_az, is_digit, is_ascii in *;
  repeat match goal with
         | H : _ = true |- _ => progress (to_prop H)
         end;
  match goal with
  | |- _ = false => apply not_true_iff_false; let G := fresh in intro G; to_prop G; lia
  | |- _ = true =>
      rewrite ?orb_true_iff, ?andb_true_iff, ?N.leb_le, ?N.ltb_lt, ?N.eqb_eq; lia
  end.

Lemma isspace_separator c : isspace c = true -> is_separator c = true.
Proof. intros H. unfold is_separator. by rewrite H. Qed.

Lemma isspace_not_upper c : isspace c = true -> is_upper_az c = false.
Proof. intros H. class_arith. Qed.

Lemma slug_char_not_space c : Spec.slug_char c = true -> isspace c = false.
Proof. intros H. class_arith. Qed.

Lemma slug_char_not_separator c : Spec.slug_char c = true -> is_separator c = false.
Proof. intros H. class_arith. Qed.

Lemma slug_char_not_upper c : Spec.slug_char c = true -> is_upper_az c = false.
Proof. intros H. class_arith. Qed.

Lemma slug_char_ascii c : Spec.slug_char c = true -> is_ascii c = true.
Proof. intros H. class_arith. Qed.

Section Lower.
Context {U : UnicodeData}.

Lemma lower_app s t : lower (s ++ t) = lower s ++ lower t.
Proof. apply flat_map_app. Qed.

Lemma lower_slug_chars s :
  Forall (fun c => Spec.slug_char c = true) s -> lower s = s.
Proof.
  induction 1 as [|c t Hc _ IH]; [done|].
  unfold lower in *. simpl. rewrite IH. unfold lower_char.
  by rewrite (slug_char_not_upper c Hc), (slug_char_ascii c Hc).
Qed.

(** No white space has a lowercase mapping. *)
Hypothesis lower_space : forall c, isspace c = true -> unicode_lower c = [c].

Lemma lower_spaces w :
  Forall (fun c => isspace c = true) w -> lower w = w.
Proof.
  induction 1 as [|c t Hc _ IH]; [done|].
  unfold lower in *. simpl. rewrite IH. unfold lower_char.
  rewrite (isspace_not_upper c Hc), (lower_space c Hc).
  by destruct (is_ascii c).
Qed.

(** The [strip()] that opens [slugify] changes nothing in the result. *)
Lemma slug_tail_lower_strip raw :
  slug_tail (lower (strip raw)) = slug_tail (lower raw).
Proof.
  destruct (strip_with_split isspace raw) as [w1 [w2 [H1 [H2 E]]]].
  fold (strip raw) in E. rewrite E at 2.
  rewrite !lower_app, (lower_spaces w1), (lower_spaces w2) by done.
  symmetry. apply slug_tail_fenced;
    (eapply Forall_impl; [eassumption|apply isspace_separator]).
Qed.
End Lower.

Lemma spec_slugify_unfold {U : UnicodeData} raw :
  Spec.slugify_for_directories raw = or_unnamed (slug_tail (lower raw)).
Proof.
  unfold Spec.slugify_for_directories, slug_tail, Spec.delete_outside.
  change (py "_") with [95].
  rewrite trim_strip_chars, <- re_sub_plus_collapse, <- re_sub_plus_spec.
  unfold strip_chars.
  rewrite (strip_with_ext (one_of [95]) (N.eqb 95)) by apply one_of_single.
  unfold re_sub_plus.
  rewrite (re_sub_plus_ext (fun c => isspace c || Spec.is_path_separator c)
             is_separator).
  2: { intros c. unfold is_separator, Spec.is_path_separator. apply orb_assoc. }
  unfold or_unnamed. case_bool_decide as E; [by rewrite E|].
  by destruct (strip_with _ _).
Qed.

(** The result of [slug_tail] is a fixed point of every step of [slugify]. *)
Lemma slug_tail_chars s : Forall (fun c => Spec.slug_char c = true) (slug_tail s).
Proof.
  unfold slug_tail. apply Forall_strip_with, Forall_sub_plus.
  - by repeat constructor.
  - apply Forall_filter_keep.
Qed.

Lemma slug_tail_no_pair s : no_pair (N.eqb 95) (slug_tail s) = true.
Proof.
  unfold slug_tail, strip_with.
  apply no_pair_rstrip_with, no_pair_lstrip_with, no_pair_sub_plus.
Qed.

Lemma slug_tail_fixed s : slug_tail (slug_tail s) = slug_tail s.
Proof.
  pose proof (slug_tail_chars s) as Hc.
  pose proof (slug_tail_no_pair s) as Hp.
  unfold slug_tail at 1.
  unfold re_sub_plus at 2. rewrite sub_plus_none.
  2: { eapply Forall_impl; [exact Hc|apply slug_char_not_separator]. }
  rewrite filter_keep_all by exact Hc.
  rewrite sub_plus_no_pair by exact Hp.
  unfold slug_tail. apply strip_with_idem.
Qed.

Lemma slugify_fixed {U : UnicodeData} s :
  slug_tail s <> [] -> slugify (slug_tail s) = slug_tail s.
Proof.
  intros Hne. rewrite slugify_unfold.
  pose proof (slug_tail_chars s) as Hc.
  unfold strip. rewrite strip_with_none.
  2: { eapply Forall_impl; [exact Hc|apply slug_char_not_space]. }
  rewrite lower_slug_chars by exact Hc.
  rewrite slug_tail_fixed. unfold or_unnamed. by destruct (slug_tail s).
Qed.
End SlugFacts.

(** ** Claims about the sanitizers *)

(** C7: for every input string [raw], [slugify] (the directory slug of
    [create-folders.py]) returns what the specified steps return: lowercase,
    replace runs of white space and path separators by an underscore, delete
    what is outside [a-z0-9_], collapse repeated underscores, trim underscores
    at both ends, and answer "unnamed" when nothing is left; and the slug of
    "Modern/Silk" is "modern_silk".  The Unicode table enters through one
    fact: white space has no lowercase mapping. *)
Theorem C7_slugify_follows_the_specified_steps (U : UnicodeData) :
  (forall c, PyStr.isspace c = true -> unicode_lower c = [c]) ->
  (forall raw, create_folders.slugify raw = Spec.slugify_for_directories raw)
  /\ create_folders.slugify (py "Modern/Silk") = py "modern_silk".
Proof.
  intros Hspace. split.
  - intros raw.
    rewrite SlugFacts.slugify_unfold, SlugFacts.spec_slugify_unfold.
    f_equal. by apply SlugFacts.slug_tail_lower_strip.
  - vm_compute. reflexivity.
Qed.

Lemma C7_slugify_witness :
  @create_folders.slugify ascii_only (py "  Linen \ Blends/2024 ")
  = @Spec.slugify_for_directories ascii_only (py "  Linen \ Blends/2024 ").
Proof.
  apply (C7_slugify_follows_the_specified_steps ascii_only).
  intros c _. reflexivity.
Defined.

(** C9: the directory slug is idempotent: for every string [s],
    [slugify (slugify s) = slugify s]. *)
Theorem C9_slugify_idempotent (U : UnicodeData) (s : str) :
  create_folders.slugify (create_folders.slugify s) = create_folders.slugify s.
Proof.
  rewrite (SlugFacts.slugify_unfold s).
  destruct (Views.slug_tail (PyStr.lower (PyStr.strip s))) as [|c t] eqn:E.
  - vm_compute. reflexivity.
  - change (Views.or_unnamed (c :: t)) with (c :: t).
    rewrite <- E. apply SlugFacts.slugify_fixed. by rewrite E.
Qed.

(** ** The asset token *)

Module TokenFacts.
Import PyStr PyStrFacts SlugFacts create_materials Views.

Lemma replace_char_map a b s :
  replace_char a [b] s = List.map (fun c => if c =? a then b else c) s.
Proof.
  unfold replace_char. induction s as [|c t IH]; simpl; [done|].
  rewrite IH. by destruct (c =? a).
Qed.

Lemma token_char_ascii c : Spec.token_char c = true -> is_ascii c = true.
Proof. intros H. class_arith. Qed.

Lemma up1_final c : Spec.token_char c = true -> final_char (up1 c) = true.
Proof.
  intros H. unfold up1, final_char.
  destruct (is_lower_az c) eqn:E; [class_arith|].
  unfold Spec.token_char in H. by rewrite E, orb_false_r in H.
Qed.

Lemma up1_hyphen c : Spec.token_char c = true -> up1 c = 45 -> c = 45.
Proof.
  unfold up1. destruct (is_lower_az c) eqn:E; [|done].
  intros _ H. unfold is_lower_az in E. to_prop E. lia.
Qed.

Section Upper.
Context {U : UnicodeData}.

Lemma upper_token_chars s :
  Forall (fun c => Spec.token_char c = true) s -> upper s = List.map up1 s.
Proof.
  induction 1 as [|c t Hc _ IH]; [done|].
  unfold upper in *. simpl. rewrite IH. unfold upper_char, up1.
  rewrite (token_char_ascii c Hc). by destruct (is_lower_az c).
Qed.
End Upper.

Lemma Forall_map_up1 s :
  Forall (fun c => Spec.token_char c = true) s ->
  Forall (fun c => final_char c = true) (List.map up1 s).
Proof.
  induction 1 as [|c t Hc _ IH]; simpl; constructor; [by apply up1_final|done].
Qed.

Lemma head_map_up1 s :
  Forall (fun c => Spec.token_char c = true) s ->
  starts (N.eqb 45) s = false -> head (List.map up1 s) <> Some 45.
Proof.
  destruct 1 as [|c t Hc _]; [done|]. unfold starts. simpl.
  intros Hne [= E]. apply (up1_hyphen c Hc) in E. subst c. done.
Qed.

Lemma last_map_up1 s :
  Forall (fun c => Spec.token_char c = true) s ->
  ends (N.eqb 45) s = false -> last (List.map up1 s) <> Some 45.
Proof.
  induction 1 as [|c t Hc Ht IH]; [done|].
  destruct t as [|d t'].
  - unfold ends. simpl. intros Hne [= E].
    apply (up1_hyphen c Hc) in E. subst c. done.
  - intros He. apply IH. exact He.
Qed.

Lemma sanitize_token_unfold {U : UnicodeData} text :
  sanitize_token text = upper (token_body (strip_accents text)).
Proof.
  unfold sanitize_token, token_body, strip_chars.
  change (py "-") with [45].
  rewrite replace_char_map, re_sub1_delete, re_sub_two_collapse.
  rewrite (strip_with_ext (one_of [45]) (N.eqb 45)) by apply one_of_single.
  rewrite (List.filter_ext (fun c => negb (not_token_char c)) Spec.token_char).
  2: { intros c. unfold not_token_char, Spec.token_char. apply negb_involutive. }
  reflexivity.
Qed.

Lemma strip_diacritics_filter {U : UnicodeData} raw :
  Spec.strip_diacritics raw = strip_accents raw.
Proof.
  unfold Spec.strip_diacritics, Spec.delete_outside, Spec.is_accent, strip_accents.
  apply List.filter_ext. intros c. apply negb_involutive.
Qed.

Lemma spec_tokenize_unfold {U : UnicodeData} raw :
  Spec.tokenize_for_asset_name raw = upper (token_body (strip_accents raw)).
Proof.
  unfold Spec.tokenize_for_asset_name, token_body.
  rewrite strip_diacritics_filter. unfold Spec.delete_outside.
  rewrite trim_strip_chars. unfold strip_chars.
  by rewrite (strip_with_ext (one_of [45]) (N.eqb 45)) by apply one_of_single.
Qed.

Lemma token_body_chars s : Forall (fun c => Spec.token_char c = true) (token_body s).
Proof.
  unfold token_body. apply Forall_strip_with, Forall_collapse, Forall_filter_keep.
Qed.

Lemma sanitize_token_alphabet {U : UnicodeData} text :
  Forall (fun c => final_char c = true) (sanitize_token text)
  /\ head (sanitize_token text) <> Some 45
  /\ last (sanitize_token text) <> Some 45.
Proof.
  rewrite sanitize_token_unfold.
  pose proof (token_body_chars (strip_accents text)) as Hc.
  rewrite (upper_token_chars _ Hc).
  split; [by apply Forall_map_up1|]. split.
  - apply head_map_up1; [done|]. apply starts_strip_with.
  - apply last_map_up1; [done|]. apply ends_strip_with.
Qed.

(** On ASCII text [strip_accents] has nothing to strip. *)
Lemma strip_accents_ascii {U : UnicodeData} s :
  (forall t, Forall (fun c => is_ascii c = true) t -> normalize_NFKD t = t) ->
  (forall c, is_ascii c = true -> combining c = 0) ->
  Forall (fun c => is_ascii c = true) s -> strip_accents s = s.
Proof.
  intros Hn Hc Hs. unfold strip_accents. rewrite (Hn s Hs).
  apply filter_keep_all. eapply Forall_impl; [exact Hs|].
  intros c H. simpl. by rewrite (Hc c H).
Qed.

(** The sample tables leave ASCII alone. *)
Lemma accents_ascii t :
  Forall (fun c => is_ascii c = true) t -> @normalize_NFKD Samples.accents t = t.
Proof.
  induction 1 as [|c t Hc _ IH]; [done|].
  cbn [normalize_NFKD Samples.accents flat_map] in *. rewrite IH.
  destruct (c =? 233) eqn:E1; [apply N.eqb_eq in E1; by subst c|].
  destruct (c =? 241) eqn:E2; [apply N.eqb_eq in E2; by subst c|].
  done.
Qed.

Lemma accents_marks c :
  is_ascii c = true -> @combining Samples.accents c = 0.
Proof.
  intros Hc. cbn [combining Samples.accents].
  destruct (c =? 769) eqn:E1; [apply N.eqb_eq in E1; by subst c|].
  destruct (c =? 771) eqn:E2; [apply N.eqb_eq in E2; by subst c|].
  done.
Qed.
End TokenFacts.

(** C8: for every string [s], [sanitize_token] (the asset token of
    [create_materials.py]) returns what the specified steps return: strip the
    accents, trim, replace spaces by hyphens, delete what is outside
    [A-Za-z0-9-], collapse repeated hyphens, trim hyphens at both ends,
    uppercase; so every token consists of [A-Z0-9-] only and neither starts nor
    ends with a hyphen (it may be empty); the token of "Modern Silk" is
    "MODERN-SILK"; and an accented letter gives its base letter: the token of
    "Café" is "CAFE" when NFKD decomposes U+00E9 into "e" and U+0301.  The
    examples use that NFKD leaves ASCII text alone and that no ASCII code
    point is a combining mark. *)
Theorem C8_sanitize_token_follows_the_specified_steps (U : UnicodeData) :
  (forall t, Forall (fun c => PyStr.is_ascii c = true) t -> normalize_NFKD t = t) ->
  (forall c, PyStr.is_ascii c = true -> combining c = 0) ->
  (forall s, create_materials.sanitize_token s = Spec.tokenize_for_asset_name s)
  /\ (forall s,
        Forall (fun c => PyStr.is_upper_az c || PyStr.is_digit c || (c =? 45) = true)
          (create_materials.sanitize_token s)
        /\ head (create_materials.sanitize_token s) <> Some 45
        /\ last (create_materials.sanitize_token s) <> Some 45)
  /\ create_materials.sanitize_token (py "Modern Silk") = py "MODERN-SILK"
  /\ (normalize_NFKD [67; 97; 102; 233] = [67; 97; 102; 101; 769] ->
      create_materials.sanitize_token [67; 97; 102; 233] = py "CAFE").
Proof.
  intros Hn Hc. split; [|split; [|split]].
  - intros s.
    by rewrite TokenFacts.sanitize_token_unfold, TokenFacts.spec_tokenize_unfold.
  - intros s. apply TokenFacts.sanitize_token_alphabet.
  - rewrite TokenFacts.sanitize_token_unfold.
    rewrite (TokenFacts.strip_accents_ascii (py "Modern Silk") Hn Hc).
    + vm_compute. reflexivity.
    + vm_compute. repeat constructor.
  - intros Hd. rewrite TokenFacts.sanitize_token_unfold.
    unfold create_materials.strip_accents. rewrite Hd.
    cbn [List.filter].
    rewrite (Hc 67), (Hc 97), (Hc 102), (Hc 101) by reflexivity.
    cbn [N.eqb Pos.eqb].
    rewrite (TokenFacts.upper_token_chars _ (TokenFacts.token_body_chars _)).
    by destruct (combining 769 =? 0); vm_compute.
Qed.

Lemma C8_sanitize_token_witness :
  @create_materials.sanitize_token Samples.accents (py " cotton - -twill 40 ")
  = @Spec.tokenize_for_asset_name Samples.accents (py " cotton - -twill 40 ")
  /\ @create_materials.sanitize_token Samples.accents (py "Modern Silk")
     = py "MODERN-SILK"
  /\ @create_materials.sanitize_token Samples.accents [67; 97; 102; 233]
     = py "CAFE".
Proof.
  destruct (C8_sanitize_token_follows_the_specified_steps Samples.accents)
    as [H1 [_ [H3 H4]]].
  - apply TokenFacts.accents_ascii.
  - apply TokenFacts.accents_marks.
  - split; [apply H1|]. split; [exact H3|]. apply H4. reflexivity.
Defined.

(** ** Walking the catalog *)

Module CatalogFacts.
Import PyStr Py Os.

Lemma for_each_skip {A S} (body : A -> S -> result S) pre x post acc :
  (forall a, body x a = Ok a) ->
  for_each body (pre ++ x :: post) acc = for_each body (pre ++ post) acc.
Proof.
  intros Hx. induction pre as [|y pre IH] in acc |- *; simpl.
  - by rewrite Hx.
  - destruct (body y acc); [apply IH|done].
Qed.

Lemma for_eachM_skip {A S} (body : A -> S -> M S) pre x post acc w :
  (forall a w', body x a w' = (w', Ok a)) ->
  for_eachM body (pre ++ x :: post) acc w = for_eachM body (pre ++ post) acc w.
Proof.
  intros Hx. induction pre as [|y pre IH] in acc, w |- *; simpl.
  - unfold mbind, M_bind. by rewrite Hx.
  - unfold mbind, M_bind. destruct (body y acc w) as [w' [a|e]]; [apply IH|done].
Qed.

(** A pattern that [_get_variation_pattern] returns is never empty. *)
Lemma pattern_nonempty var pattern :
  downloadTextures._get_variation_pattern var = Ok (Some pattern) -> pattern <> [].
Proof.
  unfold downloadTextures._get_variation_pattern.
  destruct (isinstance_dict var); [|done].
  destruct (get var _) as [v|e]; [|done]. simpl.
  destruct (or_else v _) as [v'|e]; [|done]. simpl.
  destruct (strip_of v') as [vp|e]; [|done]. simpl.
  destruct vp; [done|]. by intros [= <-].
Qed.

(** A list root is walked item by item, also when it is empty. *)
Lemma iter_list_or_empty l :
  (v ← or_else (JArr l) (Ok (JArr [])); iter v) = Ok l.
Proof. by destruct l. Qed.

End CatalogFacts.

(** C3, as the code has it: in [create_materials.py] and in
    [downloadTextures.py] the name of a collection object is the stripped
    value of [collection-name] when that value is truthy (present and not
    empty), else the stripped value of [collection] when that is truthy, else
    the empty string; no other field takes part.  A [collection-name] that is
    blank but not empty is truthy: it is not replaced by [collection], and the
    name resolves to the empty string. *)
Theorem C3_collection_name_reads_two_fields (fields : list (str * Py.json)) :
  let named := default Py.JNull (Py.assoc (py "collection-name") fields) in
  let legacy := default Py.JNull (Py.assoc (py "collection") fields) in
  create_materials._get_collection_name (Py.JObj fields)
    = Py.strip_of (Py.first_truthy named legacy)
  /\ downloadTextures._get_collection_name (Py.JObj fields)
    = Py.strip_of (Py.first_truthy named legacy)
  /\ (forall s, s <> [] -> named = Py.JStr s ->
        create_materials._get_collection_name (Py.JObj fields) = Py.Ok (PyStr.strip s)
        /\ downloadTextures._get_collection_name (Py.JObj fields) = Py.Ok (PyStr.strip s))
  /\ (forall s, (named = Py.JNull \/ named = Py.JStr []) -> legacy = Py.JStr s ->
        create_materials._get_collection_name (Py.JObj fields) = Py.Ok (PyStr.strip s)
        /\ downloadTextures._get_collection_name (Py.JObj fields) = Py.Ok (PyStr.strip s)).
Proof.
  intros named legacy.
  assert (create_materials._get_collection_name (Py.JObj fields)
          = Py.strip_of (Py.first_truthy named legacy)) as E1.
  { unfold create_materials._get_collection_name. simpl.
    fold named legacy. unfold Py.first_truthy, Py.or_else.
    by destruct (Py.truthy named), (Py.truthy legacy). }
  assert (downloadTextures._get_collection_name (Py.JObj fields)
          = Py.strip_of (Py.first_truthy named legacy)) as E2.
  { unfold downloadTextures._get_collection_name. simpl.
    fold named legacy. unfold Py.first_truthy, Py.or_else.
    by destruct (Py.truthy named), (Py.truthy legacy). }
  split; [exact E1|]. split; [exact E2|]. rewrite E1, E2. split.
  - intros s Hs ->. unfold Py.first_truthy. simpl.
    by destruct s.
  - intros s [-> | ->] ->; unfold Py.first_truthy; simpl;
      by destruct s.
Qed.

Lemma C3_collection_name_witness :
  create_materials._get_collection_name
    (Py.JObj [(py "collection", Py.JStr (py " Wools ")); (py "vendor", Py.JStr (py "x"))])
  = Py.Ok (py "Wools").
Proof.
  pose proof (C3_collection_name_reads_two_fields
    [(py "collection", Py.JStr (py " Wools ")); (py "vendor", Py.JStr (py "x"))])
    as [_ [_ [_ H]]].
  apply (H (py " Wools ")); [by left|reflexivity].
Defined.

(** C3 fails as stated: a blank [collection-name] is not replaced by
    [collection] in the two adapters, and [create-folders.py] reads [name],
    not [collection], before it falls back to the literal "collection". *)
Lemma C3_counterexample :
  create_materials._get_collection_name
    (Py.JObj [(py "collection-name", Py.JStr (py "  "));
              (py "collection", Py.JStr (py "Wools"))]) = Py.Ok []
  /\ downloadTextures._get_collection_name
    (Py.JObj [(py "collection-name", Py.JStr (py "  "));
              (py "collection", Py.JStr (py "Wools"))]) = Py.Ok []
  /\ create_folders.collection_name
       (Py.JObj [(py "collection", Py.JStr (py "Wools"))])
     = Py.Ok (Py.JStr (py "collection"))
  /\ create_folders.collection_name
       (Py.JObj [(py "name", Py.JStr (py "Wools"))])
     = Py.Ok (Py.JStr (py "Wools")).
Proof. repeat split; vm_compute; reflexivity. Qed.

Module WalkFacts.
Import PyStr Py Os CatalogFacts Views.

Section Specs.
Context {U : UnicodeData} {proc : Process}.
Variable base_fs : path.
Variable base_asset : str.

Lemma build_material_specs_list l :
  create_materials.build_material_specs base_fs base_asset (JArr l)
  = for_each (create_materials.specs_of_collection base_fs base_asset) l [].
Proof.
  unfold create_materials.build_material_specs.
  by rewrite iter_list_or_empty.
Qed.

Lemma specs_of_collection_blank coll specs :
  create_materials._get_collection_name coll = Ok [] ->
  create_materials.specs_of_collection base_fs base_asset coll specs = Ok specs.
Proof.
  intros H. unfold create_materials.specs_of_collection. by rewrite H.
Qed.

Lemma specs_of_subcollection_blank coll_raw coll_folder sub specs :
  create_materials._get_subcollection_name sub = Ok [] ->
  create_materials.specs_of_subcollection base_fs base_asset
    coll_raw coll_folder sub specs = Ok specs.
Proof.
  intros H. unfold create_materials.specs_of_subcollection. by rewrite H.
Qed.
End Specs.

Section Downloads.
Context {net : Network} {proc : Process}.
Variable dest_root : path.

Lemma process_all_list l w :
  downloadTextures.process_all (JArr l) dest_root w
  = for_eachM (downloadTextures.process_collection dest_root) l
      (downloadTextures.Summary 0 0 0 []) w.
Proof.
  unfold downloadTextures.process_all.
  rewrite iter_list_or_empty. reflexivity.
Qed.

Lemma process_collection_blank coll s w :
  downloadTextures._get_collection_name coll = Ok [] ->
  downloadTextures.process_collection dest_root coll s w = (w, Ok s).
Proof.
  intros H. unfold downloadTextures.process_collection. by rewrite H.
Qed.

Lemma process_subcollection_blank coll_name coll_folder sub s w :
  downloadTextures._get_subcollection_name sub = Ok [] ->
  downloadTextures.process_subcollection dest_root coll_name coll_folder sub s w
  = (w, Ok s).
Proof.
  intros H. unfold downloadTextures.process_subcollection. by rewrite H.
Qed.
End Downloads.

(** [(d.get(k) or '').strip()] when the field is a string or absent. *)
Lemma field_text fields k n :
  default (JStr []) (assoc k fields) = JStr n ->
  exists v, or_else (default JNull (assoc k fields)) (Ok (JStr [])) = Ok v
            /\ strip_of v = Ok (strip n).
Proof.
  destruct (assoc k fields) as [v|]; cbn [default from_option id].
  - intros ->. unfold or_else. cbn [truthy]. destruct n as [|c n].
    + by exists (JStr []).
    + by eexists.
  - intros [= <-]. by exists (JStr []).
Qed.

Lemma slugify_blank {U : UnicodeData} s :
  strip s = [] -> create_folders.slugify s = py "unnamed".
Proof. intros H. unfold create_folders.slugify. by rewrite H. Qed.

(** A loop whose body adds [k] to a measure of the accumulator adds [k] per
    item. *)
Lemma for_eachM_measure {A S} (body : A -> S -> M S) (f : S -> nat) (k : nat)
    items acc w w' acc' :
  (forall x a v v' a', body x a v = (v', Ok a') -> f a' = (f a + k)%nat) ->
  for_eachM body items acc w = (w', Ok acc') ->
  f acc' = (f acc + k * length items)%nat.
Proof.
  intros Hbody. induction items as [|x rest IH] in acc, w |- *; simpl.
  - intros [= _ <-]. lia.
  - unfold mbind, M_bind.
    destruct (body x acc w) as [w1 [a1|e]] eqn:E; [|done].
    intros H. rewrite (IH _ _ H), (Hbody _ _ _ _ _ E). lia.
Qed.

Section Materializer.
Context {U : UnicodeData}.

Lemma visit_subcollection_seen col_path sub c w w' c' :
  create_folders.visit_subcollection col_path sub c w = (w', Ok c') ->
  collections_seen c' = (collections_seen c + 0)%nat.
Proof.
  unfold create_folders.visit_subcollection, mbind, M_bind, lift.
  destruct (create_folders.subcollection_name sub) as [v|e]; [|done].
  destruct (create_folders.slugify_value v) as [slug|e]; [|done].
  destruct (create_folders.ensure_dir _ w) as [w1 [[]|e]]; [| |done];
    intros [= _ <-]; unfold collections_seen; simpl; lia.
Qed.

(** [create_structure] counts every collection it is given. *)
Lemma visit_collection_seen dest collection c w w' c' :
  create_folders.visit_collection dest collection c w = (w', Ok c') ->
  collections_seen c' = (collections_seen c + 1)%nat.
Proof.
  unfold create_folders.visit_collection, mbind at 1 2 3 4, M_bind at 1 2 3 4, lift.
  destruct (create_folders.collection_name collection) as [v|e]; [|done].
  destruct (create_folders.slugify_value v) as [slug|e]; [|done].
  destruct (create_folders.ensure_dir _ w) as [w1 [created|e]]; [|done].
  destruct (_ ≫= _) as [subs|e]; [|done].
  intros H.
  rewrite (for_eachM_measure _ collections_seen 0 _ _ _ _ _
             (visit_subcollection_seen _) H).
  destruct created; unfold collections_seen; simpl; lia.
Qed.

Lemma create_structure_seen collections dest w w' c' :
  create_folders.create_structure collections dest w = (w', Ok c') ->
  collections_seen c' = length collections.
Proof.
  intros H.
  rewrite (for_eachM_measure _ collections_seen 1 _ _ _ _ _
             (visit_collection_seen dest) H).
  unfold collections_seen. simpl. lia.
Qed.
End Materializer.

End WalkFacts.

(** ** Claims about the catalog walks *)

(** C1, as the code has it: AssetSpec generation ([build_material_specs]) and
    download-task generation ([process_all]) drop a collection, and a
    subcollection, whose resolved name is empty or blank: the walk gives what
    it gives on the catalog without that node, so nothing beneath it is
    processed and no name is put in its place.  The directory materializer
    ([create_structure]) does not drop such a node: it takes the literal
    "collection" (or "subcollection") for a missing or empty name, [slugify]
    answers "unnamed" for a blank one, and every collection of the catalog
    is counted as created or as existing. *)
Theorem C1_blank_nodes_dropped_except_by_the_materializer
    (U : UnicodeData) (net : Os.Network) (proc : Os.Process) :
  (forall base_fs base_asset pre coll post,
      create_materials._get_collection_name coll = Py.Ok [] ->
      create_materials.build_material_specs base_fs base_asset
        (Py.JArr (pre ++ coll :: post))
      = create_materials.build_material_specs base_fs base_asset
          (Py.JArr (pre ++ post)))
  /\ (forall base_fs base_asset coll_raw coll_folder pre sub post specs,
      create_materials._get_subcollection_name sub = Py.Ok [] ->
      Py.for_each
        (create_materials.specs_of_subcollection base_fs base_asset coll_raw coll_folder)
        (pre ++ sub :: post) specs
      = Py.for_each
          (create_materials.specs_of_subcollection base_fs base_asset coll_raw coll_folder)
          (pre ++ post) specs)
  /\ (forall dest_root pre coll post w,
      downloadTextures._get_collection_name coll = Py.Ok [] ->
      downloadTextures.process_all (Py.JArr (pre ++ coll :: post)) dest_root w
      = downloadTextures.process_all (Py.JArr (pre ++ post)) dest_root w)
  /\ (forall dest_root coll_name coll_folder pre sub post s w,
      downloadTextures._get_subcollection_name sub = Py.Ok [] ->
      Os.for_eachM
        (downloadTextures.process_subcollection dest_root coll_name coll_folder)
        (pre ++ sub :: post) s w
      = Os.for_eachM
          (downloadTextures.process_subcollection dest_root coll_name coll_folder)
          (pre ++ post) s w)
  /\ (forall fields,
      Py.truthy (default Py.JNull (Py.assoc (py "collection-name") fields)) = false ->
      Py.truthy (default Py.JNull (Py.assoc (py "name") fields)) = false ->
      create_folders.collection_name (Py.JObj fields)
      = Py.Ok (Py.JStr (py "collection")))
  /\ (forall fields,
      Py.truthy (default Py.JNull (Py.assoc (py "subcollection-name") fields)) = false ->
      Py.truthy (default Py.JNull (Py.assoc (py "name") fields)) = false ->
      create_folders.subcollection_name (Py.JObj fields)
      = Py.Ok (Py.JStr (py "subcollection")))
  /\ (forall s, PyStr.strip s = [] -> create_folders.slugify s = py "unnamed")
  /\ (forall collections dest w w' c,
      create_folders.create_structure collections dest w = (w', Py.Ok c) ->
      (create_folders.created_collections c + create_folders.existing_collections c
       = length collections)%nat).
Proof.
  repeat split.
  - intros base_fs base_asset pre coll post H.
    rewrite !WalkFacts.build_material_specs_list.
    apply CatalogFacts.for_each_skip. intros a.
    by apply WalkFacts.specs_of_collection_blank.
  - intros base_fs base_asset coll_raw coll_folder pre sub post specs H.
    apply CatalogFacts.for_each_skip. intros a.
    by apply WalkFacts.specs_of_subcollection_blank.
  - intros dest_root pre coll post w H.
    rewrite !WalkFacts.process_all_list.
    apply CatalogFacts.for_eachM_skip. intros a w'.
    by apply WalkFacts.process_collection_blank.
  - intros dest_root coll_name coll_folder pre sub post s w H.
    apply CatalogFacts.for_eachM_skip. intros a w'.
    by apply WalkFacts.process_subcollection_blank.
  - intros fields H1 H2. unfold create_folders.collection_name. simpl.
    unfold Py.or_else. by rewrite H1, H2.
  - intros fields H1 H2. unfold create_folders.subcollection_name. simpl.
    unfold Py.or_else. by rewrite H1, H2.
  - intros s. apply WalkFacts.slugify_blank.
  - intros collections dest w w' c H.
    apply (WalkFacts.create_structure_seen collections dest w w' c H).
Qed.

Lemma C1_blank_nodes_witness :
  @downloadTextures.process_all Samples.net_up Samples.home
    (Py.JArr ([] ++ Samples.blank_collection :: [Samples.wools]))
    [py "textures"] Samples.empty_world
  = @downloadTextures.process_all Samples.net_up Samples.home
      (Py.JArr ([] ++ [Samples.wools])) [py "textures"] Samples.empty_world.
Proof.
  apply (C1_blank_nodes_dropped_except_by_the_materializer ascii_only Samples.net_up
           Samples.home).
  vm_compute. reflexivity.
Defined.

(** C1 fails as stated: for a collection with a blank name that holds a
    subcollection with an empty name, [create_structure] creates the
    directories "unnamed" and "unnamed/subcollection" and counts both as
    created. *)
Lemma C1_counterexample :
  create_materials._get_collection_name Samples.blank_collection = Py.Ok []
  /\ create_materials._get_subcollection_name Samples.unnamed_subcollection = Py.Ok []
  /\ snd (@create_folders.create_structure ascii_only [Samples.blank_collection]
            [py "dest"] Samples.empty_world)
     = Py.Ok (create_folders.Counts 1 0 1 0)
  /\ Os.files (fst (@create_folders.create_structure ascii_only
                      [Samples.blank_collection] [py "dest"] Samples.empty_world))
       !! [py "dest"; py "unnamed"] = Some Os.Dir
  /\ Os.files (fst (@create_folders.create_structure ascii_only
                      [Samples.blank_collection] [py "dest"] Samples.empty_world))
       !! [py "dest"; py "unnamed"; py "subcollection"] = Some Os.Dir.
Proof. repeat split; vm_compute; reflexivity. Qed.

(** C2, as the code has it: a variation without a usable pattern (every
    bare-string variation is one) gives [process_all] nothing to download: no
    request is sent and no file is touched; the variation is counted in
    [failed], and one entry of its own, "Sin 'variation-pattern' ->
    collection/subcollection", is appended to the errors.
    [build_material_specs] does not look for a pattern: it takes the token of
    the variation from its label.  The label of a bare string is the string,
    stripped; the label of a structured variation whose name and pattern are
    strings (an absent field counting as the empty string) is
    "<name>-<pattern>" when both are non-empty after stripping, and otherwise
    the one that is, or the empty string.  When one of the three tokens is
    empty the entry is passed over and nothing is recorded.  When none is,
    the file [MI_<collection>_<subcollection>_<variation>.uasset] under the
    vendor root is resolved: a NUL character in a component raises
    [ValueError] out of [build_material_specs], and otherwise an AssetSpec
    with that name and the resolved path is appended. *)
Theorem C2_variation_without_pattern
    (U : UnicodeData) (net : Os.Network) (proc : Os.Process) :
  (forall s, downloadTextures._get_variation_pattern (Py.JStr s) = Py.Ok None)
  /\ (forall coll_name sub_name target_dir var s w,
        downloadTextures._get_variation_pattern var = Py.Ok None ->
        downloadTextures.process_variation coll_name sub_name target_dir var s w
        = (w, Py.Ok (downloadTextures.Summary
                       (downloadTextures.downloaded s)
                       (downloadTextures.skipped s)
                       (S (downloadTextures.failed s))
                       (downloadTextures.errors s ++
                          [py "Sin 'variation-pattern' -> "
                             ++ coll_name ++ py "/" ++ sub_name]))))
  /\ (forall s, create_materials._get_variation_label (Py.JStr s)
                = Py.Ok (PyStr.strip s))
  /\ (forall fields n p,
        default (Py.JStr []) (Py.assoc (py "variation-name") fields) = Py.JStr n ->
        default (Py.JStr []) (Py.assoc (py "variation-pattern") fields) = Py.JStr p ->
        create_materials._get_variation_label (Py.JObj fields)
        = Py.Ok (if Py.nonempty (PyStr.strip n) && Py.nonempty (PyStr.strip p)
                 then PyStr.strip n ++ py "-" ++ PyStr.strip p
                 else if Py.nonempty (PyStr.strip n) then PyStr.strip n
                 else PyStr.strip p))
  /\ (forall base_fs base_asset coll_raw sub_raw coll_folder sub_folder var label specs,
        create_materials._get_variation_label var = Py.Ok label ->
        let complete :=
          Py.nonempty (create_materials.sanitize_token coll_raw)
          && Py.nonempty (create_materials.sanitize_token sub_raw)
          && Py.nonempty (create_materials.sanitize_token label) in
        let name :=
          py "MI_" ++ create_materials.sanitize_token coll_raw
            ++ py "_" ++ create_materials.sanitize_token sub_raw
            ++ py "_" ++ create_materials.sanitize_token label in
        let file :=
          Os.joinpath (Os.joinpath (Os.joinpath base_fs coll_folder) sub_folder)
            (name ++ py ".uasset") in
        (complete = false ->
           create_materials.spec_of_variation base_fs base_asset
             coll_raw sub_raw coll_folder sub_folder var specs = Py.Ok specs)
        /\ (complete = true ->
            existsb (fun c => PyStr.one_of c 0) file = true ->
            create_materials.spec_of_variation base_fs base_asset
              coll_raw sub_raw coll_folder sub_folder var specs
            = Py.Raise Py.ValueError)
        /\ (complete = true ->
            existsb (fun c => PyStr.one_of c 0) file = false ->
            exists sp,
              create_materials.spec_of_variation base_fs base_asset
                coll_raw sub_raw coll_folder sub_folder var specs
              = Py.Ok (specs ++ [sp])
              /\ create_materials.spec_name sp = name
              /\ Os.resolve file = Py.Ok (create_materials.filesystem_path sp))).
Proof.
  split; [done|]. split; [|split; [done|split]].
  - intros coll_name sub_name target_dir var s w H.
    unfold downloadTextures.process_variation. by rewrite H.
  - intros fields n p Hn Hp.
    destruct (WalkFacts.field_text _ _ _ Hn) as [vn [En Sn]].
    destruct (WalkFacts.field_text _ _ _ Hp) as [vp [Ep Sp]].
    unfold create_materials._get_variation_label, Py.get.
    cbn [Py.isinstance_dict mbind Py.result_bind].
    rewrite En; cbn [mbind Py.result_bind]. rewrite Sn; cbn [mbind Py.result_bind].
    rewrite Ep; cbn [mbind Py.result_bind]. rewrite Sp; cbn [mbind Py.result_bind].
    destruct (Py.nonempty (PyStr.strip n)); cbn [andb]; by destruct (PyStr.strip p).
  - intros base_fs base_asset coll_raw sub_raw coll_folder sub_folder var label
      specs H complete name file.
    unfold create_materials.spec_of_variation. rewrite H.
    cbn [mbind Py.result_bind]. fold complete. fold name. fold file.
    split; [|split].
    + by intros ->.
    + intros -> Hnul. cbn [negb]. unfold Os.resolve. by rewrite Hnul.
    + intros -> Hnul. cbn [negb]. unfold Os.resolve. rewrite Hnul.
      eexists. split; [reflexivity|]. split; reflexivity.
Qed.

Lemma C2_variation_without_pattern_witness :
  @downloadTextures.process_variation Samples.net_up
    (py "Wools") (py "Heavy") [py "textures"; py "Wools"; py "Heavy"]
    (Py.JStr (py "Red")) (downloadTextures.Summary 2 1 0 []) Samples.empty_world
  = (Samples.empty_world,
     Py.Ok (downloadTextures.Summary 2 1 1
              [py "Sin 'variation-pattern' -> " ++ py "Wools" ++ py "/" ++ py "Heavy"])).
Proof.
  apply (C2_variation_without_pattern ascii_only Samples.net_up Samples.home).
  reflexivity.
Defined.

(** C2 fails as stated: the bare-string variation "Red" has no pattern, yet
    [build_material_specs] produces the AssetSpec MI_WOOLS_HEAVY_RED for it;
    a process started in [/repo] that is given the vendor root
    [Content/Materials/MayerFabrics] records the file under
    [/repo/Content/Materials/MayerFabrics]. *)
Lemma C2_counterexample :
  downloadTextures._get_variation_pattern (Py.JStr (py "Red")) = Py.Ok None
  /\ @create_materials.build_material_specs ascii_only Samples.home
       [py "Content"; py "Materials"; py "MayerFabrics"]
       (py "/Game/Materials/MayerFabrics") Samples.legacy_catalog
     = Py.Ok [create_materials.AssetSpec
                (py "MI_WOOLS_HEAVY_RED")
                (py "/Game/Materials/MayerFabrics/Wools/Heavy")
                (py "/Game/Materials/MayerFabrics/Wools/Heavy/MI_WOOLS_HEAVY_RED")
                (py "/Game/Materials/MayerFabrics/Wools/Heavy/MI_WOOLS_HEAVY_RED.MI_WOOLS_HEAVY_RED")
                [py "/"; py "repo"; py "Content"; py "Materials"; py "MayerFabrics";
                 py "Wools"; py "Heavy"; py "MI_WOOLS_HEAVY_RED.uasset"]
                create_materials.PARENT_MATERIAL_OBJECT_PATH].
Proof. split; vm_compute; reflexivity. Qed.

(** ** The file system under [download_with_retries] *)

Module FsFacts.
Import PyStr Py Os.

Lemma run_ops_app ops1 ops2 fs :
  run_ops (ops1 ++ ops2) fs =
  match run_ops ops1 fs with
  | (fs', None) => run_ops ops2 fs'
  | (fs', Some e) => (fs', Some e)
  end.
Proof.
  induction ops1 as [|op ops1 IH] in fs |- *; simpl; [done|].
  destruct (apply_op op fs) as [fs' [e|]]; [done|apply IH].
Qed.

(** [mkdir(parents=True)] writes only at the prefixes of its argument. *)
Lemma mkdirs_from_longer fs above todo q :
  (length above + length todo < length q)%nat ->
  fst (mkdirs_from fs above todo) !! q = fs !! q.
Proof.
  induction todo as [|c rest IH] in fs, above |- *; simpl; [done|].
  intros Hlen.
  destruct (fs !! (above ++ [c])) as [[|content]|] eqn:E; [|done|].
  - apply IH. rewrite length_app. simpl. lia.
  - rewrite IH by (rewrite length_app; simpl; lia).
    apply lookup_insert_ne. intros E'. rewrite <- E', length_app in Hlen.
    simpl in Hlen. lia.
Qed.

Lemma mkdirs_from_ok fs above todo :
  (forall k content, (0 < k <= length todo)%nat ->
      fs !! (above ++ take k todo) <> Some (File content)) ->
  snd (mkdirs_from fs above todo) = None
  /\ (forall k, (0 < k <= length todo)%nat ->
        fst (mkdirs_from fs above todo) !! (above ++ take k todo) = Some Dir)
  /\ (forall q, (forall k, (0 < k <= length todo)%nat -> q <> above ++ take k todo) ->
        fst (mkdirs_from fs above todo) !! q = fs !! q).
Proof.
  induction todo as [|c rest IH] in fs, above |- *; intros Hfree.
  - simpl. split; [done|]. split; [intros k Hk; simpl in Hk; lia|done].
  - assert (forall k, above ++ take (S k) (c :: rest) = (above ++ [c]) ++ take k rest)
      as Eprefix by (intros k; simpl; by rewrite <- app_assoc).
    assert (forall fs1,
      (forall k content, (0 < k <= length rest)%nat ->
          fs1 !! ((above ++ [c]) ++ take k rest) <> Some (File content)) ->
      fs1 !! (above ++ [c]) = Some Dir ->
      (forall q, q <> above ++ [c] -> fs1 !! q = fs !! q) ->
      snd (mkdirs_from fs1 (above ++ [c]) rest) = None
      /\ (forall k, (0 < k <= length (c :: rest))%nat ->
            fst (mkdirs_from fs1 (above ++ [c]) rest) !! (above ++ take k (c :: rest))
            = Some Dir)
      /\ (forall q,
            (forall k, (0 < k <= length (c :: rest))%nat ->
               q <> above ++ take k (c :: rest)) ->
            fst (mkdirs_from fs1 (above ++ [c]) rest) !! q = fs !! q)) as Hstep.
    { intros fs1 Hfree1 Hdir Hsame.
      destruct (IH fs1 (above ++ [c]) Hfree1) as [Hok [Hdirs Hrest]].
      split; [exact Hok|]. split.
      - intros [|[|k]] Hk; [lia| |].
        + simpl. rewrite take_0. rewrite Hrest; [exact Hdir|].
          intros k Hk' E. apply (f_equal length) in E.
          rewrite !length_app, length_take in E. simpl in E. lia.
        + rewrite Eprefix. apply Hdirs. simpl in Hk. lia.
      - intros q Hq. rewrite Hrest.
        + apply Hsame. intros ->. apply (Hq 1%nat); [simpl; lia|].
          simpl. by rewrite take_0.
        + intros k Hk ->. apply (Hq (S k)); [simpl; lia|]. by rewrite Eprefix. }
    simpl.
    destruct (fs !! (above ++ [c])) as [[|content]|] eqn:E.
    + apply Hstep; [|exact E|done].
      intros k content Hk. rewrite <- Eprefix. apply Hfree. simpl. lia.
    + exfalso. apply (Hfree 1%nat content); [simpl; lia|].
      simpl. by rewrite take_0.
    + apply Hstep.
      * intros k content Hk. rewrite lookup_insert_ne.
        -- rewrite <- Eprefix. apply Hfree. simpl. lia.
        -- intros E'. apply (f_equal length) in E'.
           rewrite !length_app, length_take in E'. simpl in E'. lia.
      * apply lookup_insert_eq.
      * intros q Hq. by apply lookup_insert_ne.
Qed.

(** *** The temporary sibling *)

Lemma rfind_found x s i j :
  rfind x s i = Some j ->
  exists k, j = (i + k)%nat /\ s !! k = Some x.
Proof.
  induction s as [|c t IH] in i |- *; simpl; [done|].
  destruct (rfind x t (S i)) as [j'|] eqn:E.
  - intros [= <-]. destruct (IH _ E) as [k [-> Hk]].
    exists (S k). split; [lia|done].
  - destruct (N.eqb_spec c x) as [->|]; [|done].
    intros [= <-]. exists 0%nat. split; [lia|done].
Qed.

Lemma suffix_cases nm :
  suffix nm = [] \/ exists i, suffix nm = drop i nm /\ nm !! i = Some 46.
Proof.
  unfold suffix. destruct (rfind 46 nm 0) as [i|] eqn:E; [|by left].
  destruct (_ && _)%bool; [|by left].
  right. exists i. split; [done|].
  destruct (rfind_found _ _ _ _ E) as [k [-> Hk]]. exact Hk.
Qed.

Lemma suffix_glued nm : take (length nm - length (suffix nm)) nm ++ suffix nm = nm.
Proof.
  destruct (suffix_cases nm) as [-> | [i [-> Hi]]].
  - simpl. rewrite Nat.sub_0_r, firstn_all. apply app_nil_r.
  - apply lookup_lt_Some in Hi. rewrite length_drop.
    replace (length nm - (length nm - i))%nat with i by lia.
    apply take_drop.
Qed.

(** Whenever [with_suffix] succeeds, the temporary file is the destination
    with ".part" appended to its name. *)
Lemma part_path_appends dest_path tmp :
  downloadTextures.part_path dest_path = Ok tmp ->
  tmp = parent dest_path ++ [name dest_path ++ py ".part"]
  /\ dest_path = parent dest_path ++ [name dest_path].
Proof.
  unfold downloadTextures.part_path, with_suffix, with_suffix_name.
  destruct (negb (nonempty (name dest_path))) eqn:Hne; [done|].
  destruct (one_of _ 47); [done|].
  destruct (_ || _)%bool; [done|]. simpl. intros [= <-].
  split.
  - by rewrite app_assoc, suffix_glued.
  - unfold parent, name. apply app_removelast_last.
    intros ->. simpl in Hne. done.
Qed.

Lemma one_of_app s t c : one_of (s ++ t) c = one_of s c || one_of t c.
Proof. unfold one_of. apply existsb_app. Qed.

Lemma one_of_drop s i c : one_of s c = false -> one_of (drop i s) c = false.
Proof.
  intros H. rewrite <- (take_drop i s), one_of_app in H.
  by apply orb_false_elim in H as [_ ?].
Qed.

(** [with_suffix] succeeds on every component that has a name and no
    separator in it. *)
Lemma part_path_ok dest_path :
  name dest_path <> [] -> one_of (name dest_path) 47 = false ->
  downloadTextures.part_path dest_path
  = Ok (parent dest_path ++ [name dest_path ++ py ".part"]).
Proof.
  intros Hne Hsep.
  unfold downloadTextures.part_path, with_suffix, with_suffix_name.
  destruct (name dest_path) as [|c nm] eqn:En; [done|]. rewrite <- En in *.
  assert (nonempty (name dest_path) = true) as -> by (by rewrite En).
  simpl negb. cbv iota.
  assert (one_of (suffix (name dest_path) ++ py ".part") 47 = false) as ->.
  { rewrite one_of_app. apply orb_false_intro; [|done].
    destruct (suffix_cases (name dest_path)) as [-> | [i [-> _]]]; [done|].
    by apply one_of_drop. }
  assert ((nonempty (suffix (name dest_path) ++ py ".part")
           && negb (one_of (take 1 (suffix (name dest_path) ++ py ".part")) 46))
          || str_eqb (suffix (name dest_path) ++ py ".part") (py ".") = false) as ->.
  { destruct (suffix_cases (name dest_path)) as [-> | [i [-> Hi]]]; [done|].
    rewrite (drop_S _ _ _ Hi). simpl.
    unfold str_eqb. case_bool_decide as E; [|done].
    exfalso. apply (f_equal length) in E. simpl in E.
    rewrite length_app in E. simpl in E. lia. }
  simpl. by rewrite app_assoc, suffix_glued.
Qed.

(** *** The destination of a download *)

Lemma split_on_clean sep cur t :
  Forall (fun c => (c =? sep) = false) t -> split_on sep cur t = [cur ++ t].
Proof.
  intros H. induction H as [|c t Hc _ IH] in cur |- *; simpl.
  - by rewrite app_nil_r.
  - by rewrite Hc, IH, <- app_assoc.
Qed.

(** Text without a separator, appended to a segment, extends its last
    piece. *)
Lemma split_on_extend sep cur s t :
  Forall (fun c => (c =? sep) = false) t ->
  exists init lst,
    split_on sep cur s = init ++ [lst]
    /\ split_on sep cur (s ++ t) = init ++ [lst ++ t].
Proof.
  intros Ht. induction s as [|c s IH] in cur |- *; simpl.
  - exists [], cur. split; [done|]. by apply split_on_clean.
  - destruct (c =? sep).
    + destruct (IH []) as [init [lst [E1 E2]]].
      exists (cur :: init), lst. by rewrite E1, E2.
    + apply IH.
Qed.

Lemma split_on_pieces sep cur s :
  one_of cur sep = false ->
  Forall (fun piece => one_of piece sep = false) (split_on sep cur s).
Proof.
  induction s as [|c s IH] in cur |- *; simpl; intros Hcur.
  - by repeat constructor.
  - destruct (c =? sep) eqn:E.
    + constructor; [done|]. by apply IH.
    + apply IH. rewrite one_of_app, Hcur. simpl.
      unfold one_of. simpl. by rewrite N.eqb_sym, E.
Qed.

(** The destination that [process_all] computes for a pattern is a
    directory followed by a file name that is not empty and holds no
    separator. *)
Lemma dest_file_shape target_dir pattern :
  exists dir nm,
    joinpath target_dir (pattern ++ py ".jpg") = dir ++ [nm]
    /\ nm <> [] /\ one_of nm 47 = false.
Proof.
  assert (exists init lst,
            components (pattern ++ py ".jpg") = init ++ [lst ++ py ".jpg"]
            /\ one_of lst 47 = false) as [init [lst [Ec Hl]]].
  { destruct (split_on_extend 47 [] pattern (py ".jpg")) as [init [lst [E1 E2]]];
      [by repeat constructor|].
    exists (List.filter (fun c => negb (str_eqb c [] || str_eqb c (py "."))) init), lst.
    split.
    - unfold components. rewrite E2, List.filter_app. f_equal.
      simpl. unfold str_eqb.
      rewrite !bool_decide_eq_false_2; [done| |].
      + intros E. apply (f_equal length) in E. rewrite length_app in E.
        simpl in E. lia.
      + intros E. apply (f_equal length) in E. rewrite length_app in E.
        simpl in E. lia.
    - pose proof (split_on_pieces 47 [] pattern eq_refl) as Hp.
      rewrite E1 in Hp. apply Forall_app in Hp as [_ Hp].
      by apply Forall_inv in Hp. }
  assert (lst ++ py ".jpg" <> [] /\ one_of (lst ++ py ".jpg") 47 = false) as [H1 H2].
  { split; [by destruct lst|]. by rewrite one_of_app, Hl. }
  unfold joinpath. destruct (pattern ++ py ".jpg") as [|c rest] eqn:E.
  - exists (target_dir ++ init), (lst ++ py ".jpg"). rewrite Ec.
    by rewrite app_assoc.
  - assert (exists dir, (if c =? 47 then py "/" :: components (c :: rest)
                         else target_dir ++ components (c :: rest))
                        = dir ++ [lst ++ py ".jpg"]) as [dir Hd].
    { rewrite Ec. destruct (c =? 47).
      - by exists (py "/" :: init).
      - exists (target_dir ++ init). by rewrite app_assoc. }
    exists dir, (lst ++ py ".jpg"). split; [|done].
    rewrite <- Hd. destruct (N.eqb_spec c 47) as [->|Hne]; [done|].
    destruct c as [|pc]; [done|].
    repeat (destruct pc as [pc|pc|]; try done).
Qed.
End FsFacts.

(** ** Saving a response *)

Module SaveFacts.
Import PyStr Py Os FsFacts Views.

Lemma run_ops_cons op rest fs :
  run_ops (op :: rest) fs =
  match apply_op op fs with
  | (fs', None) => run_ops rest fs'
  | (fs', Some e) => (fs', Some e)
  end.
Proof. reflexivity. Qed.

Lemma run_ops_spare ops q fs :
  Forall (fun op => forall fs, fst (apply_op op fs) !! q = fs !! q) ops ->
  fst (run_ops ops fs) !! q = fs !! q.
Proof.
  intros H. induction H as [|op ops Hop _ IH] in fs |- *; simpl; [done|].
  specialize (Hop fs).
  destruct (apply_op op fs) as [fs' [e|]]; simpl in *; [done|].
  by rewrite IH.
Qed.

Section Save.
Variable P : path.
Variable nm : str.
Variable data : list Byte.byte.

Let dest : path := P ++ [nm].
Let tmp : path := P ++ [nm ++ py ".part"].

Lemma save_ops_writes :
  downloadTextures.save_ops dest tmp data = (writes P nm data) ++ [Replace tmp dest].
Proof.
  unfold downloadTextures.save_ops, writes, parent, dest.
  rewrite removelast_last. by rewrite <- app_assoc.
Qed.

Lemma tmp_not_dest : tmp <> dest.
Proof.
  unfold tmp, dest. intros E. apply app_inv_head in E.
  injection E as E. apply (f_equal length) in E.
  rewrite length_app in E. simpl in E. lia.
Qed.

Lemma length_dest : length dest = S (length P).
Proof. unfold dest. rewrite length_app. simpl. lia. Qed.

Lemma length_tmp : length tmp = S (length P).
Proof. unfold tmp. rewrite length_app. simpl. lia. Qed.

(** The writes touch the ancestors and the temporary file only. *)
Lemma writes_spare q :
  (length P < length q)%nat -> q <> tmp ->
  Forall (fun op => forall fs, fst (apply_op op fs) !! q = fs !! q) (writes P nm data).
Proof.
  intros Hlen Hq. unfold writes. fold tmp. apply Forall_app. split.
  - repeat constructor.
    + intros fs. simpl. by apply mkdirs_from_longer.
    + intros fs. simpl.
      destruct (fs !! tmp) as [[|c]|]; [done| |];
        (destruct (is_dir fs (parent tmp)); simpl; [|done]);
        by apply lookup_insert_ne.
  - apply List.Forall_forall. intros op [b [<- _]]%in_map_iff fs. simpl.
    destruct (fs !! tmp) as [[|c]|]; simpl; [done| |done].
    by apply lookup_insert_ne.
Qed.

Lemma run_appends fs c :
  fs !! tmp = Some (File c) ->
  run_ops (List.map (Append tmp) data) fs
  = (<[tmp := File (c ++ data)]> fs, None).
Proof.
  clear dest. induction data as [|b d IH] in fs, c |- *; simpl; intros H.
  - by rewrite app_nil_r, insert_id.
  - rewrite H. rewrite (IH _ (c ++ [b])) by apply lookup_insert_eq.
    by rewrite insert_insert_eq, <- app_assoc.
Qed.

(** Once the writes are through, the temporary file holds the whole
    response. *)
Lemma writes_fill_tmp fs fs1 :
  run_ops (writes P nm data) fs = (fs1, None) -> fs1 !! tmp = Some (File data).
Proof.
  unfold writes. fold tmp. rewrite run_ops_app. cbn [run_ops apply_op].
  destruct (mkdirs_from fs [] P) as [fsa [e|]]; [done|].
  assert (forall fsb, fsb !! tmp = Some (File []) ->
            run_ops (List.map (Append tmp) data) fsb = (fs1, None) ->
            fs1 !! tmp = Some (File data)) as Hfill.
  { intros fsb Hb. rewrite (run_appends fsb []) by done.
    intros [= <-]. apply lookup_insert_eq. }
  destruct (fsa !! tmp) as [[|c]|]; [done| |];
    (destruct (is_dir fsa (parent tmp)); [|done]);
    apply Hfill, lookup_insert_eq.
Qed.

(** A save that stops before the rename leaves every path but the
    ancestors and the temporary file as it was. *)
Lemma save_prefix_spares q k fs :
  (k <= length (writes P nm data))%nat ->
  (length P < length q)%nat -> q <> tmp ->
  fst (run_ops (take k (downloadTextures.save_ops dest tmp data)) fs) !! q = fs !! q.
Proof.
  intros Hk Hlen Hq. rewrite save_ops_writes, take_app_le by done.
  apply run_ops_spare.
  pose proof (writes_spare q Hlen Hq) as Hspare.
  rewrite <- (take_drop k (writes P nm data)) in Hspare.
  by apply Forall_app in Hspare as [? _].
Qed.

(** At no point of the save does the destination hold anything but what
    it held before or the whole response. *)
Lemma save_never_partial k fs :
  let fs_k := fst (run_ops (take k (downloadTextures.save_ops dest tmp data)) fs) in
  ((k <= length (writes P nm data))%nat -> fs_k !! dest = fs !! dest)
  /\ (fs_k !! dest = fs !! dest \/ fs_k !! dest = Some (File data)).
Proof.
  intros fs_k. subst fs_k. rewrite save_ops_writes.
  pose proof (writes_spare dest) as Hspare.
  specialize (Hspare ltac:(rewrite length_dest; lia)
                     ltac:(intros E; by apply tmp_not_dest)).
  assert (forall j, fst (run_ops (take j (writes P nm data)) fs) !! dest = fs !! dest) as Hw.
  { intros j. apply run_ops_spare.
    rewrite <- (take_drop j (writes P nm data)) in Hspare.
    by apply Forall_app in Hspare as [? _]. }
  destruct (decide (k <= length (writes P nm data))%nat) as [Hk|Hk].
  - rewrite take_app_le by done. split; [intros _|left]; apply Hw.
  - split; [lia|].
    rewrite take_ge
      by (rewrite length_app; change (length [Replace tmp dest]) with 1%nat; lia).
    rewrite run_ops_app.
    specialize (Hw (length (writes P nm data))). rewrite firstn_all in Hw.
    destruct (run_ops (writes P nm data) fs) as [fs1 [e|]] eqn:Er; simpl in Hw.
    + by left.
    + simpl. rewrite (writes_fill_tmp fs fs1 Er).
      destruct (fs1 !! dest) as [[|c]|] eqn:Ed; simpl.
      * left. by rewrite Ed.
      * right. apply lookup_insert_eq.
      * right. apply lookup_insert_eq.
Qed.

(** On a store where no file is in the way, the save goes through and
    leaves the ancestors as directories. *)
Lemma save_succeeds fs :
  (forall k content, (0 < k <= length P)%nat ->
      fs !! take k P <> Some (File content)) ->
  fs !! tmp <> Some Dir ->
  fs !! dest <> Some Dir ->
  exists fs',
    run_ops (downloadTextures.save_ops dest tmp data) fs = (fs', None)
    /\ fs' !! dest = Some (File data)
    /\ fs' !! tmp = None
    /\ (forall k, (0 < k <= length P)%nat -> fs' !! take k P = Some Dir).
Proof.
  intros Hanc Htmp Hdest.
  destruct (mkdirs_from_ok fs [] P Hanc) as [Hok [Hdirs Hrest]].
  assert (forall q, (length P < length q)%nat ->
            fst (mkdirs_from fs [] P) !! q = fs !! q) as Hlong.
  { intros q Hq. apply Hrest. intros k Hk ->.
    rewrite app_nil_l, length_take in Hq. lia. }
  rewrite save_ops_writes, run_ops_app. unfold writes. fold tmp.
  change ([Mkdirs P; OpenWb tmp] ++ List.map (Append tmp) data)
    with (Mkdirs P :: OpenWb tmp :: List.map (Append tmp) data).
  rewrite run_ops_cons. change (apply_op (Mkdirs P) fs) with (mkdirs_from fs [] P).
  destruct (mkdirs_from fs [] P) as [fsa e] eqn:Em.
  cbn [fst snd] in Hok, Hdirs, Hlong. subst e.
  assert (is_dir fsa (parent tmp) = true) as Hpar.
  { unfold parent, tmp. rewrite removelast_last. unfold is_dir.
    destruct P as [|c P'] eqn:EP; [done|]. rewrite <- EP in *.
    specialize (Hdirs (length P)). rewrite app_nil_l, firstn_all in Hdirs.
    rewrite Hdirs; [done|]. rewrite EP. simpl. lia. }
  assert (fsa !! tmp = fs !! tmp) as Etmp
    by (apply Hlong; rewrite length_tmp; lia).
  assert (fsa !! dest = fs !! dest) as Edest
    by (apply Hlong; rewrite length_dest; lia).
  assert (apply_op (OpenWb tmp) fsa = (<[tmp := File []]> fsa, None)) as Eopen.
  { cbn [apply_op]. rewrite Hpar.
    destruct (fsa !! tmp) as [[|c]|] eqn:E; [|done|done].
    congruence. }
  rewrite run_ops_cons, Eopen.
  rewrite (run_appends _ []) by apply lookup_insert_eq.
  rewrite insert_insert_eq, app_nil_l.
  set (fsc := <[tmp := File data]> fsa).
  assert (apply_op (Replace tmp dest) fsc
          = (<[dest := File data]> (delete tmp fsc), None)) as Erename.
  { assert (fsc !! tmp = Some (File data)) as E1 by apply lookup_insert_eq.
    assert (fsc !! dest = fsa !! dest) as E2
      by (apply lookup_insert_ne, tmp_not_dest).
    cbn [apply_op]. rewrite E1, E2.
    destruct (fsa !! dest) as [[|c]|] eqn:E; [|done|done].
    congruence. }
  rewrite run_ops_cons, Erename. cbn [run_ops].
  eexists. split; [reflexivity|].
  split; [apply lookup_insert_eq|]. split.
  - rewrite lookup_insert_ne by (intros E; by apply tmp_not_dest).
    apply lookup_delete_eq.
  - intros k Hk. unfold fsc.
    rewrite lookup_insert_ne, lookup_delete_ne, lookup_insert_ne.
    + specialize (Hdirs k Hk). by rewrite app_nil_l in Hdirs.
    + intros E. apply (f_equal length) in E.
      rewrite length_tmp, length_take in E. lia.
    + intros E. apply (f_equal length) in E.
      rewrite length_tmp, length_take in E. lia.
    + intros E. apply (f_equal length) in E.
      rewrite length_dest, length_take in E. lia.
Qed.
End Save.

(** On a store where no file is in the way, the save has put the first [k]
    bytes of the response in the temporary file when it has opened it and
    written [k] times; the destination is as it was. *)
Lemma save_progress P nm data fs k :
  (forall j content, (0 < j <= length P)%nat ->
      fs !! take j P <> Some (File content)) ->
  fs !! (P ++ [nm ++ py ".part"]) <> Some Dir ->
  (k <= length data)%nat ->
  exists fs_k,
    run_ops (take (2 + k)
               (downloadTextures.save_ops (P ++ [nm]) (P ++ [nm ++ py ".part"]) data))
      fs = (fs_k, None)
    /\ fs_k !! (P ++ [nm ++ py ".part"]) = Some (File (take k data))
    /\ fs_k !! (P ++ [nm]) = fs !! (P ++ [nm]).
Proof.
  intros Hanc Htmp Hk.
  set (dest := P ++ [nm]) in *. set (tmp := P ++ [nm ++ py ".part"]) in *.
  destruct (mkdirs_from_ok fs [] P Hanc) as [Hok [Hdirs Hrest]].
  assert (forall q, (length P < length q)%nat ->
            fst (mkdirs_from fs [] P) !! q = fs !! q) as Hlong.
  { intros q Hq. apply Hrest. intros j Hj ->.
    rewrite app_nil_l, length_take in Hq. lia. }
  unfold downloadTextures.save_ops.
  replace (parent dest) with P by (symmetry; apply removelast_last).
  change (take (2 + k) ([Mkdirs P; OpenWb tmp]
                          ++ List.map (Append tmp) data ++ [Replace tmp dest]))
    with (Mkdirs P :: OpenWb tmp
            :: take k (List.map (Append tmp) data ++ [Replace tmp dest])).
  rewrite take_app_le by (by rewrite length_map).
  rewrite List.firstn_map.
  rewrite run_ops_cons. change (apply_op (Mkdirs P) fs) with (mkdirs_from fs [] P).
  destruct (mkdirs_from fs [] P) as [fsa e] eqn:Em.
  cbn [fst snd] in Hok, Hdirs, Hlong. subst e.
  assert (is_dir fsa (parent tmp) = true) as Hpar.
  { unfold parent, tmp. rewrite removelast_last. unfold is_dir.
    destruct P as [|c P'] eqn:EP; [done|]. rewrite <- EP in *.
    specialize (Hdirs (length P)). rewrite app_nil_l, firstn_all in Hdirs.
    rewrite Hdirs; [done|]. rewrite EP. simpl. lia. }
  assert (fsa !! tmp = fs !! tmp) as Etmp
    by (apply Hlong; unfold tmp; rewrite length_app; simpl; lia).
  assert (fsa !! dest = fs !! dest) as Edest
    by (apply Hlong; unfold dest; rewrite length_app; simpl; lia).
  assert (apply_op (OpenWb tmp) fsa = (<[tmp := File []]> fsa, None)) as Eopen.
  { cbn [apply_op]. rewrite Hpar.
    destruct (fsa !! tmp) as [[|c]|] eqn:E; [|done|done].
    congruence. }
  rewrite run_ops_cons, Eopen.
  rewrite (run_appends P nm (take k data) _ []) by apply lookup_insert_eq.
  rewrite insert_insert_eq, app_nil_l.
  eexists. split; [reflexivity|]. split; [apply lookup_insert_eq|].
  rewrite lookup_insert_ne by (by apply tmp_not_dest). exact Edest.
Qed.

End SaveFacts.

(** ** Attempts and retries *)

Module FetchFacts.
Import PyStr Py Os FsFacts SaveFacts downloadTextures Views.

Lemma exec_ops_cons op rest w :
  exec_ops (op :: rest) w =
  match fs_do op w with
  | (w', Ok _) => exec_ops rest w'
  | (w', Raise e) => (w', Raise e)
  end.
Proof.
  unfold exec_ops. simpl. unfold mbind, M_bind.
  by destruct (fs_do op w) as [w' [[]|e]].
Qed.

Lemma exec_ops_files ops w :
  files (fst (exec_ops ops w)) = fst (run_ops ops (files w))
  /\ requests (fst (exec_ops ops w)) = requests w.
Proof.
  induction ops as [|op rest IH] in w |- *; [done|].
  rewrite exec_ops_cons, run_ops_cons. unfold fs_do.
  destruct (apply_op op (files w)) as [fs' [e|]]; [done|].
  apply (IH (World fs' (requests w) (trace w ++ [Fs op]))).
Qed.

Lemma exec_ops_ok ops w fs' :
  run_ops ops (files w) = (fs', None) ->
  exec_ops ops w
  = (World fs' (requests w) (trace w ++ List.map Fs ops), Ok tt).
Proof.
  induction ops as [|op rest IH] in w |- *.
  - simpl. intros [= <-]. rewrite app_nil_r. by destruct w.
  - rewrite exec_ops_cons, run_ops_cons. unfold fs_do.
    destruct (apply_op op (files w)) as [fs1 [e|]]; [done|].
    intros H.
    rewrite (IH (World fs1 (requests w) (trace w ++ [Fs op])) H).
    simpl. by rewrite <- app_assoc.
Qed.

Lemma exec_appends_then tmp data r w :
  exec_ops (List.map (Append tmp) data ++ [r]) w
  = (_ ← for_eachM (fun b _ => fs_do (Append tmp b)) data tt; fs_do r) w.
Proof.
  induction data as [|b d IH] in w |- *.
  - simpl. rewrite exec_ops_cons. unfold mbind, M_bind, mret, M_ret.
    destruct (fs_do r w) as [w' [[]|e]]; done.
  - simpl. rewrite exec_ops_cons. unfold mbind, M_bind in *.
    destruct (fs_do (Append tmp b) w) as [w' [[]|e]]; [|done].
    apply IH.
Qed.

Section Net.
Context {net : Network}.

(** An attempt whose request raises does nothing else. *)
Lemma attempt_once_fail url dest_path w e :
  respond (requests w) url = Raise e ->
  attempt_once url dest_path w = (after_request url w, Raise e).
Proof.
  intros H. unfold attempt_once, mbind, M_bind, http_get. by rewrite H.
Qed.

(** An attempt whose request answers runs the save operations. *)
Lemma attempt_once_exec url dest_path tmp data w :
  part_path dest_path = Ok tmp ->
  respond (requests w) url = Ok data ->
  attempt_once url dest_path w
  = exec_ops (save_ops dest_path tmp data) (after_request url w).
Proof.
  intros Hp Hr. unfold attempt_once, save_ops.
  change ([Mkdirs (parent dest_path); OpenWb tmp] ++
          List.map (Append tmp) data ++ [Replace tmp dest_path])
    with (Mkdirs (parent dest_path) :: OpenWb tmp ::
          (List.map (Append tmp) data ++ [Replace tmp dest_path])).
  rewrite exec_ops_cons.
  unfold mbind at 1. unfold M_bind at 1. unfold http_get. rewrite Hr.
  fold (after_request url w).
  unfold mbind at 1. unfold M_bind at 1.
  destruct (fs_do (Mkdirs (parent dest_path)) (after_request url w))
    as [w1 [[]|e]]; [|done].
  unfold mbind at 1. unfold M_bind at 1. unfold lift. rewrite Hp.
  unfold mbind at 1. unfold M_bind at 1. rewrite exec_ops_cons.
  destruct (fs_do (OpenWb tmp) w1) as [w2 [[]|e]]; [|done].
  symmetry. apply exec_appends_then.
Qed.

(** One failed attempt of the loop: the request, then either the sleep
    and the next attempt, or the [break]. *)
Lemma attempts_step_fail url dest_path retries backoff attempt rest last w e :
  respond (requests w) url = Raise e -> caught e = true ->
  attempts url dest_path retries backoff (attempt :: rest) last w
  = if (attempt <? retries)%nat then
      attempts url dest_path retries backoff rest (Some e)
        (log (Sleep (backoff ^ Z.of_nat attempt)) (after_request url w))
    else (after_request url w, Ok (after_loop (Some e))).
Proof.
  intros H Hc. simpl. unfold mbind at 1. unfold M_bind at 1.
  unfold try_except. unfold mbind at 1. unfold M_bind at 1.
  rewrite (attempt_once_fail _ _ _ _ H), Hc.
  unfold mret at 1. unfold M_ret at 1.
  destruct (attempt <? retries)%nat; [|done].
  reflexivity.
Qed.

(** With the remote end failing throughout, no attempt touches the file
    system, whatever the retry budget. *)
Lemma attempts_fail_no_fs url dest_path retries backoff todo last w :
  (forall n, (requests w <= n)%nat ->
     exists e, respond n url = Raise e /\ caught e = true) ->
  let r := attempts url dest_path retries backoff todo last w in
  files (fst r) = files w
  /\ (exists msg, snd r = Ok (false, msg))
  /\ exists evs, trace (fst r) = trace w ++ evs
       /\ Forall (fun ev => forall op, ev <> Fs op) evs.
Proof.
  induction todo as [|attempt rest IH] in last, w |- *; intros Hnet r.
  - subst r. simpl. split; [done|]. split; [by eexists|].
    exists []. by rewrite app_nil_r.
  - destruct (Hnet (requests w)) as [e [He Hc]]; [lia|].
    subst r. rewrite (attempts_step_fail _ _ _ _ _ _ _ _ _ He Hc).
    destruct (attempt <? retries)%nat.
    + edestruct (IH (Some e)
                   (log (Sleep (backoff ^ Z.of_nat attempt)) (after_request url w)))
        as [Hf [Hm [evs [Ht Hev]]]].
      { intros n Hn. apply Hnet. simpl in Hn. lia. }
      split; [exact Hf|]. split; [exact Hm|].
      exists ([Request url; Sleep (backoff ^ Z.of_nat attempt)] ++ evs).
      split.
      * rewrite Ht. simpl. by rewrite <- !app_assoc.
      * apply Forall_app. split; [|done]. by repeat constructor.
    + simpl. split; [done|]. split; [by eexists|].
      exists [Request url]. split; [done|]. by repeat constructor.
Qed.

Lemma attempts_first_try url dest_path retries backoff attempt rest last w w' :
  attempt_once url dest_path w = (w', Ok tt) ->
  attempts url dest_path retries backoff (attempt :: rest) last w
  = (w', Ok (true, py "ok")).
Proof.
  intros H. simpl. unfold mbind, M_bind, try_except. by rewrite H.
Qed.

(** The answer to a request, saved on a store where no file is in the
    way. *)
Lemma attempt_once_saves url dir nm data w :
  nm <> [] -> one_of nm 47 = false ->
  respond (requests w) url = Ok data ->
  (forall k content, (0 < k <= length dir)%nat ->
      files w !! take k dir <> Some (File content)) ->
  files w !! (dir ++ [nm ++ py ".part"]) <> Some Dir ->
  files w !! (dir ++ [nm]) <> Some Dir ->
  exists fs',
    attempt_once url (dir ++ [nm]) w
    = (World fs' (S (requests w))
         (trace w
            ++ [Request url; Fs (Mkdirs dir);
                Fs (OpenWb (dir ++ [nm ++ py ".part"]))]
            ++ List.map (fun b => Fs (Append (dir ++ [nm ++ py ".part"]) b)) data
            ++ [Fs (Replace (dir ++ [nm ++ py ".part"]) (dir ++ [nm]))]),
       Ok tt)
    /\ fs' !! (dir ++ [nm]) = Some (File data)
    /\ (forall k, (0 < k <= length dir)%nat -> fs' !! take k dir = Some Dir).
Proof.
  intros Hne Hsep Hr Hanc Htmp Hdest.
  set (dest := dir ++ [nm]). set (tmp := dir ++ [nm ++ py ".part"]).
  assert (name dest = nm) as En by apply last_last.
  assert (parent dest = dir) as Ep by apply removelast_last.
  assert (part_path dest = Ok tmp) as Hp.
  { rewrite part_path_ok; rewrite ?En, ?Ep; done. }
  destruct (save_succeeds dir nm data (files w) Hanc Htmp Hdest)
    as [fs' [Hrun [Hd [_ Hdirs]]]].
  fold dest tmp in Hrun, Hd.
  exists fs'. split; [|split; [exact Hd|exact Hdirs]].
  rewrite (attempt_once_exec url dest tmp data w Hp Hr).
  rewrite (exec_ops_ok _ (after_request url w) fs' Hrun).
  unfold after_request, save_ops. simpl.
  rewrite Ep, <- !app_assoc. simpl.
  by rewrite List.map_app, List.map_map.
Qed.

(** [j] failed attempts, then one that answers. *)
Lemma attempts_succeed_after j url dir nm data retries backoff first n last w :
  nm <> [] -> one_of nm 47 = false ->
  (j < n)%nat -> (first + n = S retries)%nat ->
  (forall i, (i < j)%nat ->
     exists e, respond (requests w + i) url = Raise e /\ caught e = true) ->
  respond (requests w + j) url = Ok data ->
  (forall k content, (0 < k <= length dir)%nat ->
      files w !! take k dir <> Some (File content)) ->
  files w !! (dir ++ [nm ++ py ".part"]) <> Some Dir ->
  files w !! (dir ++ [nm]) <> Some Dir ->
  exists fs' evs,
    attempts url (dir ++ [nm]) retries backoff (seq first n) last w
    = (World fs' (S (requests w + j))
         (trace w ++ evs
            ++ [Request url; Fs (Mkdirs dir);
                Fs (OpenWb (dir ++ [nm ++ py ".part"]))]
            ++ List.map (fun b => Fs (Append (dir ++ [nm ++ py ".part"]) b)) data
            ++ [Fs (Replace (dir ++ [nm ++ py ".part"]) (dir ++ [nm]))]),
       Ok (true, py "ok"))
    /\ Forall (fun ev => forall op, ev <> Fs op) evs
    /\ fs' !! (dir ++ [nm]) = Some (File data)
    /\ (forall k, (0 < k <= length dir)%nat -> fs' !! take k dir = Some Dir).
Proof.
  intros Hne Hsep.
  induction j as [|j IH] in first, n, last, w |- *;
    intros Hj Hn Hfail Hok Hanc Htmp Hdest.
  - destruct n as [|n]; [lia|]. rewrite Nat.add_0_r in Hok.
    destruct (attempt_once_saves url dir nm data w Hne Hsep Hok Hanc Htmp Hdest)
      as [fs' [Hrun [Hd Hdirs]]].
    exists fs', []. rewrite Nat.add_0_r.
    split; [|split; [done|split; [exact Hd|exact Hdirs]]].
    simpl seq. by rewrite (attempts_first_try _ _ _ _ _ _ _ _ _ Hrun).
  - destruct n as [|n]; [lia|].
    destruct (Hfail 0%nat) as [e [He Hc]]; [lia|].
    rewrite Nat.add_0_r in He.
    simpl seq. rewrite (attempts_step_fail _ _ _ _ _ _ _ _ _ He Hc).
    assert ((first <? retries)%nat = true) as -> by (apply Nat.ltb_lt; lia).
    set (w1 := log (Sleep (backoff ^ Z.of_nat first)) (after_request url w)).
    destruct (IH (S first) n (Some e) w1) as [fs' [evs [Hrun [Hev [Hd Hdirs]]]]].
    + lia.
    + lia.
    + intros i Hi. destruct (Hfail (S i)) as [e' He']; [lia|].
      exists e'. simpl. by rewrite <- Nat.add_succ_r.
    + simpl. by rewrite <- Nat.add_succ_r.
    + exact Hanc.
    + exact Htmp.
    + exact Hdest.
    + exists fs', ([Request url; Sleep (backoff ^ Z.of_nat first)] ++ evs).
      split; [|split; [|split; [exact Hd|exact Hdirs]]].
      * rewrite Hrun. simpl. rewrite <- !app_assoc. simpl.
        by rewrite Nat.add_succ_r.
      * apply Forall_app. split; [by repeat constructor|exact Hev].
Qed.

(** Three failures in a row, with the defaults of the signature. *)
Lemma download_three_failures url dest_path backoff w e1 e2 e3 :
  respond (requests w) url = Raise e1 -> caught e1 = true ->
  respond (S (requests w)) url = Raise e2 -> caught e2 = true ->
  respond (S (S (requests w))) url = Raise e3 -> caught e3 = true ->
  download_with_retries url dest_path 3 backoff w
  = (World (files w) (3 + requests w)
       (trace w ++ [Request url; Sleep (backoff ^ 1);
                    Request url; Sleep (backoff ^ 2);
                    Request url]),
     Ok (false, str_of_exn e3)).
Proof.
  intros H1 K1 H2 K2 H3 K3. unfold download_with_retries.
  change (seq 1 3) with [1; 2; 3]%nat.
  rewrite (attempts_step_fail _ _ _ _ _ _ _ _ _ H1 K1).
  change (1 <? 3)%nat with true. cbv iota.
  rewrite (attempts_step_fail _ _ _ _ _ _ _ _ e2) by done.
  change (2 <? 3)%nat with true. cbv iota.
  rewrite (attempts_step_fail _ _ _ _ _ _ _ _ e3) by done.
  change (3 <? 3)%nat with false. cbv iota.
  unfold after_request, log, after_loop. simpl.
  by rewrite <- !app_assoc.
Qed.
End Net.

End FetchFacts.

(** ** Claims about the fetch engine *)

(** C6: a variation whose destination file exists when its turn comes is
    counted as skipped, and the world is left exactly as it was: no request
    is sent, and the file system is neither written nor otherwise operated
    on. *)
Theorem C6_existing_destination_is_skipped (net : Os.Network)
    (coll_name sub_name : str) (target_dir : Os.path) (var : Py.json)
    (pattern : str) (s : downloadTextures.summary) (w : Os.world) :
  downloadTextures._get_variation_pattern var = Py.Ok (Some pattern) ->
  is_Some (Os.files w !! Os.joinpath target_dir (pattern ++ py ".jpg")) ->
  downloadTextures.process_variation coll_name sub_name target_dir var s w
  = (w, Py.Ok (downloadTextures.Summary
                 (downloadTextures.downloaded s)
                 (S (downloadTextures.skipped s))
                 (downloadTextures.failed s)
                 (downloadTextures.errors s))).
Proof.
  intros Hp Hex. pose proof (CatalogFacts.pattern_nonempty var pattern Hp) as Hne.
  unfold downloadTextures.process_variation.
  unfold mbind at 1. unfold Os.M_bind at 1. unfold Os.lift. rewrite Hp.
  destruct pattern as [|c p]; [done|].
  unfold mbind, Os.M_bind, Os.exists_.
  by rewrite bool_decide_eq_true_2.
Qed.

Lemma C6_existing_destination_witness :
  @downloadTextures.process_variation Samples.net_up (py "Wools") (py "Heavy")
    Samples.heavy_dir Samples.red_variation
    (downloadTextures.Summary 0 0 0 []) Samples.world_with_texture
  = (Samples.world_with_texture, Py.Ok (downloadTextures.Summary 0 1 0 [])).
Proof.
  apply (C6_existing_destination_is_skipped Samples.net_up (py "Wools") (py "Heavy")
           Samples.heavy_dir Samples.red_variation (py "100-200")).
  - reflexivity.
  - vm_compute. eexists. reflexivity.
Defined.

(** C4: when every request fails with an exception of the [except] clause
    (HTTP error, URL error, timeout, OS error), [download_with_retries] with
    its budget of 3 sends exactly three requests, sleeps [backoff^1] after the
    first failure and [backoff^2] after the second, does not sleep after the
    third, and returns [False] with the text of the last exception.  For a
    variation whose destination does not exist, [process_all] then counts
    one more failure, appends the one entry "<pattern>: <text>", and goes on
    with the variations that remain. *)
Theorem C4_three_attempts_then_failure (net : Os.Network) :
  (forall url dest_path backoff w e1 e2 e3,
      Os.respond (Os.requests w) url = Py.Raise e1 ->
      downloadTextures.caught e1 = true ->
      Os.respond (S (Os.requests w)) url = Py.Raise e2 ->
      downloadTextures.caught e2 = true ->
      Os.respond (S (S (Os.requests w))) url = Py.Raise e3 ->
      downloadTextures.caught e3 = true ->
      downloadTextures.download_with_retries url dest_path 3 backoff w
      = (Os.World (Os.files w) (3 + Os.requests w)
           (Os.trace w ++ [Os.Request url; Os.Sleep (backoff ^ 1);
                           Os.Request url; Os.Sleep (backoff ^ 2);
                           Os.Request url]),
         Py.Ok (false, downloadTextures.str_of_exn e3)))
  /\ (forall coll_name sub_name target_dir var pattern rest s w e1 e2 e3,
      downloadTextures._get_variation_pattern var = Py.Ok (Some pattern) ->
      Os.files w !! Os.joinpath target_dir (pattern ++ py ".jpg") = None ->
      let url := downloadTextures.build_download_url pattern in
      Os.respond (Os.requests w) url = Py.Raise e1 ->
      downloadTextures.caught e1 = true ->
      Os.respond (S (Os.requests w)) url = Py.Raise e2 ->
      downloadTextures.caught e2 = true ->
      Os.respond (S (S (Os.requests w))) url = Py.Raise e3 ->
      downloadTextures.caught e3 = true ->
      Os.for_eachM (downloadTextures.process_variation coll_name sub_name target_dir)
        (var :: rest) s w
      = Os.for_eachM (downloadTextures.process_variation coll_name sub_name target_dir)
          rest
          (downloadTextures.Summary
             (downloadTextures.downloaded s) (downloadTextures.skipped s)
             (S (downloadTextures.failed s))
             (downloadTextures.errors s
                ++ [pattern ++ py ": " ++ downloadTextures.str_of_exn e3]))
          (Os.World (Os.files w) (3 + Os.requests w)
             (Os.trace w ++ [Os.Request url; Os.Sleep ((3 # 2) ^ 1);
                             Os.Request url; Os.Sleep ((3 # 2) ^ 2);
                             Os.Request url]))).
Proof.
  split.
  - intros url dest_path backoff w e1 e2 e3 H1 K1 H2 K2 H3 K3.
    by apply (FetchFacts.download_three_failures url dest_path backoff w e1 e2 e3).
  - intros coll_name sub_name target_dir var pattern rest s w e1 e2 e3
      Hp Hdest url H1 K1 H2 K2 H3 K3.
    pose proof (CatalogFacts.pattern_nonempty var pattern Hp) as Hne.
    cbn [Os.for_eachM]. unfold mbind at 1. unfold Os.M_bind at 1.
    unfold downloadTextures.process_variation.
    unfold mbind at 1. unfold Os.M_bind at 1. unfold Os.lift. rewrite Hp.
    destruct pattern as [|c p]; [done|].
    unfold mbind at 1. unfold Os.M_bind at 1. unfold Os.exists_.
    rewrite Hdest. rewrite bool_decide_eq_false_2 by (by intros [? ?]).
    unfold mbind at 1. unfold Os.M_bind at 1.
    unfold downloadTextures.default_retries, downloadTextures.default_backoff.
    fold url.
    rewrite (FetchFacts.download_three_failures url _ (3 # 2) w e1 e2 e3) by done.
    reflexivity.
Qed.

Lemma C4_three_attempts_witness :
  @downloadTextures.download_with_retries Samples.net_down
    (downloadTextures.build_download_url (py "100-200"))
    (Samples.heavy_dir ++ [py "100-200.jpg"]) 3 (3 # 2) Samples.empty_world
  = (Os.World ∅ 3
       [Os.Request (downloadTextures.build_download_url (py "100-200"));
        Os.Sleep ((3 # 2) ^ 1);
        Os.Request (downloadTextures.build_download_url (py "100-200"));
        Os.Sleep ((3 # 2) ^ 2);
        Os.Request (downloadTextures.build_download_url (py "100-200"))],
     Py.Ok (false, py "unreachable"))
  /\ @Os.for_eachM _ _
       (@downloadTextures.process_variation Samples.net_down (py "Wools") (py "Heavy")
          Samples.heavy_dir)
       [Samples.red_variation] (downloadTextures.Summary 0 0 0 []) Samples.empty_world
     = (Os.World ∅ 3
          [Os.Request (downloadTextures.build_download_url (py "100-200"));
           Os.Sleep ((3 # 2) ^ 1);
           Os.Request (downloadTextures.build_download_url (py "100-200"));
           Os.Sleep ((3 # 2) ^ 2);
           Os.Request (downloadTextures.build_download_url (py "100-200"))],
        Py.Ok (downloadTextures.Summary 0 0 1 [py "100-200: unreachable"])).
Proof.
  destruct (C4_three_attempts_then_failure Samples.net_down) as [H1 H2]. split.
  - apply (H1 _ _ _ Samples.empty_world
             (Py.URLError (py "unreachable")) (Py.URLError (py "unreachable"))
             (Py.URLError (py "unreachable"))); reflexivity.
  - apply (H2 (py "Wools") (py "Heavy") Samples.heavy_dir Samples.red_variation
             (py "100-200") [] (downloadTextures.Summary 0 0 0 [])
             Samples.empty_world
             (Py.URLError (py "unreachable")) (Py.URLError (py "unreachable"))
             (Py.URLError (py "unreachable")));
      reflexivity.
Defined.

(** C5: a response is saved through a temporary sibling.  The destination
    that [process_all] computes is always a directory followed by a file name
    [dir / name], and for such a destination the temporary file is
    [dir / (name ++ ".part")].  A successful request is followed by the
    operations of [save_ops] in order: create the parents, open the temporary
    file, write the bytes to it, and as the last operation rename it onto the
    destination.  When the rename is reached the temporary file holds the
    whole response.  If the save stops after any number of operations short
    of all of them, a destination that did not exist still does not exist, and
    apart from the directories above it only the temporary file has changed;
    and at no point does the destination hold anything but what it held
    before or the complete response.  For a destination without a [".."]
    component and without a NUL character, where no file stands in the way of
    a directory of the path and no directory in the way of the temporary file,
    the attempt, once it has opened the temporary file and written [k] bytes,
    has logged exactly these operations, the temporary file holds the first
    [k] bytes of the response and the destination is as it was; and where no
    directory stands at the destination either, the attempt returns with all
    operations logged, the whole response at the destination and no temporary
    file left. *)
Theorem C5_save_through_temporary_sibling (net : Os.Network) :
  (forall target_dir pattern,
      exists dir name,
        Os.joinpath target_dir (pattern ++ py ".jpg") = dir ++ [name]
        /\ name <> [] /\ PyStr.one_of name 47 = false)
  /\ (forall url dir name data w,
      name <> [] -> PyStr.one_of name 47 = false ->
      Os.respond (Os.requests w) url = Py.Ok data ->
      let dest := dir ++ [name] in
      let tmp := dir ++ [name ++ py ".part"] in
      let ops := downloadTextures.save_ops dest tmp data in
      let started := Views.after_request url w in
      downloadTextures.part_path dest = Py.Ok tmp
      /\ downloadTextures.attempt_once url dest w = downloadTextures.exec_ops ops started
      /\ last ops = Some (Os.Replace tmp dest)
      /\ (forall fs fs1, Os.run_ops (removelast ops) fs = (fs1, None) ->
            fs1 !! tmp = Some (Os.File data))
      /\ (forall k, (k < length ops)%nat -> Os.files w !! dest = None ->
            Os.files (fst (downloadTextures.exec_ops (take k ops) started)) !! dest
            = None)
      /\ (forall k q, (k < length ops)%nat ->
            (length dir < length q)%nat -> q <> tmp ->
            Os.files (fst (downloadTextures.exec_ops (take k ops) started)) !! q
            = Os.files w !! q)
      /\ (forall k,
            Os.files (fst (downloadTextures.exec_ops (take k ops) started)) !! dest
              = Os.files w !! dest
            \/ Os.files (fst (downloadTextures.exec_ops (take k ops) started)) !! dest
              = Some (Os.File data))
      /\ (Os.plain dest = true ->
          existsb (fun c => PyStr.one_of c 0) dest = false ->
          (forall j content, (0 < j <= length dir)%nat ->
             Os.files w !! take j dir <> Some (Os.File content)) ->
          Os.files w !! tmp <> Some Os.Dir ->
          (forall k, (k <= length data)%nat ->
             exists fs_k,
               downloadTextures.exec_ops (take (2 + k) ops) started
               = (Os.World fs_k (S (Os.requests w))
                    (Os.trace w ++ [Os.Request url]
                       ++ List.map Os.Fs (take (2 + k) ops)),
                  Py.Ok tt)
               /\ fs_k !! tmp = Some (Os.File (take k data))
               /\ fs_k !! dest = Os.files w !! dest)
          /\ (Os.files w !! dest <> Some Os.Dir ->
              exists fs',
                downloadTextures.attempt_once url dest w
                = (Os.World fs' (S (Os.requests w))
                     (Os.trace w ++ [Os.Request url] ++ List.map Os.Fs ops),
                   Py.Ok tt)
                /\ fs' !! dest = Some (Os.File data)
                /\ fs' !! tmp = None))).
Proof.
  split; [apply FsFacts.dest_file_shape|].
  intros url dir name data w Hne Hsep Hr dest tmp ops started.
  assert (Os.name dest = name) as En by apply last_last.
  assert (Os.parent dest = dir) as Ep by apply removelast_last.
  assert (downloadTextures.part_path dest = Py.Ok tmp) as Hp.
  { rewrite FsFacts.part_path_ok; rewrite ?En, ?Ep; done. }
  assert (ops = Views.writes dir name data ++ [Os.Replace tmp dest]) as Eops
    by apply SaveFacts.save_ops_writes.
  split; [exact Hp|]. split; [by apply FetchFacts.attempt_once_exec|].
  split; [rewrite Eops; apply last_snoc|]. split.
  - intros fs fs1. rewrite Eops, removelast_last.
    apply SaveFacts.writes_fill_tmp.
  - assert (length ops = S (length (Views.writes dir name data))) as El.
    { rewrite Eops, length_app. simpl. lia. }
    split.
    + intros k Hk Hd.
      rewrite (proj1 (FetchFacts.exec_ops_files (take k ops) started)).
      destruct (SaveFacts.save_never_partial dir name data k (Os.files started))
        as [Hbefore _].
      fold dest tmp ops in Hbefore. rewrite Hbefore by lia. exact Hd.
    + split; [|split].
      * intros k q Hk Hlen Hq.
        rewrite (proj1 (FetchFacts.exec_ops_files (take k ops) started)).
        apply (SaveFacts.save_prefix_spares dir name data q k); [lia|done|done].
      * intros k.
        rewrite (proj1 (FetchFacts.exec_ops_files (take k ops) started)).
        destruct (SaveFacts.save_never_partial dir name data k (Os.files started))
          as [_ Hnever].
        exact Hnever.
      * intros _ _ Hanc Htmp. split.
        -- intros k Hk.
           destruct (SaveFacts.save_progress dir name data (Os.files w) k Hanc Htmp Hk)
             as (fs_k & Hrun & Ht & Hd).
           exists fs_k. split; [|split; [exact Ht|exact Hd]].
           unfold ops, dest, tmp. rewrite (FetchFacts.exec_ops_ok _ started fs_k Hrun).
           unfold started, Views.after_request. cbn [Os.requests Os.trace].
           by rewrite <- app_assoc.
        -- intros Hdest.
           destruct (SaveFacts.save_succeeds dir name data (Os.files w) Hanc Htmp Hdest)
             as (fs' & Hrun & Hd & Ht & _).
           exists fs'. split; [|split; [exact Hd|exact Ht]].
           rewrite (FetchFacts.attempt_once_exec url dest tmp data w Hp Hr).
           unfold ops, dest, tmp.
           rewrite (FetchFacts.exec_ops_ok _ (Views.after_request url w) fs' Hrun).
           unfold started, Views.after_request. cbn [Os.requests Os.trace].
           by rewrite <- app_assoc.
Qed.

(** Two bytes are saved in an empty world: after the first write the
    temporary file holds one byte and there is no destination; at the end the
    destination holds both and the temporary file is gone. *)
Lemma C5_save_witness :
  (exists fs_k,
     downloadTextures.exec_ops
       (take (2 + 1) (downloadTextures.save_ops
                        (Samples.heavy_dir ++ [py "100-200.jpg"])
                        (Samples.heavy_dir ++ [py "100-200.jpg" ++ py ".part"])
                        [Byte.x4a; Byte.x46]))
       (Views.after_request (py "u") Samples.empty_world)
     = (Os.World fs_k 1
          ([] ++ [Os.Request (py "u")]
              ++ List.map Os.Fs
                   (take (2 + 1) (downloadTextures.save_ops
                                    (Samples.heavy_dir ++ [py "100-200.jpg"])
                                    (Samples.heavy_dir ++ [py "100-200.jpg" ++ py ".part"])
                                    [Byte.x4a; Byte.x46]))),
        Py.Ok tt)
     /\ fs_k !! (Samples.heavy_dir ++ [py "100-200.jpg" ++ py ".part"])
        = Some (Os.File (take 1 [Byte.x4a; Byte.x46]))
     /\ fs_k !! (Samples.heavy_dir ++ [py "100-200.jpg"]) = None)
  /\ (exists fs',
       @downloadTextures.attempt_once Samples.net_up (py "u")
         (Samples.heavy_dir ++ [py "100-200.jpg"]) Samples.empty_world
       = (Os.World fs' 1
            ([] ++ [Os.Request (py "u")]
                ++ List.map Os.Fs
                     (downloadTextures.save_ops
                        (Samples.heavy_dir ++ [py "100-200.jpg"])
                        (Samples.heavy_dir ++ [py "100-200.jpg" ++ py ".part"])
                        [Byte.x4a; Byte.x46])),
          Py.Ok tt)
       /\ fs' !! (Samples.heavy_dir ++ [py "100-200.jpg"])
          = Some (Os.File [Byte.x4a; Byte.x46])
       /\ fs' !! (Samples.heavy_dir ++ [py "100-200.jpg" ++ py ".part"]) = None).
Proof.
  destruct (proj2 (C5_save_through_temporary_sibling Samples.net_up) (py "u")
              Samples.heavy_dir (py "100-200.jpg") [Byte.x4a; Byte.x46]
              Samples.empty_world) as [_ [_ [_ [_ [_ [_ [_ H8]]]]]]].
  - discriminate.
  - reflexivity.
  - reflexivity.
  - destruct H8 as [Hk Hall].
    + reflexivity.
    + reflexivity.
    + intros j content _. discriminate.
    + discriminate.
    + split; [apply (Hk 1%nat); simpl; lia|apply Hall; discriminate].
Defined.

(** C10: [download_with_retries] makes the directories itself.  The
    destination that [process_all] computes is always a directory followed by
    a file name.  When a request answers, after any number of failed attempts
    within the budget, and no file stands where a directory of the path, the
    temporary file or the destination has to go, the call creates every
    missing ancestor of the destination before it opens the temporary file,
    writes the response and returns [True, "ok"]: the destination then holds
    the response and every ancestor is a directory, whether or not any of them
    existed before; the failed attempts before it did not operate on the file
    system.  When every request fails with an exception of the [except]
    clause, whatever the retry budget, the file system is left as it was and
    no file-system operation is even attempted. *)
Theorem C10_download_creates_missing_parents (net : Os.Network) :
  (forall target_dir pattern,
      exists dir name,
        Os.joinpath target_dir (pattern ++ py ".jpg") = dir ++ [name]
        /\ name <> [] /\ PyStr.one_of name 47 = false)
  /\ (forall url dir name data retries backoff j w,
      name <> [] -> PyStr.one_of name 47 = false ->
      (j < retries)%nat ->
      (forall i, (i < j)%nat ->
         exists e, Os.respond (Os.requests w + i) url = Py.Raise e
                   /\ downloadTextures.caught e = true) ->
      Os.respond (Os.requests w + j) url = Py.Ok data ->
      (forall k content, (0 < k <= length dir)%nat ->
          Os.files w !! take k dir <> Some (Os.File content)) ->
      Os.files w !! (dir ++ [name ++ py ".part"]) <> Some Os.Dir ->
      Os.files w !! (dir ++ [name]) <> Some Os.Dir ->
      let dest := dir ++ [name] in
      let tmp := dir ++ [name ++ py ".part"] in
      exists fs' evs,
        downloadTextures.download_with_retries url dest retries backoff w
        = (Os.World fs' (S (Os.requests w + j))
             (Os.trace w ++ evs
                ++ [Os.Request url; Os.Fs (Os.Mkdirs dir); Os.Fs (Os.OpenWb tmp)]
                ++ List.map (fun b => Os.Fs (Os.Append tmp b)) data
                ++ [Os.Fs (Os.Replace tmp dest)]),
           Py.Ok (true, py "ok"))
        /\ Forall (fun ev => forall op, ev <> Os.Fs op) evs
        /\ fs' !! dest = Some (Os.File data)
        /\ (forall k, (0 < k <= length dir)%nat -> fs' !! take k dir = Some Os.Dir))
  /\ (forall url dest retries backoff w,
      (forall n, (Os.requests w <= n)%nat ->
         exists e, Os.respond n url = Py.Raise e /\ downloadTextures.caught e = true) ->
      Os.files (fst (downloadTextures.download_with_retries url dest retries backoff w))
        = Os.files w
      /\ exists evs,
           Os.trace (fst (downloadTextures.download_with_retries url dest retries backoff w))
             = Os.trace w ++ evs
           /\ Forall (fun ev => forall op, ev <> Os.Fs op) evs).
Proof.
  split; [apply FsFacts.dest_file_shape|]. split.
  - intros url dir name data retries backoff j w Hne Hsep Hj Hfail Hok Hanc Htmp
      Hdest dest tmp.
    apply (FetchFacts.attempts_succeed_after j url dir name data retries backoff
             1 retries None w); (done || lia).
  - intros url dest retries backoff w Hnet.
    destruct (FetchFacts.attempts_fail_no_fs url dest retries backoff
                (seq 1 retries) None w Hnet) as [Hf [_ Hev]].
    split; [exact Hf|exact Hev].
Qed.

(** A remote end that fails once and then answers. *)
Lemma C10_download_witness :
  (exists fs' evs,
     @downloadTextures.download_with_retries Samples.net_flaky (py "u")
       (Samples.heavy_dir ++ [py "100-200.jpg"]) 3 (3 # 2) Samples.empty_world
     = (Os.World fs' 2
          ([] ++ evs
              ++ [Os.Request (py "u"); Os.Fs (Os.Mkdirs Samples.heavy_dir);
                  Os.Fs (Os.OpenWb (Samples.heavy_dir ++ [py "100-200.jpg" ++ py ".part"]))]
              ++ List.map
                   (fun b => Os.Fs (Os.Append
                      (Samples.heavy_dir ++ [py "100-200.jpg" ++ py ".part"]) b))
                   [Byte.x4a; Byte.x46]
              ++ [Os.Fs (Os.Replace
                           (Samples.heavy_dir ++ [py "100-200.jpg" ++ py ".part"])
                           (Samples.heavy_dir ++ [py "100-200.jpg"]))]),
        Py.Ok (true, py "ok"))
     /\ Forall (fun ev => forall op, ev <> Os.Fs op) evs
     /\ fs' !! (Samples.heavy_dir ++ [py "100-200.jpg"])
        = Some (Os.File [Byte.x4a; Byte.x46])
     /\ (forall k, (0 < k <= length Samples.heavy_dir)%nat ->
           fs' !! take k Samples.heavy_dir = Some Os.Dir))
  /\ Os.files (fst (@downloadTextures.download_with_retries Samples.net_down (py "u")
                      (Samples.heavy_dir ++ [py "100-200.jpg"]) 3 (3 # 2)
                      Samples.empty_world))
     = Os.files Samples.empty_world.
Proof.
  split.
  - apply (proj1 (proj2 (C10_download_creates_missing_parents Samples.net_flaky))
             (py "u") Samples.heavy_dir (py "100-200.jpg") [Byte.x4a; Byte.x46]
             3%nat (3 # 2) 1%nat Samples.empty_world).
    + discriminate.
    + reflexivity.
    + lia.
    + intros i Hi. exists (Py.TimeoutError (py "timed out")).
      replace i with 0%nat by lia. split; reflexivity.
    + reflexivity.
    + intros k content _. simpl. rewrite lookup_empty. discriminate.
    + simpl. rewrite lookup_empty. discriminate.
    + simpl. rewrite lookup_empty. discriminate.
  - apply (proj2 (proj2 (C10_download_creates_missing_parents Samples.net_down))
             (py "u") (Samples.heavy_dir ++ [py "100-200.jpg"]) 3%nat (3 # 2)
             Samples.empty_world).
    intros n _. exists (Py.URLError (py "unreachable")). split; reflexivity.
Defined.

(** * Further properties *)

(** ** Names as path components *)

Module ComponentFacts.
Import PyStr PyStrFacts SlugFacts Py Os FsFacts.

Lemma joinpath_relative p s : head s <> Some 47 -> joinpath p s = p ++ components s.
Proof.
  unfold joinpath. destruct s as [|c rest]; [done|]. intros H.
  destruct (N.eqb_spec c 47) as [->|Hne]; [done|].
  destruct c as [|pc]; [done|].
  repeat (destruct pc as [pc|pc|]; try done).
Qed.

Lemma one_of_false_each s x :
  one_of s x = false -> Forall (fun c => (c =? x) = false) s.
Proof.
  unfold one_of. induction s as [|c t IH]; simpl; [done|].
  intros [H1 H2]%orb_false_elim. constructor; [|by apply IH].
  by rewrite N.eqb_sym.
Qed.

(** A name that is not empty, is not ["."] and holds no separator is one
    component, and joining it to a path appends it. *)
Lemma joinpath_single p s :
  s <> [] -> one_of s 47 = false -> s <> py "." -> joinpath p s = p ++ [s].
Proof.
  intros Hne Hsep Hdot.
  rewrite joinpath_relative.
  - unfold components. rewrite (split_on_clean 47 [] s) by (by apply one_of_false_each).
    simpl. unfold str_eqb.
    by rewrite !bool_decide_eq_false_2.
  - destruct s as [|c t]; [done|]. intros [= ->]. unfold one_of in Hsep. simpl in Hsep. done.
Qed.

Lemma Forall_one_of_false (q : N -> bool) s x :
  q x = false -> Forall (fun c => q c = true) s -> one_of s x = false.
Proof.
  intros Hx H. unfold one_of. induction H as [|c t Hc _ IH]; simpl; [done|].
  rewrite IH, orb_false_r. destruct (N.eqb_spec x c) as [->|]; [congruence|done].
Qed.
End ComponentFacts.

Module RunFacts.
Import PyStr PyStrFacts SlugFacts.

Section Class.
Variable p : N -> bool.

Lemma re_sub1_none r s :
  Forall (fun c => p c = false) s -> re_sub1 p r s = s.
Proof.
  unfold re_sub1. induction 1 as [|c t Hc _ IH]; simpl; [done|]. by rewrite Hc, IH.
Qed.

Lemma Forall_re_sub1 (Q : N -> Prop) r s :
  Forall Q r -> Forall (fun c => p c = false -> Q c) s -> Forall Q (re_sub1 p r s).
Proof.
  intros Hr. unfold re_sub1. induction 1 as [|c t Hc _ IH]; simpl; [done|].
  apply Forall_app. split; [|done].
  destruct (p c); [done|]. constructor; [by apply Hc|done].
Qed.

Lemma starts_re_sub1 q r s :
  starts q r = false -> r <> [] -> starts q s = false -> starts q (re_sub1 p r s) = false.
Proof.
  intros Hr Hne. destruct s as [|c t]; [done|]. unfold re_sub1. simpl.
  destruct (p c); [|done]. destruct r; [done|]. done.
Qed.

Lemma starts_sub_plus_false r s :
  starts p s = false -> starts p (re_sub_plus p r s) = false.
Proof.
  destruct s as [|c t]; [done|]. unfold starts, re_sub_plus. simpl.
  intros H. by rewrite H.
Qed.

(** What the scanner writes for a run is all that is left of the class. *)
Lemma sub_plus_class x b s :
  Forall (fun c => p c = true -> c = x) (re_sub_plus_from p [x] b s).
Proof.
  induction s as [|c t IH] in b |- *; simpl; [done|].
  destruct (p c) eqn:Hc.
  - destruct b; [done|]. constructor; [done|apply IH].
  - constructor; [congruence|apply IH].
Qed.

Lemma no_pair_sub_plus_any x b s :
  no_pair p (re_sub_plus_from p [x] b s) = true.
Proof.
  induction s as [|a t IH] in b |- *; simpl; [done|].
  destruct (p a) eqn:Ha.
  - destruct b; [done|]. simpl.
    by rewrite starts_sub_plus_true, IH, andb_false_r.
  - simpl. by rewrite Ha, IH.
Qed.

(** A string without neighbouring class members, whose class members are
    all [x], is a fixed point of the run replacement by [x]. *)
Lemma sub_plus_fixed x s :
  no_pair p s = true -> Forall (fun c => p c = true -> c = x) s ->
  re_sub_plus p [x] s = s.
Proof.
  unfold re_sub_plus. induction s as [|a t IH]; simpl; [done|].
  intros [H1 H2]%andb_prop Hx. apply Forall_cons in Hx as [Ha Ht].
  destruct (p a) eqn:Hpa; simpl in *.
  - apply negb_true_iff in H1. rewrite (Ha eq_refl). f_equal.
    rewrite <- (IH H2 Ht) at 2. rewrite (sub_plus_false_true _ _ t), H1. done.
  - by rewrite (IH H2 Ht).
Qed.

Lemma no_pair_rstrip_any q s :
  no_pair p s = true -> no_pair p (rstrip_with q s) = true.
Proof.
  induction s as [|a t IH]; [done|].
  intros [H1 H2]%andb_prop. simpl.
  specialize (IH H2).
  destruct t as [|b t'].
  - simpl. destruct (q a); [done|]. simpl. by rewrite andb_false_r.
  - destruct (rstrip_with_cons q b t') as [E | [u E]]; rewrite E in *.
    + destruct (q a); [done|]. simpl. by rewrite andb_false_r.
    + simpl. simpl in IH. rewrite IH, andb_true_r. exact H1.
Qed.

(** Members of the string outside the class survive each step. *)
Lemma In_lstrip_with c s : In c s -> p c = false -> In c (lstrip_with p s).
Proof.
  induction s as [|a t IH]; [done|]. simpl. intros [->|H] Hc.
  - rewrite Hc. by left.
  - destruct (p a); [by apply IH|by right].
Qed.

Lemma In_rstrip_with c s : In c s -> p c = false -> In c (rstrip_with p s).
Proof.
  induction s as [|a t IH]; [done|]. intros [->|H] Hc.
  - destruct (rstrip_with_cons p c t) as [E | [r E]].
    + simpl in E. destruct (rstrip_with p t); [by rewrite Hc in E|done].
    + rewrite E. by left.
  - specialize (IH H Hc). simpl.
    destruct (rstrip_with p t); [done|by right].
Qed.

Lemma In_re_sub1 r c s : In c s -> p c = false -> In c (re_sub1 p r s).
Proof.
  unfold re_sub1. intros H Hc. apply in_flat_map. exists c. split; [done|].
  rewrite Hc. by left.
Qed.

Lemma In_sub_plus r b c s : In c s -> p c = false -> In c (re_sub_plus_from p r b s).
Proof.
  induction s as [|a t IH] in b |- *; [done|]. simpl. intros [->|H] Hc.
  - rewrite Hc. by left.
  - destruct (p a); [destruct b|]; [by apply IH| |right; by apply IH].
    apply in_or_app. right. by apply IH.
Qed.
End Class.

Lemma ends_weaken (p q : N -> bool) s :
  (forall c, q c = true -> p c = true) -> ends p s = false -> ends q s = false.
Proof.
  intros Hpq. unfold ends. destruct (last s) as [c|]; [|done].
  intros H. destruct (q c) eqn:E; [|done]. by rewrite (Hpq c E) in H.
Qed.

Lemma ends_Forall (q : N -> bool) s :
  Forall (fun c => q c = false) s -> ends q s = false.
Proof.
  intros H. unfold ends. destruct (last s) as [c|] eqn:E; [|done].
  apply last_Some in E as [l' ->]. apply Forall_app in H as [_ H].
  by apply Forall_inv in H.
Qed.
End RunFacts.

(** ** The folder name of [sanitize_folder] *)

Module FolderFacts.
Import PyStr PyStrFacts SlugFacts RunFacts ComponentFacts Py Os Shapes.

(** The string before the final test for emptiness. *)
Lemma folder_body_shape name :
  let s := rstrip_chars (py ". ")
             (re_sub_plus isspace (py " ")
                (re_sub1 downloadTextures.INVALID_WIN (py "_") (strip name))) in
  Forall (fun c => downloadTextures.INVALID_WIN c = false) s
  /\ Forall (fun c => isspace c = true -> c = 32) s
  /\ no_pair isspace s = true
  /\ starts isspace s = false
  /\ ends (one_of (py ". ")) s = false.
Proof.
  intros s. subst s. unfold rstrip_chars.
  set (t1 := re_sub1 _ _ _).
  assert (Forall (fun c => downloadTextures.INVALID_WIN c = false) t1) as H1.
  { apply Forall_re_sub1; [by repeat constructor|].
    apply List.Forall_forall. by intros c _ Hc. }
  assert (starts isspace t1 = false) as S1.
  { apply starts_re_sub1; [done|done|]. apply starts_strip_with. }
  split; [|split; [|split; [|split]]].
  - apply Forall_rstrip_with, Forall_sub_plus; [by repeat constructor|exact H1].
  - apply Forall_rstrip_with, sub_plus_class.
  - apply no_pair_rstrip_any, no_pair_sub_plus_any.
  - apply starts_rstrip_with, starts_sub_plus_false, S1.
  - apply ends_rstrip_with.
Qed.

Lemma sanitize_folder_shape name :
  wellformed_folder (downloadTextures.sanitize_folder name).
Proof.
  unfold downloadTextures.sanitize_folder.
  pose proof (folder_body_shape name) as H. cbv zeta in *.
  destruct (rstrip_chars _ _) as [|c t] eqn:E.
  - simpl. repeat split; try done; repeat constructor; done.
  - simpl. split; [done|]. exact H.
Qed.

Lemma wellformed_folder_fixed s :
  wellformed_folder s -> downloadTextures.sanitize_folder s = s.
Proof.
  intros (Hne & Hinv & Hsp & Hpair & Hst & Hen).
  assert (ends isspace s = false) as Hen'.
  { unfold ends in *. destruct (last s) as [c|] eqn:E; [|done].
    destruct (isspace c) eqn:Ec; [|done].
    apply last_Some in E as [l' ->]. apply Forall_app in Hsp as [_ Hsp].
    apply Forall_inv in Hsp. rewrite (Hsp Ec) in Hen. done. }
  unfold downloadTextures.sanitize_folder, strip, strip_with.
  rewrite (lstrip_with_id _ s Hst), (rstrip_with_id _ s Hen').
  rewrite re_sub1_none by exact Hinv.
  change (py " ") with [32].
  rewrite sub_plus_fixed by done.
  unfold rstrip_chars. rewrite rstrip_with_id by exact Hen.
  by destruct s.
Qed.

Lemma sanitize_folder_component p name :
  joinpath p (downloadTextures.sanitize_folder name)
  = p ++ [downloadTextures.sanitize_folder name].
Proof.
  destruct (sanitize_folder_shape name) as (Hne & Hinv & _ & _ & _ & Hen).
  apply joinpath_single; [done| |].
  - unfold one_of. apply not_true_iff_false. intros H.
    apply existsb_exists in H as [c [Hin Hc]]. apply N.eqb_eq in Hc. subst c.
    rewrite List.Forall_forall in Hinv. by specialize (Hinv 47 Hin).
  - intros E. rewrite E in Hen. done.
Qed.
End FolderFacts.

(** ** Fixed points of the token *)

Module TokenFixed.
Import PyStr PyStrFacts SlugFacts TokenFacts RunFacts create_materials Views.

Lemma final_char_token c : final_char c = true -> Spec.token_char c = true.
Proof.
  unfold final_char, Spec.token_char. intros H.
  apply orb_true_iff in H as [H|H]; [|by rewrite H, orb_true_r].
  apply orb_true_iff in H as [H|H]; [by rewrite H|by rewrite H, !orb_true_r].
Qed.

Lemma final_char_not_lower c : final_char c = true -> is_lower_az c = false.
Proof. intros H. unfold final_char in H. class_arith. Qed.

Lemma final_char_not_space c : final_char c = true -> isspace c = false.
Proof. intros H. unfold final_char in H. class_arith. Qed.

Lemma final_char_not_blank c : final_char c = true -> (c =? 32) = false.
Proof. intros H. unfold final_char in H. class_arith. Qed.

Lemma final_char_ascii c : final_char c = true -> is_ascii c = true.
Proof. intros H. unfold final_char in H. class_arith. Qed.

Lemma up1_final_fixed c : final_char c = true -> up1 c = c.
Proof. intros H. unfold up1. by rewrite (final_char_not_lower c H). Qed.

Lemma up1_hyphen_eqb c : Spec.token_char c = true -> (45 =? up1 c) = (45 =? c).
Proof.
  intros H. destruct (N.eqb_spec 45 c) as [<-|Hne]; [done|].
  apply N.eqb_neq. intros E. apply Hne. symmetry. by apply up1_hyphen.
Qed.

Lemma starts_map_up1 s :
  Forall (fun c => Spec.token_char c = true) s ->
  starts (N.eqb 45) (List.map up1 s) = starts (N.eqb 45) s.
Proof.
  destruct 1 as [|c t Hc _]; [done|]. unfold starts. simpl. by apply up1_hyphen_eqb.
Qed.

Lemma ends_map_up1 s :
  Forall (fun c => Spec.token_char c = true) s ->
  ends (N.eqb 45) (List.map up1 s) = ends (N.eqb 45) s.
Proof.
  induction 1 as [|c t Hc Ht IH]; [done|].
  destruct t as [|d t']; [unfold ends; simpl; by apply up1_hyphen_eqb|].
  exact IH.
Qed.

Lemma no_pair_map_up1 s :
  Forall (fun c => Spec.token_char c = true) s ->
  no_pair (N.eqb 45) (List.map up1 s) = no_pair (N.eqb 45) s.
Proof.
  induction 1 as [|c t Hc Ht IH]; [done|].
  cbn [no_pair List.map]. rewrite IH, (starts_map_up1 t Ht), (up1_hyphen_eqb c Hc). done.
Qed.

Lemma token_body_no_pair s : no_pair (N.eqb 45) (token_body s) = true.
Proof.
  unfold token_body, strip_with.
  apply no_pair_rstrip_with, no_pair_lstrip_with.
  rewrite <- re_sub_plus_collapse. apply no_pair_sub_plus.
Qed.

(** A string over [A-Z0-9-] with no hyphen at either end and no two hyphens
    in a row passes through the body of [sanitize_token] unchanged. *)
Lemma token_body_fixed s :
  Forall (fun c => final_char c = true) s ->
  starts (N.eqb 45) s = false -> ends (N.eqb 45) s = false ->
  no_pair (N.eqb 45) s = true ->
  token_body s = s.
Proof.
  intros Hc Hs He Hp. unfold token_body.
  unfold strip. rewrite (strip_with_none isspace s).
  2: { eapply Forall_impl; [exact Hc|apply final_char_not_space]. }
  assert (List.map (fun c => if c =? 32 then 45 else c) s = s) as ->.
  { clear Hs He Hp. induction Hc as [|c t H _ IH]; simpl; [done|].
    by rewrite (final_char_not_blank c H), IH. }
  rewrite filter_keep_all.
  2: { eapply Forall_impl; [exact Hc|apply final_char_token]. }
  rewrite <- re_sub_plus_collapse, sub_plus_no_pair by exact Hp.
  unfold strip_with. rewrite (lstrip_with_id _ s Hs). by apply rstrip_with_id.
Qed.

Section Again.
Context {U : UnicodeData}.
Hypothesis nfkd_ascii :
  forall t, Forall (fun c => is_ascii c = true) t -> normalize_NFKD t = t.
Hypothesis ascii_not_combining : forall c, is_ascii c = true -> combining c = 0.

Lemma sanitize_token_fixed text :
  sanitize_token (sanitize_token text) = sanitize_token text.
Proof.
  rewrite (sanitize_token_unfold text).
  pose proof (token_body_chars (strip_accents text)) as Hc.
  rewrite (upper_token_chars _ Hc).
  set (tb := token_body (strip_accents text)) in *.
  assert (Forall (fun c => final_char c = true) (List.map up1 tb)) as Hf
    by (by apply Forall_map_up1).
  rewrite sanitize_token_unfold.
  rewrite (strip_accents_ascii _ nfkd_ascii ascii_not_combining).
  2: { eapply Forall_impl; [exact Hf|apply final_char_ascii]. }
  rewrite token_body_fixed.
  - rewrite upper_token_chars.
    2: { eapply Forall_impl; [exact Hf|apply final_char_token]. }
    clear -Hf. induction Hf as [|c t H _ IH]; simpl; [done|].
    by rewrite (up1_final_fixed c H), IH.
  - exact Hf.
  - rewrite starts_map_up1 by exact Hc. apply starts_strip_with.
  - rewrite ends_map_up1 by exact Hc. apply ends_strip_with.
  - rewrite no_pair_map_up1 by exact Hc. apply token_body_no_pair.
Qed.
End Again.
End TokenFixed.

Module SlugShape.
Import PyStr PyStrFacts SlugFacts RunFacts ComponentFacts Py Os Views.

Lemma or_unnamed_shape s :
  or_unnamed (slug_tail s) <> []
  /\ Forall (fun c => Spec.slug_char c = true) (or_unnamed (slug_tail s))
  /\ starts (N.eqb 95) (or_unnamed (slug_tail s)) = false
  /\ ends (N.eqb 95) (or_unnamed (slug_tail s)) = false
  /\ no_pair (N.eqb 95) (or_unnamed (slug_tail s)) = true.
Proof.
  pose proof (slug_tail_chars s) as Hc.
  pose proof (slug_tail_no_pair s) as Hp.
  pose proof (starts_strip_with (N.eqb 95)
                (re_sub_plus (N.eqb 95) [95]
                   (List.filter Spec.slug_char
                      (re_sub_plus create_folders.is_separator [95] s)))) as Hs.
  pose proof (ends_strip_with (N.eqb 95)
                (re_sub_plus (N.eqb 95) [95]
                   (List.filter Spec.slug_char
                      (re_sub_plus create_folders.is_separator [95] s)))) as He.
  fold (slug_tail s) in Hs, He.
  destruct (slug_tail s) as [|c t].
  - simpl. repeat split; try done. by repeat constructor.
  - simpl. by repeat split.
Qed.

Lemma slug_component p s :
  s <> [] -> Forall (fun c => Spec.slug_char c = true) s -> joinpath p s = p ++ [s].
Proof.
  intros Hne Hc. apply joinpath_single; [done| |].
  - by apply (Forall_one_of_false Spec.slug_char).
  - intros ->. apply Forall_inv in Hc. done.
Qed.
End SlugShape.

(** X1: for every name, the directory slug of [create-folders.py] is not
    empty, consists of [a-z0-9_] only, neither starts nor ends with an
    underscore and holds no two underscores in a row; joined to a path it is
    exactly one more component, so a collection directory lies directly under
    the destination. *)
Theorem X1_slug_is_one_path_component (U : UnicodeData) (name : str) (p : Os.path) :
  create_folders.slugify name <> []
  /\ Forall (fun c => PyStr.is_lower_az c || PyStr.is_digit c || (c =? 95) = true)
       (create_folders.slugify name)
  /\ PyStr.starts (N.eqb 95) (create_folders.slugify name) = false
  /\ PyStr.ends (N.eqb 95) (create_folders.slugify name) = false
  /\ PyStr.no_pair (N.eqb 95) (create_folders.slugify name) = true
  /\ Os.joinpath p (create_folders.slugify name) = p ++ [create_folders.slugify name].
Proof.
  rewrite SlugFacts.slugify_unfold.
  destruct (SlugShape.or_unnamed_shape (PyStr.lower (PyStr.strip name)))
    as (Hne & Hc & Hs & He & Hp).
  repeat split; try done. by apply SlugShape.slug_component.
Qed.

(** X2: the two copies of [sanitize_folder] are the same function.  For
    every name its result is not empty, holds none of the characters of
    [INVALID_WIN], holds no white space but single spaces, does not start with
    a space and does not end with a dot or a space; joined to a path it is
    exactly one more component. *)
Theorem X2_sanitize_folder_is_one_path_component (name : str) (p : Os.path) :
  create_materials.sanitize_folder name = downloadTextures.sanitize_folder name
  /\ Shapes.wellformed_folder (downloadTextures.sanitize_folder name)
  /\ Os.joinpath p (downloadTextures.sanitize_folder name)
     = p ++ [downloadTextures.sanitize_folder name].
Proof.
  split; [reflexivity|]. split.
  - apply FolderFacts.sanitize_folder_shape.
  - apply FolderFacts.sanitize_folder_component.
Qed.

(** X3: [sanitize_folder] is idempotent, in both scripts: a folder name that
    went through it once is returned as it is. *)
Theorem X3_sanitize_folder_idempotent (name : str) :
  downloadTextures.sanitize_folder (downloadTextures.sanitize_folder name)
  = downloadTextures.sanitize_folder name
  /\ create_materials.sanitize_folder (create_materials.sanitize_folder name)
     = create_materials.sanitize_folder name.
Proof.
  assert (downloadTextures.sanitize_folder (downloadTextures.sanitize_folder name)
          = downloadTextures.sanitize_folder name) as E
    by apply FolderFacts.wellformed_folder_fixed, FolderFacts.sanitize_folder_shape.
  split; exact E.
Qed.

(** X4: [sanitize_token] is idempotent: the token of a token is the token
    itself.  The Unicode table enters through two facts: NFKD leaves ASCII
    text alone and no ASCII code point is a combining mark. *)
Theorem X4_sanitize_token_idempotent (U : UnicodeData) :
  (forall t, Forall (fun c => PyStr.is_ascii c = true) t -> normalize_NFKD t = t) ->
  (forall c, PyStr.is_ascii c = true -> combining c = 0) ->
  forall text,
    create_materials.sanitize_token (create_materials.sanitize_token text)
    = create_materials.sanitize_token text.
Proof. intros Hn Hc text. by apply TokenFixed.sanitize_token_fixed. Qed.

Lemma X4_sanitize_token_witness :
  @create_materials.sanitize_token ascii_only
    (@create_materials.sanitize_token ascii_only (py " cotton - -twill 40 "))
  = @create_materials.sanitize_token ascii_only (py " cotton - -twill 40 ").
Proof.
  apply (X4_sanitize_token_idempotent ascii_only).
  - intros t _. reflexivity.
  - intros c _. reflexivity.
Defined.

Module DialectFacts.
Import PyStr PyStrFacts SlugFacts RunFacts ComponentFacts FolderFacts Py Os Views.

Lemma upper_not_space c : is_upper_az c = true -> isspace c = false.
Proof. intros H. class_arith. Qed.

Lemma upper_not_slug c : is_upper_az c = true -> Spec.slug_char c = false.
Proof. intros H. class_arith. Qed.

Lemma upper_valid c : is_upper_az c = true -> downloadTextures.INVALID_WIN c = false.
Proof.
  intros H. unfold downloadTextures.INVALID_WIN, one_of. simpl.
  unfold is_upper_az in H. to_prop H.
  repeat (apply orb_false_intro; [apply N.eqb_neq; lia|]). done.
Qed.

Lemma upper_not_dot_space c : is_upper_az c = true -> one_of (py ". ") c = false.
Proof.
  intros H. unfold one_of. simpl. unfold is_upper_az in H. to_prop H.
  repeat (apply orb_false_intro; [apply N.eqb_neq; lia|]). done.
Qed.

(** [sanitize_folder] keeps every capital letter of the name. *)
Lemma sanitize_folder_keeps_upper c name :
  In c name -> is_upper_az c = true -> In c (downloadTextures.sanitize_folder name).
Proof.
  intros Hin Hu. unfold downloadTextures.sanitize_folder.
  assert (In c (rstrip_chars (py ". ")
                  (re_sub_plus isspace (py " ")
                     (re_sub1 downloadTextures.INVALID_WIN (py "_") (strip name))))) as H.
  { apply In_rstrip_with; [|by apply upper_not_dot_space].
    apply In_sub_plus; [|by apply upper_not_space].
    apply In_re_sub1; [|by apply upper_valid].
    apply In_rstrip_with; [|by apply upper_not_space].
    apply In_lstrip_with; [done|by apply upper_not_space]. }
  destruct (rstrip_chars _ _); [done|exact H].
Qed.
End DialectFacts.

(** X5: the directory dialects differ.  For every name that holds an ASCII
    capital letter, the slug that [create-folders.py] makes a directory for is
    not the folder name that [downloadTextures.py] and [create_materials.py]
    use: the folder name keeps the capital letter, and a slug has none. *)
Theorem X5_slug_is_not_the_folder_name (U : UnicodeData) (name : str) (c : N) :
  In c name -> PyStr.is_upper_az c = true ->
  In c (downloadTextures.sanitize_folder name)
  /\ ~ In c (create_folders.slugify name)
  /\ create_folders.slugify name <> downloadTextures.sanitize_folder name.
Proof.
  intros Hin Hu.
  pose proof (DialectFacts.sanitize_folder_keeps_upper c name Hin Hu) as Hc.
  assert (~ In c (create_folders.slugify name)) as Hs.
  { rewrite SlugFacts.slugify_unfold. intros Hc'.
    destruct (SlugShape.or_unnamed_shape (PyStr.lower (PyStr.strip name)))
      as (_ & Hall & _).
    rewrite List.Forall_forall in Hall. specialize (Hall c Hc').
    by rewrite (DialectFacts.upper_not_slug c Hu) in Hall. }
  split; [exact Hc|]. split; [exact Hs|].
  intros E. apply Hs. by rewrite E.
Qed.

Lemma X5_slug_witness :
  @create_folders.slugify ascii_only (py "Wools")
  <> downloadTextures.sanitize_folder (py "Wools").
Proof.
  apply (X5_slug_is_not_the_folder_name ascii_only (py "Wools") 87).
  - vm_compute. by left.
  - reflexivity.
Defined.

Module PatternFacts.
Import PyStr PyStrFacts Py Os.

(** A pattern that [_get_variation_pattern] returns is the stripped value
    of the field [variation-pattern] of a dict. *)
Lemma pattern_source var pattern :
  downloadTextures._get_variation_pattern var = Ok (Some pattern) ->
  exists fields raw,
    var = JObj fields
    /\ or_else (default JNull (assoc (py "variation-pattern") fields)) (Ok (JStr []))
       = Ok (JStr raw)
    /\ pattern = strip raw /\ pattern <> [].
Proof.
  unfold downloadTextures._get_variation_pattern.
  destruct var as [| | | |l|fields]; try done. simpl.
  destruct (or_else _ _) as [v|e] eqn:Ev; [|done]. simpl.
  destruct v as [| | |raw| |]; simpl; try done.
  destruct (strip raw) as [|c t] eqn:E; [done|]. simpl.
  intros [= <-]. exists fields, raw. by rewrite E.
Qed.
End PatternFacts.

(** X6: a pattern returned by [_get_variation_pattern] is not empty and
    carries no white space at either end, and the download address built for
    it holds it verbatim, twice:
    [https://images.mayerfabrics.com/item/<pattern>/image?download=<pattern>]. *)
Theorem X6_url_carries_the_pattern (var : Py.json) (pattern : str) :
  downloadTextures._get_variation_pattern var = Py.Ok (Some pattern) ->
  pattern <> []
  /\ PyStr.strip pattern = pattern
  /\ downloadTextures.build_download_url pattern
     = py "https://images.mayerfabrics.com/item/" ++ pattern
         ++ py "/image?download=" ++ pattern.
Proof.
  intros H.
  destruct (PatternFacts.pattern_source var pattern H) as (fields & raw & _ & _ & -> & Hne).
  assert (PyStr.strip (PyStr.strip raw) = PyStr.strip raw) as E
    by apply PyStrFacts.strip_with_idem.
  split; [exact Hne|]. split; [exact E|].
  unfold downloadTextures.build_download_url. by rewrite E.
Qed.

Lemma X6_url_witness :
  downloadTextures.build_download_url (py "100-200")
  = py "https://images.mayerfabrics.com/item/" ++ py "100-200"
      ++ py "/image?download=" ++ py "100-200".
Proof.
  apply (X6_url_carries_the_pattern
           (Py.JObj [(py "variation-pattern", Py.JStr (py " 100-200 "))]) (py "100-200")).
  reflexivity.
Defined.

(** X7: the label that names a material ends in the pattern that names the
    texture.  For a variation with a usable pattern the label depends on the
    pattern and on the field [variation-name] alone: when that field is
    absent or falsy the label is the pattern; when it is a string the label
    is [<name>-<pattern>] with the name stripped, or the pattern when nothing
    is left of the name; and [_get_variation_label] raises, [AttributeError],
    exactly when the field holds a truthy value that is not a string. *)
Theorem X7_label_ends_in_the_pattern (U : UnicodeData) (var : Py.json) (pattern : str) :
  downloadTextures._get_variation_pattern var = Py.Ok (Some pattern) ->
  exists vname,
    Py.get var (py "variation-name") = Py.Ok vname
    /\ create_materials._get_variation_label var
       = (if Py.truthy vname then
            match vname with
            | Py.JStr s =>
                Py.Ok (if Py.nonempty (PyStr.strip s)
                       then PyStr.strip s ++ py "-" ++ pattern
                       else pattern)
            | _ => Py.Raise Py.AttributeError
            end
          else Py.Ok pattern).
Proof.
  intros H.
  destruct (PatternFacts.pattern_source var pattern H)
    as (fields & raw & -> & Hp & -> & Hne).
  eexists. split; [reflexivity|].
  unfold create_materials._get_variation_label, Py.get.
  cbn [Py.isinstance_dict mbind Py.result_bind].
  rewrite Hp.
  unfold Py.or_else at 1.
  destruct (Py.truthy (default Py.JNull (Py.assoc (py "variation-name") fields)))
    eqn:Ht.
  - cbn [mbind Py.result_bind].
    destruct (default Py.JNull (Py.assoc (py "variation-name") fields))
      as [|b|z|s|l|f]; try done.
    cbn [Py.strip_of mbind Py.result_bind].
    destruct (PyStr.strip raw) as [|c t] eqn:E; [done|].
    cbn [Py.nonempty andb]. rewrite andb_true_r. by destruct (PyStr.strip s).
  - cbn [mbind Py.result_bind Py.strip_of].
    destruct (PyStr.strip raw) as [|c t] eqn:E; [done|].
    assert (PyStr.strip [] = []) as -> by done.
    reflexivity.
Qed.

Lemma X7_label_witness :
  exists vname,
    Py.get Samples.red_variation (py "variation-name") = Py.Ok vname
    /\ @create_materials._get_variation_label ascii_only Samples.red_variation
       = (if Py.truthy vname then
            match vname with
            | Py.JStr s =>
                Py.Ok (if Py.nonempty (PyStr.strip s)
                       then PyStr.strip s ++ py "-" ++ py "100-200"
                       else py "100-200")
            | _ => Py.Raise Py.AttributeError
            end
          else Py.Ok (py "100-200")).
Proof.
  apply (X7_label_ends_in_the_pattern ascii_only Samples.red_variation (py "100-200")).
  reflexivity.
Defined.

(** ** What a run leaves of the store *)

Module StoreFacts.
Import PyStr Py Os FsFacts Shapes.

Lemma changes_within_refl free made fs : changes_within free made fs fs.
Proof. intros q _. by left. Qed.

Lemma changes_within_trans free made fs1 fs2 fs3 :
  changes_within free made fs1 fs2 -> changes_within free made fs2 fs3 ->
  changes_within free made fs1 fs3.
Proof.
  intros H12 H23 q Hq.
  destruct (H12 q Hq) as [E12 | (N1 & D2 & M)], (H23 q Hq) as [E23 | (N2 & D3 & M')].
  - left. congruence.
  - right. rewrite <- E12. done.
  - right. rewrite E23. done.
  - congruence.
Qed.

Lemma changes_within_weaken (free free' made made' : path -> Prop) fs fs' :
  (forall q, free q -> free' q) -> (forall q, made q -> made' q) ->
  changes_within free made fs fs' -> changes_within free' made' fs fs'.
Proof.
  intros Hf Hm H q Hq. destruct (H q) as [E | (N & D & M)]; [by auto|by left|].
  right. auto.
Qed.

(** [mkdir(parents=True)] makes directories where there was nothing, at
    prefixes of its argument, and does nothing else, whether it succeeds or
    not. *)
Lemma mkdirs_from_adds fs above todo q :
  fst (mkdirs_from fs above todo) !! q = fs !! q
  \/ (fs !! q = None /\ fst (mkdirs_from fs above todo) !! q = Some Dir
      /\ exists k, q = above ++ take k todo).
Proof.
  induction todo as [|c rest IH] in fs, above |- *; simpl; [by left|].
  assert (forall k, (above ++ [c]) ++ take k rest = above ++ take (S k) (c :: rest))
    as Eprefix by (intros k; simpl; by rewrite <- app_assoc).
  destruct (fs !! (above ++ [c])) as [[|content]|] eqn:E.
  - destruct (IH fs (above ++ [c])) as [H | (N & D & k & ->)]; [by left|].
    right. split; [done|]. split; [done|]. exists (S k). apply Eprefix.
  - by left.
  - destruct (IH (<[above ++ [c] := Dir]> fs) (above ++ [c]))
      as [H | (N & D & k & ->)].
    + destruct (decide (q = above ++ [c])) as [->|Hne].
      * right. split; [done|]. rewrite H, lookup_insert_eq. split; [done|].
        exists 1%nat. simpl. by rewrite take_0.
      * left. by rewrite H, lookup_insert_ne.
    + right. split; [|split; [done|exists (S k); apply Eprefix]].
      destruct (decide ((above ++ [c]) ++ take k rest = above ++ [c])) as [Eq|Hne].
      * rewrite Eq, lookup_insert_eq in N. done.
      * by rewrite lookup_insert_ne in N.
Qed.

Lemma mkdirs_adds p fs :
  changes_within (fun _ => False) (fun q => q `prefix_of` p)
    fs (fst (apply_op (Mkdirs p) fs)).
Proof.
  intros q _. simpl.
  destruct (mkdirs_from_adds fs [] p q) as [H | (N & D & k & ->)]; [by left|].
  right. split; [done|]. split; [done|]. simpl. apply prefix_take.
Qed.

(** When [mkdir(parents=True)] returns, every prefix of its argument is a
    directory. *)
Lemma mkdirs_from_done fs above todo :
  snd (mkdirs_from fs above todo) = None ->
  forall k, (0 < k <= length todo)%nat ->
    fst (mkdirs_from fs above todo) !! (above ++ take k todo) = Some Dir.
Proof.
  induction todo as [|c rest IH] in fs, above |- *; simpl; intros Hok k Hk; [lia|].
  assert (forall fs1,
            fs1 !! (above ++ [c]) = Some Dir ->
            snd (mkdirs_from fs1 (above ++ [c]) rest) = None ->
            fst (mkdirs_from fs1 (above ++ [c]) rest) !! (above ++ take k (c :: rest))
            = Some Dir) as Hstep.
  { intros fs1 Hdir Hok1. destruct k as [|[|k]]; [lia| |].
    - simpl. rewrite take_0.
      destruct (mkdirs_from_adds fs1 (above ++ [c]) rest (above ++ [c]))
        as [H | (N & _)]; congruence.
    - replace (above ++ take (S (S k)) (c :: rest))
        with ((above ++ [c]) ++ take (S k) rest)
        by (simpl; by rewrite <- app_assoc).
      apply IH; [done|]. simpl in Hk. lia. }
  destruct (fs !! (above ++ [c])) as [[|content]|] eqn:E; [|done|].
  - by apply Hstep.
  - apply Hstep; [apply lookup_insert_eq|done].
Qed.

(** The loops pass on whatever relates the world before a step to the
    world after it, also when a step raises. *)
Lemma for_eachM_steps {A S} (R : world -> world -> Prop)
    (body : A -> S -> M S) items acc w :
  (forall v, R v v) ->
  (forall a b c, R a b -> R b c -> R a c) ->
  (forall x a v, R v (fst (body x a v))) ->
  R w (fst (for_eachM body items acc w)).
Proof.
  intros Hrefl Htrans Hbody.
  induction items as [|x rest IH] in acc, w |- *; simpl; [apply Hrefl|].
  unfold mbind, M_bind. specialize (Hbody x acc w).
  destruct (body x acc w) as [w1 [a1|e]]; simpl in Hbody; [|exact Hbody].
  eapply Htrans; [exact Hbody|apply IH].
Qed.

(** An invariant of the accumulator that every step keeps holds at the
    end. *)
Lemma for_eachM_invariant {A S} (I : S -> Prop) (body : A -> S -> M S)
    items acc w w' acc' :
  (forall x a v v' a', I a -> body x a v = (v', Ok a') -> I a') ->
  I acc -> for_eachM body items acc w = (w', Ok acc') -> I acc'.
Proof.
  intros Hbody. induction items as [|x rest IH] in acc, w |- *; simpl.
  - by intros H [= _ <-].
  - unfold mbind, M_bind. intros Hacc.
    destruct (body x acc w) as [w1 [a1|e]] eqn:E; [|done].
    apply IH. by apply (Hbody _ _ _ _ _ Hacc E).
Qed.
End StoreFacts.

(** ** The directory materializer and the store *)

Module MaterializerFacts.
Import PyStr Py Os FsFacts Shapes StoreFacts SlugFacts SlugShape Views create_folders.

(** The two ways through [ensure_dir]. *)
Lemma ensure_dir_cases p w :
  (is_Some (files w !! p) /\ ensure_dir p w = (w, Ok false))
  \/ (files w !! p = None
      /\ ensure_dir p w
         = (World (fst (mkdirs_from (files w) [] p)) (requests w)
              (trace w ++ [Fs (Mkdirs p)]),
            Ok (bool_decide (snd (mkdirs_from (files w) [] p) = None)))).
Proof.
  unfold ensure_dir, mbind, M_bind, exists_.
  destruct (files w !! p) as [n|] eqn:E.
  - left. split; [by eexists|]. by rewrite bool_decide_eq_true_2.
  - right. split; [done|].
    rewrite bool_decide_eq_false_2 by (by intros [? ?]).
    unfold try_except, fs_do, mret, M_ret. simpl.
    by destruct (mkdirs_from (files w) [] p) as [fs' [e|]].
Qed.

Lemma prefix_within (dest l q : path) :
  q `prefix_of` dest ++ l ->
  q `prefix_of` dest
  \/ (dest `prefix_of` q /\ (length q <= length dest + length l)%nat).
Proof.
  intros [k E].
  destruct (decide (length q <= length dest)%nat) as [Hle|Hgt].
  - left. exists (drop (length q) dest).
    assert (take (length q) dest = q) as E1.
    { apply (f_equal (take (length q))) in E.
      by rewrite take_app_le, take_app_length in E by done. }
    transitivity (take (length q) dest ++ drop (length q) dest);
      [symmetry; apply take_drop|]. by f_equal.
  - right. split.
    + exists (drop (length dest) q).
      assert (dest = take (length dest) q) as E1.
      { apply (f_equal (take (length dest))) in E.
        by rewrite take_app_length, take_app_le in E by lia. }
      transitivity (take (length dest) q ++ drop (length dest) q);
        [symmetry; apply take_drop|]. f_equal. by symmetry.
    + apply (f_equal length) in E. rewrite !length_app in E. lia.
Qed.

Lemma step_refl dest w : materializer_step dest w w.
Proof. split; [apply changes_within_refl|done]. Qed.

Lemma step_trans dest a b c : materializer_step dest a b -> materializer_step dest b c -> materializer_step dest a c.
Proof.
  intros [H1 R1] [H2 R2]. split; [by eapply changes_within_trans|congruence].
Qed.

Lemma ensure_dir_step dest l w :
  (length l <= 2)%nat -> materializer_step dest w (fst (ensure_dir (dest ++ l) w)).
Proof.
  intros Hl.
  destruct (ensure_dir_cases (dest ++ l) w) as [[_ ->] | [_ ->]];
    [apply step_refl|].
  split; [|done]. simpl.
  eapply changes_within_weaken; [| |apply (mkdirs_adds (dest ++ l))]; [done|].
  intros q Hq. destruct (prefix_within dest l q Hq) as [H | [H1 H2]]; [by left|].
  right. split; [done|lia].
Qed.

Section Walk.
Context {U : UnicodeData}.

Lemma slug_path p s : joinpath p (slugify s) = p ++ [slugify s].
Proof.
  rewrite slugify_unfold.
  destruct (or_unnamed_shape (lower (strip s))) as (Hne & Hc & _).
  by apply slug_component.
Qed.

Lemma visit_subcollection_step dest slug sub c w :
  materializer_step dest w (fst (visit_subcollection (dest ++ [slug]) sub c w)).
Proof.
  unfold visit_subcollection, mbind, M_bind, lift.
  destruct (subcollection_name sub) as [v|e]; [|apply step_refl].
  destruct (slugify_value v) as [sub_slug|e] eqn:Es; [|apply step_refl].
  destruct v; try done. injection Es as <-.
  rewrite slug_path, <- app_assoc.
  pose proof (ensure_dir_step dest ([slug] ++ [slugify s]) w) as H.
  destruct (ensure_dir _ w) as [w1 [[]|e]]; apply H; simpl; lia.
Qed.

Lemma visit_collection_step dest collection c w :
  materializer_step dest w (fst (visit_collection dest collection c w)).
Proof.
  unfold visit_collection, mbind at 1 2 3 4, M_bind at 1 2 3 4, lift.
  destruct (collection_name collection) as [v|e]; [|apply step_refl].
  destruct (slugify_value v) as [col_slug|e] eqn:Es; [|apply step_refl].
  destruct v; try done. injection Es as <-.
  rewrite slug_path.
  pose proof (ensure_dir_step dest [slugify s] w) as H.
  destruct (ensure_dir _ w) as [w1 [created|e]]; simpl in H;
    [|apply H; simpl; lia].
  destruct (_ ≫= _) as [subs|e]; [|apply H; simpl; lia].
  eapply step_trans; [apply H; simpl; lia|].
  apply (for_eachM_steps (materializer_step dest));
    [apply step_refl|apply step_trans|].
  intros x a v. apply visit_subcollection_step.
Qed.

Lemma create_structure_step collections dest w :
  materializer_step dest w (fst (create_structure collections dest w)).
Proof.
  unfold create_structure.
  apply (for_eachM_steps (materializer_step dest)); [apply step_refl|apply step_trans|].
  intros x a v. apply visit_collection_step.
Qed.
End Walk.
End MaterializerFacts.

(** ** Running the materializer again *)

Module RerunFacts.
Import PyStr Py Os FsFacts Shapes StoreFacts SlugFacts SlugShape Views create_folders
  MaterializerFacts.

Lemma keeps_refl fs : keeps fs fs.
Proof. by intros q n. Qed.

Lemma keeps_trans fs1 fs2 fs3 : keeps fs1 fs2 -> keeps fs2 fs3 -> keeps fs1 fs3.
Proof. intros H1 H2 q n H. by apply H2, H1. Qed.

Lemma changes_within_keeps made fs fs' :
  changes_within (fun _ => False) made fs fs' -> keeps fs fs'.
Proof.
  intros H q n Hq. destruct (H q) as [E | (N & _)]; [tauto|congruence|congruence].
Qed.

Lemma materializer_step_keeps dest w w' :
  materializer_step dest w w' -> keeps (files w) (files w').
Proof. intros [H _]. by eapply changes_within_keeps. Qed.

(** When [mkdir(parents=True)] raises, a file stands at a prefix of its
    argument, and the prefixes above it are directories. *)
Lemma mkdirs_from_fail fs above todo e :
  snd (mkdirs_from fs above todo) = Some e ->
  exists k content,
    (0 < k <= length todo)%nat
    /\ fst (mkdirs_from fs above todo) !! (above ++ take k todo) = Some (File content)
    /\ forall j, (0 < j < k)%nat ->
         fst (mkdirs_from fs above todo) !! (above ++ take j todo) = Some Dir.
Proof.
  induction todo as [|c rest IH] in fs, above |- *; simpl; [done|].
  assert (forall k, (above ++ [c]) ++ take k rest = above ++ take (S k) (c :: rest))
    as Eprefix by (intros k; simpl; by rewrite <- app_assoc).
  assert (forall fs1,
            fs1 !! (above ++ [c]) = Some Dir ->
            snd (mkdirs_from fs1 (above ++ [c]) rest) = Some e ->
            exists k content,
              (0 < k <= S (length rest))%nat
              /\ fst (mkdirs_from fs1 (above ++ [c]) rest)
                   !! (above ++ take k (c :: rest)) = Some (File content)
              /\ forall j, (0 < j < k)%nat ->
                   fst (mkdirs_from fs1 (above ++ [c]) rest)
                     !! (above ++ take j (c :: rest)) = Some Dir) as Hstep.
  { intros fs1 Hdir Hfail.
    destruct (IH fs1 (above ++ [c]) Hfail) as (k & content & Hk & Hfile & Hdirs).
    exists (S k), content. split; [lia|]. split; [by rewrite <- Eprefix|].
    intros [|[|j]] Hj; [lia| |].
    - simpl. rewrite take_0.
      destruct (mkdirs_from_adds fs1 (above ++ [c]) rest (above ++ [c]))
        as [H | (N & _)]; congruence.
    - rewrite <- Eprefix. apply Hdirs. lia. }
  destruct (fs !! (above ++ [c])) as [[|content]|] eqn:E.
  - by apply Hstep.
  - intros _. exists 1%nat, content. simpl. rewrite take_0.
    split; [lia|]. split; [done|]. intros j Hj. lia.
  - apply Hstep. apply lookup_insert_eq.
Qed.

(** With a file at a prefix, below directories, [mkdir(parents=True)]
    raises and changes nothing. *)
Lemma mkdirs_from_blocked fs above todo k content :
  (0 < k <= length todo)%nat ->
  fs !! (above ++ take k todo) = Some (File content) ->
  (forall j, (0 < j < k)%nat -> fs !! (above ++ take j todo) = Some Dir) ->
  mkdirs_from fs above todo = (fs, Some (OSError (py "File exists"))).
Proof.
  induction todo as [|c rest IH] in above, k |- *; simpl; intros Hk Hfile Hdirs; [lia|].
  destruct k as [|[|k]]; [lia| |].
  - simpl in Hfile. rewrite take_0 in Hfile. by rewrite Hfile.
  - pose proof (Hdirs 1%nat ltac:(lia)) as H1. simpl in H1.
    rewrite take_0 in H1. rewrite H1.
    apply (IH (above ++ [c]) (S k)).
    + lia.
    + by rewrite <- app_assoc.
    + intros j Hj. specialize (Hdirs (S j)). simpl in Hdirs.
      rewrite <- app_assoc. apply Hdirs. lia.
Qed.

(** After [ensure_dir p], nothing is left to do for [p]. *)
Lemma ensure_dir_settles p w :
  p <> [] -> settled p (files (fst (ensure_dir p w))).
Proof.
  intros Hne.
  destruct (ensure_dir_cases p w) as [[Hex ->] | [Hno ->]]; [by left|].
  simpl. destruct (snd (mkdirs_from (files w) [] p)) as [e|] eqn:E.
  - right. destruct (mkdirs_from_fail _ _ _ _ E) as (k & content & Hk & Hfile & Hdirs).
    exists k, content. done.
  - left. pose proof (mkdirs_from_done _ _ _ E (length p)) as H.
    simpl in H. rewrite firstn_all in H. rewrite H; [by eexists|].
    destruct p; [done|simpl; lia].
Qed.

Lemma settled_keeps p fs fs' : settled p fs -> keeps fs fs' -> settled p fs'.
Proof.
  intros [[n Hn] | (k & content & Hk & Hfile & Hdirs)] Hkeep.
  - left. exists n. by apply Hkeep.
  - right. exists k, content. split; [done|]. split; [by apply Hkeep|].
    intros j Hj. by apply Hkeep, Hdirs.
Qed.

(** Where nothing is left to do, [ensure_dir] answers [False] and leaves
    the files as they are. *)
Lemma ensure_dir_settled p w :
  settled p (files w) ->
  snd (ensure_dir p w) = Ok false
  /\ files (fst (ensure_dir p w)) = files w
  /\ requests (fst (ensure_dir p w)) = requests w.
Proof.
  intros Hs.
  destruct (ensure_dir_cases p w) as [[Hex ->] | [Hno ->]]; [done|].
  destruct Hs as [[n Hn] | (k & content & Hk & Hfile & Hdirs)]; [congruence|].
  rewrite (mkdirs_from_blocked (files w) [] p k content Hk Hfile Hdirs).
  done.
Qed.

Lemma ensure_dir_returns p w : exists b, snd (ensure_dir p w) = Ok b.
Proof.
  destruct (ensure_dir_cases p w) as [[_ ->] | [_ ->]]; by eexists.
Qed.

(** Replaying a loop whose steps replay. *)
Lemma for_eachM_replays {A S} (Q : S -> S -> Prop) (body : A -> S -> M S) items :
  (forall a, Q a a) ->
  (forall a b c, Q a b -> Q b c -> Q a c) ->
  (forall x a w, keeps (files w) (files (fst (body x a w)))) ->
  (forall x, replays Q (body x)) ->
  replays Q (for_eachM body items).
Proof.
  intros Qrefl Qtrans Hmono Hbody.
  induction items as [|x rest IH]; intros a w ab wb Hkeep; simpl in *.
  - done.
  - unfold mbind, M_bind in *.
    specialize (Hbody x a w ab wb). specialize (Hmono x a w) as Hm1.
    destruct (body x a w) as [w1 [a1|e]] eqn:E1; simpl in *.
    + assert (keeps (files w1) (files (fst (for_eachM body rest a1 w1)))) as Hm2.
      { apply (for_eachM_steps (fun u v => keeps (files u) (files v)));
          [intros; apply keeps_refl|intros ? ? ?; apply keeps_trans|apply Hmono]. }
      destruct Hbody as (Hf & Hr & Ha); [by eapply keeps_trans|].
      destruct (body x ab wb) as [wb1 [ab1|e]] eqn:E2; simpl in *; [|done].
      destruct (IH a1 w1 ab1 wb1) as (Hf' & Hr' & Ha'); [by rewrite Hf|].
      split; [congruence|]. split; [congruence|].
      destruct (snd (for_eachM body rest a1 w1)), (snd (for_eachM body rest ab1 wb1));
        simpl in *; try done. by eapply Qtrans.
    + destruct Hbody as (Hf & Hr & Ha); [done|].
      by destruct (body x ab wb) as [wb1 [ab1|e']] eqn:E2.
Qed.

Section Walk.
Context {U : UnicodeData}.

Lemma visit_subcollection_replays dest slug sub :
  replays same_created (visit_subcollection (dest ++ [slug]) sub).
Proof.
  intros a w ab wb. unfold visit_subcollection, mbind, M_bind, lift.
  destruct (subcollection_name sub) as [v|e]; [|done].
  destruct (slugify_value v) as [sub_slug|e] eqn:Es; [|done].
  destruct v; try done. injection Es as <-.
  rewrite slug_path.
  pose proof (ensure_dir_settles ((dest ++ [slug]) ++ [slugify s]) w) as Hs.
  destruct (ensure_dir_returns ((dest ++ [slug]) ++ [slugify s]) w) as [b1 Hb1].
  intros Hkeep.
  assert (settled ((dest ++ [slug]) ++ [slugify s]) (files wb)) as Hb.
  { eapply settled_keeps; [apply Hs; by destruct (dest ++ [slug])|].
    destruct (ensure_dir _ w) as [w1 r1]; simpl in *; subst r1.
    by destruct b1. }
  destruct (ensure_dir_settled _ wb Hb) as (Hr & Hf & Hq).
  destruct (ensure_dir _ wb) as [wb1 rb]; simpl in *; subst rb.
  destruct (ensure_dir _ w) as [w1 r1]; simpl in *; subst r1.
  by destruct b1.
Qed.

Lemma visit_collection_unfold dest collection c w :
  visit_collection dest collection c w =
  match collection_name collection ≫= slugify_value with
  | Raise e => (w, Raise e)
  | Ok col_slug =>
      let '(w1, r) := ensure_dir (joinpath dest col_slug) w in
      match r with
      | Raise e => (w1, Raise e)
      | Ok created =>
          match (s ← get collection (py "subcollection");
                 v ← or_else s (Ok (JArr []));
                 iter v) with
          | Raise e => (w1, Raise e)
          | Ok subs =>
              for_eachM (visit_subcollection (joinpath dest col_slug)) subs
                (if created : bool then
                   Counts (S (created_collections c)) (existing_collections c)
                     (created_subcollections c) (existing_subcollections c)
                 else
                   Counts (created_collections c) (S (existing_collections c))
                     (created_subcollections c) (existing_subcollections c))
                w1
          end
      end
  end.
Proof.
  unfold visit_collection, mbind at 1 2 3 4, M_bind at 1 2 3 4, lift.
  destruct (collection_name collection) as [v|e]; [|done]. simpl.
  destruct (slugify_value v) as [slug|e]; [|done].
  destruct (ensure_dir _ w) as [w1 [created|e]]; [|done].
  by destruct (_ ≫= _) as [subs|e].
Qed.

Lemma same_created_refl c : same_created c c.
Proof. done. Qed.

Lemma same_created_trans a b c :
  same_created a b -> same_created b c -> same_created a c.
Proof. intros [H1 H2] [H3 H4]. split; congruence. Qed.

Lemma visit_subcollection_keeps p sub c w :
  keeps (files w) (files (fst (visit_subcollection p sub c w))).
Proof.
  unfold visit_subcollection, mbind, M_bind, lift.
  destruct (subcollection_name sub) as [v|e]; [|apply keeps_refl].
  destruct (slugify_value v) as [sub_slug|e]; [|apply keeps_refl].
  assert (keeps (files w) (files (fst (ensure_dir (joinpath p sub_slug) w)))) as H.
  { destruct (ensure_dir_cases (joinpath p sub_slug) w) as [[_ ->] | [_ ->]];
      [apply keeps_refl|]. simpl.
    eapply changes_within_keeps. apply (mkdirs_adds (joinpath p sub_slug)). }
  by destruct (ensure_dir _ w) as [w1 [[]|e]].
Qed.

Lemma visit_collection_replays dest collection :
  replays same_created (visit_collection dest collection).
Proof.
  intros a w ab wb. rewrite !visit_collection_unfold.
  destruct (collection_name collection) as [v|e]; [|done]. simpl.
  destruct (slugify_value v) as [col_slug|e] eqn:Es; [|done].
  destruct v; try done. injection Es as <-.
  rewrite slug_path.
  pose proof (ensure_dir_settles (dest ++ [slugify s]) w) as Hs.
  destruct (ensure_dir_returns (dest ++ [slugify s]) w) as [b1 Hb1].
  destruct (ensure_dir (dest ++ [slugify s]) w) as [w1 r1]; simpl in Hs, Hb1; subst r1.
  assert (forall fsb, keeps (files w1) fsb -> settled (dest ++ [slugify s]) fsb) as Hb.
  { intros fsb Hk. eapply settled_keeps; [apply Hs; by destruct dest|done]. }
  destruct (_ ≫= _) as [subs|e].
  - set (a1 := if b1 then _ else _).
    intros Hkeep.
    assert (keeps (files w1)
              (files (fst (for_eachM (visit_subcollection (dest ++ [slugify s]))
                             subs a1 w1)))) as Hm.
    { apply (for_eachM_steps (fun u v => keeps (files u) (files v)));
        [intros; apply keeps_refl|intros ? ? ?; apply keeps_trans|].
      intros x c v. apply visit_subcollection_keeps. }
    destruct (ensure_dir_settled _ wb (Hb _ (keeps_trans _ _ _ Hm Hkeep)))
      as (Hr & Hf & Hq).
    destruct (ensure_dir _ wb) as [wb1 rb]; simpl in Hr, Hf, Hq; subst rb.
    set (ab1 := Counts _ _ _ _).
    destruct (for_eachM_replays same_created
                (visit_subcollection (dest ++ [slugify s])) subs
                same_created_refl same_created_trans
                (fun x c v => visit_subcollection_keeps _ x c v)
                (fun x => visit_subcollection_replays dest (slugify s) x)
                a1 w1 ab1 wb1) as (Hf' & Hq' & Ha'); [by rewrite Hf|].
    split; [congruence|]. split; [congruence|].
    destruct (snd (for_eachM _ subs a1 w1)), (snd (for_eachM _ subs ab1 wb1));
      simpl in *; done.
  - intros Hkeep.
    destruct (ensure_dir_settled _ wb (Hb _ Hkeep)) as (Hr & Hf & Hq).
    destruct (ensure_dir _ wb) as [wb1 rb]; simpl in Hr, Hf, Hq; subst rb.
    done.
Qed.

Lemma visit_collection_keeps dest collection c w :
  keeps (files w) (files (fst (visit_collection dest collection c w))).
Proof. eapply materializer_step_keeps, visit_collection_step. Qed.

Lemma create_structure_replays collections dest :
  replays same_created (fun c => for_eachM (visit_collection dest) collections c).
Proof.
  apply for_eachM_replays;
    [apply same_created_refl|apply same_created_trans| |].
  - intros x a w. apply visit_collection_keeps.
  - intros x. apply visit_collection_replays.
Qed.
End Walk.
End RerunFacts.

(** X8: [create_structure] only adds directories.  However the run ends, by
    returning or by raising on a malformed entry, every path of the store
    holds what it held before, or holds a new directory where there was
    nothing; a new directory is an ancestor of the destination, the
    destination itself, or lies at most two levels below it.  No request is
    sent. *)
Theorem X8_create_structure_only_adds_directories (U : UnicodeData)
    (collections : list Py.json) (dest : Os.path) (w : Os.world) :
  let w' := fst (create_folders.create_structure collections dest w) in
  (forall q,
      Os.files w' !! q = Os.files w !! q
      \/ (Os.files w !! q = None /\ Os.files w' !! q = Some Os.Dir
          /\ (q `prefix_of` dest
              \/ (dest `prefix_of` q /\ (length q <= length dest + 2)%nat))))
  /\ Os.requests w' = Os.requests w.
Proof.
  intros w'. destruct (MaterializerFacts.create_structure_step collections dest w)
    as [H1 H2].
  split; [|exact H2]. intros q. exact (H1 q (fun absurd => absurd)).
Qed.

(** X9: [create_structure] is idempotent.  A second run over the same catalog,
    on the store the first run left, changes no file; it ends as the first
    did, with the same exception or by returning, and then it reports nothing
    as created and every collection as existing. *)
Theorem X9_create_structure_second_run_creates_nothing (U : UnicodeData)
    (collections : list Py.json) (dest : Os.path) (w : Os.world) :
  let first := create_folders.create_structure collections dest w in
  let second := create_folders.create_structure collections dest (fst first) in
  Os.files (fst second) = Os.files (fst first)
  /\ match snd first, snd second with
     | Py.Ok _, Py.Ok c =>
         create_folders.created_collections c = 0%nat
         /\ create_folders.created_subcollections c = 0%nat
         /\ create_folders.existing_collections c = length collections
     | Py.Raise e, Py.Raise e' => e = e'
     | _, _ => False
     end.
Proof.
  intros first second.
  destruct (RerunFacts.create_structure_replays collections dest
              (create_folders.Counts 0 0 0 0) w
              (create_folders.Counts 0 0 0 0) (fst first))
    as (Hf & _ & Ha); [apply RerunFacts.keeps_refl|].
  fold (create_folders.create_structure collections dest w) in Ha.
  fold (create_folders.create_structure collections dest (fst first)) in Hf, Ha.
  fold first in Ha. fold second in Hf, Ha.
  split; [exact Hf|].
  destruct (snd first) as [c1|e1]; destruct second as [w2 [c2|e2]] eqn:E2;
    simpl in *; try done.
  destruct Ha as [Ha1 Ha2]. simpl in Ha1, Ha2.
  pose proof (WalkFacts.create_structure_seen collections dest _ _ _ E2) as Hseen.
  unfold Views.collections_seen in Hseen. repeat split; [done|done|lia].
Qed.

(** X10: [ensure_dir] never raises.  On a path that exists it answers
    [False] and does nothing at all; it answers [True] only when the path was
    absent, and then the path (one that is not the current directory) is a
    directory afterwards; whatever it answers, it only adds directories, at
    prefixes of the path. *)
Theorem X10_ensure_dir_contract (p : Os.path) (w : Os.world) :
  exists b,
    snd (create_folders.ensure_dir p w) = Py.Ok b
    /\ (is_Some (Os.files w !! p) ->
          b = false /\ fst (create_folders.ensure_dir p w) = w)
    /\ (b = true ->
          Os.files w !! p = None
          /\ (p <> [] ->
                Os.files (fst (create_folders.ensure_dir p w)) !! p = Some Os.Dir))
    /\ (forall q,
          Os.files (fst (create_folders.ensure_dir p w)) !! q = Os.files w !! q
          \/ (Os.files w !! q = None
              /\ Os.files (fst (create_folders.ensure_dir p w)) !! q = Some Os.Dir
              /\ q `prefix_of` p)).
Proof.
  destruct (MaterializerFacts.ensure_dir_cases p w) as [[Hex ->] | [Hno ->]].
  - exists false. split; [done|]. split; [done|]. split; [done|].
    intros q. by left.
  - eexists. split; [reflexivity|]. split; [|split].
    + intros [n Hn]. congruence.
    + intros Hb. apply bool_decide_eq_true_1 in Hb. split; [done|].
      intros Hne. simpl.
      pose proof (StoreFacts.mkdirs_from_done _ _ _ Hb (length p)) as H.
      simpl in H. rewrite firstn_all in H. apply H.
      destruct p; [done|simpl; lia].
    + intros q.
      exact (StoreFacts.mkdirs_adds p (Os.files w) q (fun absurd => absurd)).
Qed.

Lemma X10_ensure_dir_witness :
  snd (create_folders.ensure_dir [py "dest"; py "wools"] Samples.empty_world)
  = Py.Ok true
  /\ Os.files (fst (create_folders.ensure_dir [py "dest"; py "wools"]
                      Samples.empty_world)) !! [py "dest"; py "wools"]
     = Some Os.Dir.
Proof.
  destruct (X10_ensure_dir_contract [py "dest"; py "wools"] Samples.empty_world)
    as (b & Hr & _ & Hb & _).
  assert (b = true) as ->.
  { vm_compute in Hr. by injection Hr as <-. }
  split; [exact Hr|]. by apply Hb.
Defined.

(** ** What a download leaves of the store *)

Module DownloadFacts.
Import PyStr Py Os FsFacts SaveFacts FetchFacts Shapes StoreFacts downloadTextures Views.

Section Frame.
Variable dir : path.
Variable nm : str.

Let dest : path := dir ++ [nm].
Let tmp : path := dir ++ [nm ++ py ".part"].

Lemma download_step_refl fs : download_step dir nm fs fs.
Proof. apply changes_within_refl. Qed.

Lemma download_step_trans fs1 fs2 fs3 :
  download_step dir nm fs1 fs2 -> download_step dir nm fs2 fs3 ->
  download_step dir nm fs1 fs3.
Proof. apply changes_within_trans. Qed.

Lemma save_op_step data op fs :
  In op (save_ops dest tmp data) -> download_step dir nm fs (fst (apply_op op fs)).
Proof.
  unfold save_ops, parent, dest. rewrite removelast_last. fold dest.
  intros [<- | [<- | H]].
  - unfold download_step.
    apply (changes_within_weaken (fun _ => False) _ (fun q => q `prefix_of` dir) _);
      [by intros q []|done|apply mkdirs_adds].
  - intros q Hq. left. simpl.
    destruct (fs !! tmp) as [[|c]|]; [done| |];
      (destruct (is_dir fs (Os.parent tmp)); simpl; [|done]);
      apply lookup_insert_ne; intros E; apply Hq; right; by symmetry.
  - rewrite app_nil_l in H. apply in_app_or in H as [H | [<- | []]].
    + apply in_map_iff in H as [b [<- _]]. intros q Hq. left. simpl.
      destruct (fs !! tmp) as [[|c]|]; simpl; [done| |done].
      apply lookup_insert_ne. intros E. apply Hq. right. by symmetry.
    + intros q Hq. left. simpl.
      assert (forall n, (<[dest := n]> (delete tmp fs)) !! q = fs !! q) as E.
      { intros n. rewrite lookup_insert_ne, lookup_delete_ne; [done| |];
          intros E; apply Hq; [right|left]; by symmetry. }
      destruct (fs !! tmp) as [[|c]|]; simpl; [| |done];
        destruct (fs !! dest) as [[|c']|]; simpl; done || apply E.
Qed.

Lemma run_ops_step ops fs :
  (forall op fs', In op ops -> download_step dir nm fs' (fst (apply_op op fs'))) ->
  download_step dir nm fs (fst (run_ops ops fs)).
Proof.
  induction ops as [|op rest IH] in fs |- *; intros Hops; simpl;
    [apply download_step_refl|].
  pose proof (Hops op fs (or_introl eq_refl)) as H1.
  destruct (apply_op op fs) as [fs1 [e|]]; simpl in *; [exact H1|].
  eapply download_step_trans; [exact H1|].
  apply IH. intros op' fs' Hin. apply Hops. by right.
Qed.

Context {net : Network}.
Hypothesis name_given : nm <> [].
Hypothesis name_plain : one_of nm 47 = false.

Lemma attempt_once_step url w :
  download_step dir nm (files w) (files (fst (attempt_once url dest w))).
Proof.
  destruct (respond (requests w) url) as [data|e] eqn:Hr.
  - assert (part_path dest = Ok tmp) as Hp.
    { rewrite part_path_ok; unfold dest, Os.name, Os.parent;
        rewrite ?last_last, ?removelast_last; done. }
    rewrite (attempt_once_exec url dest tmp data w Hp Hr).
    rewrite (proj1 (exec_ops_files _ _)).
    apply run_ops_step. intros op fs' Hin. by apply (save_op_step data).
  - rewrite (attempt_once_fail url dest w e Hr). apply download_step_refl.
Qed.
End Frame.

Section Loop.
Context {net : Network}.

(** The retry loop passes on to its result whatever every attempt and every
    sleep respects. *)
Lemma attempts_steps (R : world -> world -> Prop) url dest_path retries backoff :
  (forall v, R v v) ->
  (forall a b c, R a b -> R b c -> R a c) ->
  (forall v, R v (fst (attempt_once url dest_path v))) ->
  (forall v t, R v (log (Sleep t) v)) ->
  forall todo last w,
    R w (fst (attempts url dest_path retries backoff todo last w)).
Proof.
  intros Hrefl Htrans Hatt Hsleep.
  induction todo as [|attempt rest IH]; intros last w; [apply Hrefl|].
  cbn [attempts]. unfold mbind at 1. unfold M_bind at 1.
  unfold try_except. unfold mbind at 1. unfold M_bind at 1.
  specialize (Hatt w).
  destruct (attempt_once url dest_path w) as [w1 [[]|e]]; simpl in Hatt.
  - exact Hatt.
  - destruct (caught e); [|exact Hatt].
    unfold mret at 1. unfold M_ret at 1.
    destruct (attempt <? retries)%nat; [|exact Hatt].
    unfold mbind at 1. unfold M_bind at 1. unfold sleep.
    eapply Htrans; [exact Hatt|]. eapply Htrans; [apply Hsleep|]. apply IH.
Qed.

Lemma fs_do_requests op w : requests (fst (fs_do op w)) = requests w.
Proof. unfold fs_do. by destruct (apply_op op (files w)) as [fs' [e|]]. Qed.

Lemma attempt_once_requests url dest_path w :
  requests (fst (attempt_once url dest_path w)) = S (requests w).
Proof.
  unfold attempt_once. unfold mbind at 1. unfold M_bind at 1. unfold http_get.
  destruct (respond (requests w) url) as [data|e]; [|done].
  set (w0 := World _ _ _). change (S (requests w)) with (requests w0).
  unfold mbind at 1. unfold M_bind at 1.
  pose proof (fs_do_requests (Mkdirs (Os.parent dest_path)) w0) as H1.
  destruct (fs_do _ w0) as [w1 [[]|e]]; cbn [fst] in H1 |- *; [|done]. rewrite <- H1.
  unfold mbind at 1. unfold M_bind at 1. unfold lift.
  destruct (part_path dest_path) as [tmp|e]; [|done].
  unfold mbind at 1. unfold M_bind at 1.
  pose proof (fs_do_requests (OpenWb tmp) w1) as H2.
  destruct (fs_do _ w1) as [w2 [[]|e]]; cbn [fst] in H2 |- *; [|done]. rewrite <- H2.
  unfold mbind at 1. unfold M_bind at 1.
  pose proof (for_eachM_steps (fun u v => requests v = requests u)
                (fun b (_ : unit) => fs_do (Append tmp b)) data tt w2
                (fun v => eq_refl)
                (fun a b c H H' => eq_trans H' H)
                (fun x a v => fs_do_requests _ v)) as H3.
  destruct (for_eachM _ data tt w2) as [w3 [[]|e]]; cbn [fst] in H3 |- *; [|done].
  rewrite <- H3. apply fs_do_requests.
Qed.

(** Every turn of the loop sends one request. *)
Lemma attempts_requests url dest_path retries backoff todo last w :
  exists k, (k <= length todo)%nat /\ (todo <> [] -> (1 <= k)%nat)
    /\ requests (fst (attempts url dest_path retries backoff todo last w))
       = (requests w + k)%nat.
Proof.
  induction todo as [|attempt rest IH] in last, w |- *;
    [exists 0%nat; simpl; repeat split; (done || lia)|].
  cbn [attempts]. unfold mbind at 1. unfold M_bind at 1.
  unfold try_except. unfold mbind at 1. unfold M_bind at 1.
  pose proof (attempt_once_requests url dest_path w) as H1.
  destruct (attempt_once url dest_path w) as [w1 [[]|e]]; cbn [fst] in H1.
  - exists 1%nat. unfold mret, M_ret. cbn [fst length]. repeat split; lia.
  - destruct (caught e); [|exists 1%nat; cbn [fst length]; repeat split; lia].
    unfold mret at 1. unfold M_ret at 1.
    destruct (attempt <? retries)%nat;
      [|exists 1%nat; unfold mret, M_ret; cbn [fst length]; repeat split; lia].
    unfold mbind at 1. unfold M_bind at 1. unfold sleep.
    destruct (IH (Some e) (log (Sleep (backoff ^ Z.of_nat attempt)) w1))
      as (k & Hk & _ & ->).
    exists (S k). change (requests (log (Sleep (backoff ^ Z.of_nat attempt)) w1))
      with (requests w1).
    cbn [length]. repeat split; lia.
Qed.
End Loop.
End DownloadFacts.

(** ** The walk of [process_all] *)

Module ProcessFacts.
Import PyStr Py Os FsFacts SaveFacts FetchFacts Shapes StoreFacts DownloadFacts
  CatalogFacts downloadTextures Views.

Section Walk.
Context {net : Network} {proc : Process}.

(** The ways through the body of the innermost loop. *)
Lemma process_variation_unfold coll_name sub_name target_dir var s w :
  process_variation coll_name sub_name target_dir var s w =
  match _get_variation_pattern var with
  | Raise e => (w, Raise e)
  | Ok None =>
      (w, Ok (Summary (downloaded s) (skipped s) (S (failed s))
                (errors s ++
                 [py "Sin 'variation-pattern' -> " ++ coll_name ++ py "/" ++ sub_name])))
  | Ok (Some pattern) =>
      let dest_file := joinpath target_dir (pattern ++ py ".jpg") in
      match files w !! dest_file with
      | Some _ =>
          (w, Ok (Summary (downloaded s) (S (skipped s)) (failed s) (errors s)))
      | None =>
          let '(w', r) :=
            download_with_retries (build_download_url pattern) dest_file
              default_retries default_backoff w in
          match r with
          | Ok (true, _) =>
              (w', Ok (Summary (S (downloaded s)) (skipped s) (failed s) (errors s)))
          | Ok (false, msg) =>
              (w', Ok (Summary (downloaded s) (skipped s) (S (failed s))
                         (errors s ++ [pattern ++ py ": " ++ msg])))
          | Raise e => (w', Raise e)
          end
      end
  end.
Proof.
  unfold process_variation. unfold mbind at 1. unfold M_bind at 1. unfold lift.
  destruct (_get_variation_pattern var) as [[pattern|]|e] eqn:Hp; [|done|done].
  pose proof (pattern_nonempty var pattern Hp) as Hne.
  destruct pattern as [|c p]; [done|].
  unfold mbind at 1. unfold M_bind at 1. unfold exists_. cbv zeta.
  destruct (files w !! joinpath target_dir ((c :: p) ++ py ".jpg")) as [n|] eqn:E.
  - by rewrite bool_decide_eq_true_2.
  - rewrite bool_decide_eq_false_2 by (by intros [? ?]).
    unfold mbind at 1. unfold M_bind at 1.
    by destruct (download_with_retries _ _ _ _ w) as [w' [[[] msg]|e]].
Qed.

(** *** Existing files *)

Lemma keeps_finished_refl w : keeps_finished w w.
Proof. by intros q n. Qed.

Lemma keeps_finished_trans a b c :
  keeps_finished a b -> keeps_finished b c -> keeps_finished a c.
Proof. intros H1 H2 q n Hq He. apply H2; [|done]. by apply H1. Qed.

Lemma ends_with_app suf s : ends_with suf (s ++ suf) = true.
Proof.
  unfold ends_with, str_eqb. rewrite length_app.
  replace (length s + length suf - length suf)%nat with (length s) by lia.
  rewrite drop_app_length. by apply bool_decide_eq_true_2.
Qed.

(** A download keeps every node that was there, the temporary sibling and
    the destination apart. *)
Lemma download_keeps url dir nm retries backoff w q n :
  nm <> [] -> one_of nm 47 = false ->
  files w !! q = Some n -> q <> dir ++ [nm] -> q <> dir ++ [nm ++ py ".part"] ->
  files (fst (download_with_retries url (dir ++ [nm]) retries backoff w)) !! q
  = Some n.
Proof.
  intros Hne Hsep Hq Hd Ht.
  assert (download_step dir nm (files w)
            (files (fst (download_with_retries url (dir ++ [nm]) retries backoff w))))
    as H.
  { unfold download_with_retries.
    apply (attempts_steps (fun u v => download_step dir nm (files u) (files v)));
      [intros; apply download_step_refl
      |intros ? ? ?; apply download_step_trans
      |intros v; by apply attempt_once_step
      |intros; apply download_step_refl]. }
  destruct (H q) as [E | (N & _)]; [tauto|congruence|congruence].
Qed.

Lemma process_variation_keeps coll_name sub_name target_dir var s w :
  keeps_finished w (fst (process_variation coll_name sub_name target_dir var s w)).
Proof.
  rewrite process_variation_unfold.
  destruct (_get_variation_pattern var) as [[pattern|]|e];
    try apply keeps_finished_refl.
  cbv zeta.
  destruct (dest_file_shape target_dir pattern) as (dir & nm & -> & Hne & Hsep).
  destruct (files w !! (dir ++ [nm])) as [n0|] eqn:Ed; [apply keeps_finished_refl|].
  assert (keeps_finished w
            (fst (download_with_retries (build_download_url pattern) (dir ++ [nm])
                    default_retries default_backoff w))) as H.
  { intros q n Hq Hpart. apply download_keeps; try done.
    - intros ->. congruence.
    - intros ->. unfold Os.name in Hpart. rewrite last_last in Hpart.
      by rewrite ends_with_app in Hpart. }
  by destruct (download_with_retries _ _ _ _ w) as [w' [[[] msg]|e]].
Qed.

(** The ways through the body of the loop over the subcollections. *)
Lemma process_subcollection_unfold dest_root coll_name coll_folder sub s w :
  process_subcollection dest_root coll_name coll_folder sub s w =
  match _get_subcollection_name sub with
  | Raise e => (w, Raise e)
  | Ok sub_name =>
      if negb (nonempty sub_name) then (w, Ok s)
      else
        match resolve (joinpath (joinpath dest_root coll_folder)
                         (sanitize_folder sub_name)) with
        | Raise e => (w, Raise e)
        | Ok target_dir =>
            match v ← _get_variations_list sub; iter v with
            | Raise e => (w, Raise e)
            | Ok vars =>
                for_eachM (process_variation coll_name sub_name target_dir) vars s w
            end
        end
  end.
Proof.
  unfold process_subcollection, mbind at 1, M_bind at 1, lift.
  destruct (_get_subcollection_name sub) as [sub_name|e]; [|done].
  destruct (negb (nonempty sub_name)); [done|].
  cbv zeta. unfold mbind at 1, M_bind at 1.
  destruct (resolve _) as [target_dir|e]; [|done].
  unfold mbind at 1, M_bind at 1.
  by destruct (_ ≫= _) as [vars|e].
Qed.

Lemma process_subcollection_keeps dest_root coll_name coll_folder sub s w :
  keeps_finished w
    (fst (process_subcollection dest_root coll_name coll_folder sub s w)).
Proof.
  rewrite process_subcollection_unfold.
  destruct (_get_subcollection_name sub) as [sub_name|e];
    [|apply keeps_finished_refl].
  destruct (negb (nonempty sub_name)); [apply keeps_finished_refl|].
  destruct (resolve _) as [target_dir|e]; [|apply keeps_finished_refl].
  destruct (_ ≫= _) as [vars|e]; [|apply keeps_finished_refl].
  apply (for_eachM_steps keeps_finished);
    [apply keeps_finished_refl|apply keeps_finished_trans|].
  intros x a v. apply process_variation_keeps.
Qed.

Lemma process_collection_keeps dest_root coll s w :
  keeps_finished w (fst (process_collection dest_root coll s w)).
Proof.
  unfold process_collection, mbind at 1 2, M_bind, lift.
  destruct (_get_collection_name coll) as [coll_name|e];
    [|apply keeps_finished_refl].
  destruct (negb (nonempty coll_name)); [apply keeps_finished_refl|].
  destruct (_ ≫= _) as [subs|e]; [|apply keeps_finished_refl].
  apply (for_eachM_steps keeps_finished);
    [apply keeps_finished_refl|apply keeps_finished_trans|].
  intros x a v. apply process_subcollection_keeps.
Qed.

Lemma process_all_keeps data dest_root w :
  keeps_finished w (fst (process_all data dest_root w)).
Proof.
  unfold process_all, mbind at 1, M_bind, lift.
  destruct (_ ≫= _) as [colls|e]; [|apply keeps_finished_refl].
  apply (for_eachM_steps keeps_finished);
    [apply keeps_finished_refl|apply keeps_finished_trans|].
  intros x a v. apply process_collection_keeps.
Qed.
End Walk.
End ProcessFacts.

Module SummaryFacts.
Import PyStr Py Os FsFacts SaveFacts FetchFacts Shapes StoreFacts DownloadFacts
  CatalogFacts ProcessFacts downloadTextures Views.

(** A relation between the accumulator and world before a step and after
    it, kept by every step that returns, holds across a loop that returns. *)
Lemma for_eachM_joint {A S} (R : S * world -> S * world -> Prop)
    (body : A -> S -> M S) items acc w w' acc' :
  (forall x, R x x) ->
  (forall a b c, R a b -> R b c -> R a c) ->
  (forall x a v v' a', body x a v = (v', Ok a') -> R (a, v) (a', v')) ->
  for_eachM body items acc w = (w', Ok acc') -> R (acc, w) (acc', w').
Proof.
  intros Hrefl Htrans Hbody.
  induction items as [|x rest IH] in acc, w |- *; simpl.
  - intros [= <- <-]. apply Hrefl.
  - unfold mbind, M_bind.
    destruct (body x acc w) as [w1 [a1|e]] eqn:E; [|done].
    intros H. eapply Htrans; [by apply (Hbody _ _ _ _ _ E)|by apply IH].
Qed.

Section Walk.
Context {net : Network} {proc : Process}.
Variable R : summary * world -> summary * world -> Prop.
Hypothesis R_refl : forall x, R x x.
Hypothesis R_trans : forall a b c, R a b -> R b c -> R a c.
Hypothesis R_variation :
  forall coll_name sub_name target_dir var s w w' s',
    process_variation coll_name sub_name target_dir var s w = (w', Ok s') ->
    R (s, w) (s', w').

Lemma process_subcollection_joint dest_root coll_name coll_folder sub s w w' s' :
  process_subcollection dest_root coll_name coll_folder sub s w = (w', Ok s') ->
  R (s, w) (s', w').
Proof.
  rewrite process_subcollection_unfold.
  destruct (_get_subcollection_name sub) as [sub_name|e]; [|done].
  destruct (negb (nonempty sub_name)); [intros [= <- <-]; apply R_refl|].
  destruct (resolve _) as [target_dir|e]; [|done].
  destruct (_ ≫= _) as [vars|e]; [|done].
  apply for_eachM_joint; [done|done|]. intros x a v v' a'. apply R_variation.
Qed.

Lemma process_collection_joint dest_root coll s w w' s' :
  process_collection dest_root coll s w = (w', Ok s') -> R (s, w) (s', w').
Proof.
  unfold process_collection, mbind at 1 2, M_bind, lift.
  destruct (_get_collection_name coll) as [coll_name|e]; [|done].
  destruct (negb (nonempty coll_name)); [intros [= <- <-]; apply R_refl|].
  destruct (_ ≫= _) as [subs|e]; [|done].
  apply for_eachM_joint; [done|done|]. intros x a v v' a'.
  apply process_subcollection_joint.
Qed.

Lemma process_all_joint data dest_root w w' s' :
  process_all data dest_root w = (w', Ok s') ->
  R (Summary 0 0 0 [], w) (s', w').
Proof.
  unfold process_all, mbind at 1, M_bind, lift.
  destruct (_ ≫= _) as [colls|e]; [|done].
  apply for_eachM_joint; [done|done|]. intros x a v v' a'.
  apply process_collection_joint.
Qed.
End Walk.

Section Steps.
Context {net : Network}.

(** One step of the innermost loop, in numbers. *)
Lemma process_variation_counts coll_name sub_name target_dir var s w w' s' :
  process_variation coll_name sub_name target_dir var s w = (w', Ok s') ->
  visited s' = S (visited s)
  /\ (length (errors s') + failed s = length (errors s) + failed s')%nat
  /\ within_budget (s, w) (s', w')
  /\ (skipped s' = S (skipped s) -> w' = w).
Proof.
  rewrite process_variation_unfold.
  destruct (_get_variation_pattern var) as [[pattern|]|e]; [| |done].
  - cbv zeta. destruct (files w !! _) as [n|].
    + intros [= <- <-]. unfold visited, within_budget, spent. simpl.
      repeat split; lia.
    + unfold download_with_retries, default_retries.
      destruct (attempts_requests (build_download_url pattern)
                  (joinpath target_dir (pattern ++ py ".jpg")) 3 default_backoff
                  (seq 1 3) None w) as (k & Hk & Hk1 & Hreq).
      specialize (Hk1 ltac:(done)).
      simpl in Hk.
      destruct (attempts _ _ _ _ _ _ w) as [w1 [[[] msg]|e]]; [| |done];
        intros [= <- <-]; cbn [fst] in Hreq;
        unfold visited, within_budget, spent; simpl;
        rewrite ?length_app; simpl; (repeat split; try lia).
  - intros [= <- <-]. unfold visited, within_budget, spent. simpl.
    rewrite length_app. simpl. repeat split; lia.
Qed.
End Steps.
End SummaryFacts.

(** ** Running the downloads again *)

Module RefetchFacts.
Import PyStr Py Os FsFacts SaveFacts FetchFacts Shapes StoreFacts DownloadFacts
  CatalogFacts ProcessFacts SummaryFacts downloadTextures Views.

(** The destination of a download is a file name that ends in ".jpg". *)
Lemma dest_file_jpg target_dir pattern :
  exists dir lst,
    joinpath target_dir (pattern ++ py ".jpg") = dir ++ [lst ++ py ".jpg"]
    /\ one_of lst 47 = false.
Proof.
  assert (exists init lst,
            components (pattern ++ py ".jpg") = init ++ [lst ++ py ".jpg"]
            /\ one_of lst 47 = false) as [init [lst [Ec Hl]]].
  { destruct (split_on_extend 47 [] pattern (py ".jpg")) as [init [lst [E1 E2]]];
      [by repeat constructor|].
    exists (List.filter (fun c => negb (str_eqb c [] || str_eqb c (py "."))) init), lst.
    split.
    - unfold components. rewrite E2, List.filter_app. f_equal.
      simpl. unfold str_eqb.
      rewrite !bool_decide_eq_false_2; [done| |];
        intros E; apply (f_equal length) in E; rewrite length_app in E;
        simpl in E; lia.
    - pose proof (split_on_pieces 47 [] pattern eq_refl) as Hp.
      rewrite E1 in Hp. apply Forall_app in Hp as [_ Hp].
      by apply Forall_inv in Hp. }
  destruct (decide (head (pattern ++ py ".jpg") = Some 47)) as [Hs|Hs].
  - exists (py "/" :: init), lst. split; [|done].
    unfold joinpath. destruct (pattern ++ py ".jpg") as [|c rest]; [done|].
    injection Hs as ->. by rewrite Ec.
  - exists (target_dir ++ init), lst. split; [|done].
    rewrite ComponentFacts.joinpath_relative by done.
    by rewrite Ec, app_assoc.
Qed.

Lemma ends_with_last suf s c d :
  ends_with (suf ++ [c]) (s ++ [d]) = true -> c = d.
Proof.
  unfold ends_with, str_eqb. intros E%bool_decide_eq_true_1.
  pose proof (take_drop (length (s ++ [d]) - length (suf ++ [c])) (s ++ [d])) as H.
  rewrite E, app_assoc in H. by apply app_inj_tail in H as [_ ->].
Qed.

Lemma jpg_is_finished lst : ends_with (py ".part") (lst ++ py ".jpg") = false.
Proof.
  apply not_true_iff_false. intros E.
  change (py ".part") with ([46; 112; 97; 114] ++ [116]) in E.
  change (lst ++ py ".jpg") with (lst ++ [46; 106; 112] ++ [103]) in E.
  rewrite app_assoc in E. by apply ends_with_last in E.
Qed.

Section Net.
Context {net : Network} {proc : Process}.

(** An attempt that returns has put a node at the destination. *)
Lemma attempt_once_puts url dest_path w w' :
  attempt_once url dest_path w = (w', Ok tt) -> is_Some (files w' !! dest_path).
Proof.
  unfold attempt_once. unfold mbind at 1. unfold M_bind at 1.
  destruct (http_get url w) as [w0 [data|e]]; [|done].
  unfold mbind at 1. unfold M_bind at 1.
  destruct (fs_do _ w0) as [w1 [[]|e]]; [|done].
  unfold mbind at 1. unfold M_bind at 1. unfold lift.
  destruct (part_path dest_path) as [tmp|e]; [|done].
  unfold mbind at 1. unfold M_bind at 1.
  destruct (fs_do _ w1) as [w2 [[]|e]]; [|done].
  unfold mbind at 1. unfold M_bind at 1.
  destruct (for_eachM _ data tt w2) as [w3 [[]|e]]; [|done].
  unfold fs_do. simpl.
  destruct (files w3 !! tmp) as [[|c]|]; [| |done];
    destruct (files w3 !! dest_path) as [[|c']|] eqn:Ed; try done;
    intros [= <-]; simpl; rewrite lookup_insert_eq; by eexists.
Qed.

Lemma attempts_true_puts url dest_path retries backoff todo last w w' msg :
  attempts url dest_path retries backoff todo last w = (w', Ok (true, msg)) ->
  is_Some (files w' !! dest_path).
Proof.
  induction todo as [|attempt rest IH] in last, w |- *; [done|].
  cbn [attempts]. unfold mbind at 1. unfold M_bind at 1.
  unfold try_except. unfold mbind at 1. unfold M_bind at 1.
  destruct (attempt_once url dest_path w) as [w1 [[]|e]] eqn:E.
  - unfold mret, M_ret. intros [= <- _]. by apply (attempt_once_puts url _ w).
  - destruct (caught e); [|done].
    unfold mret at 1. unfold M_ret at 1.
    destruct (attempt <? retries)%nat; [|done].
    unfold mbind at 1. unfold M_bind at 1. unfold sleep. apply IH.
Qed.

Lemma process_variation_reruns coll_name sub_name target_dir var :
  reruns_clean (process_variation coll_name sub_name target_dir var).
Proof.
  intros a w a1 w1 ab wb. rewrite !process_variation_unfold.
  destruct (_get_variation_pattern var) as [[pattern|]|e]; [| |done].
  2: { intros [= <- <-]. simpl. lia. }
  cbv zeta.
  destruct (dest_file_jpg target_dir pattern) as (dir & lst & -> & Hsep).
  assert (forall u, is_Some (files u !! (dir ++ [lst ++ py ".jpg"])) ->
            keeps_finished u wb ->
            is_Some (files wb !! (dir ++ [lst ++ py ".jpg"]))) as Hstay.
  { intros u [n Hn] Hk. exists n. apply Hk; [done|].
    unfold Os.name. rewrite last_last. apply jpg_is_finished. }
  assert (forall a1,
            visited a1 = S (visited a) ->
            is_Some (files wb !! (dir ++ [lst ++ py ".jpg"])) ->
            exists ab',
              match files wb !! (dir ++ [lst ++ py ".jpg"]) with
              | Some _ =>
                  (wb, Ok (Summary (downloaded ab) (S (skipped ab)) (failed ab)
                             (errors ab)))
              | None =>
                  let '(w', r) :=
                    download_with_retries (build_download_url pattern)
                      (dir ++ [lst ++ py ".jpg"]) default_retries default_backoff wb in
                  match r with
                  | Ok (true, _) =>
                      (w', Ok (Summary (S (downloaded ab)) (skipped ab) (failed ab)
                                 (errors ab)))
                  | Ok (false, msg) =>
                      (w', Ok (Summary (downloaded ab) (skipped ab) (S (failed ab))
                                 (errors ab ++ [pattern ++ py ": " ++ msg])))
                  | Raise e => (w', Raise e)
                  end
              end = (wb, Ok ab')
              /\ idle ab ab'
              /\ (skipped ab' + visited a = skipped ab + visited a1)%nat) as Hskip.
  { intros a' Hv [n Hn]. rewrite Hn. eexists. split; [reflexivity|].
    split; [done|]. simpl. lia. }
  destruct (files w !! (dir ++ [lst ++ py ".jpg"])) as [n|] eqn:Ed.
  - intros [= <- <-] _ Hk. apply Hskip; [unfold visited; simpl; lia|].
    apply (Hstay w); [by eexists|done].
  - destruct (download_with_retries _ _ _ _ w) as [w' [[[] msg]|e]] eqn:Er;
      [| |done].
    + intros [= <- <-] _ Hk. apply Hskip; [unfold visited; simpl; lia|].
      apply (Hstay w'); [|done].
      by apply (attempts_true_puts _ _ _ _ _ _ _ _ _ Er).
    + intros [= <- <-]. simpl. lia.
Qed.

(** Replaying a loop whose steps replay. *)
Lemma for_eachM_reruns {A} (body : A -> summary -> M summary) items :
  (forall x a w w1 a1, body x a w = (w1, Ok a1) -> (failed a <= failed a1)%nat) ->
  (forall x a w, keeps_finished w (fst (body x a w))) ->
  (forall x, reruns_clean (body x)) ->
  reruns_clean (for_eachM body items).
Proof.
  intros Hmono Hkeep Hbody.
  induction items as [|x rest IH]; intros a w a2 w2 ab wb; simpl.
  - intros [= <- <-] _ _. exists ab. split; [done|]. split; [done|lia].
  - unfold mbind, M_bind.
    destruct (body x a w) as [w1 [a1|e]] eqn:E1; [|done].
    intros Hrest Hf Hk.
    pose proof (Hmono _ _ _ _ _ E1) as M1.
    assert (failed a1 <= failed a2)%nat as M2.
    { apply (for_eachM_joint (fun u v => (failed (fst u) <= failed (fst v))%nat)
               body rest a1 w1 w2 a2); [done|intros; lia| |done].
      intros y b v v' b'. apply Hmono. }
    assert (keeps_finished w1 w2) as K2.
    { pose proof (for_eachM_steps keeps_finished body rest a1 w1
                    keeps_finished_refl keeps_finished_trans Hkeep) as H.
      by rewrite Hrest in H. }
    destruct (Hbody x a w a1 w1 ab wb E1) as (ab1 & -> & I1 & C1);
      [lia|by eapply keeps_finished_trans|].
    destruct (IH a1 w1 a2 w2 ab1 wb Hrest) as (ab2 & -> & I2 & C2); [lia|done|].
    exists ab2. split; [done|]. split.
    + destruct I1 as (? & ? & ?), I2 as (? & ? & ?). repeat split; congruence.
    + lia.
Qed.

Lemma failed_grows_variation coll_name sub_name target_dir var s w w' s' :
  process_variation coll_name sub_name target_dir var s w = (w', Ok s') ->
  (failed s <= failed s')%nat.
Proof.
  intros H. destruct (process_variation_counts _ _ _ _ _ _ _ _ H) as (_ & _ & B & _).
  revert H. rewrite process_variation_unfold.
  destruct (_get_variation_pattern var) as [[pattern|]|e]; [| |done].
  - cbv zeta. destruct (files w !! _); [by intros [= <- <-]|].
    destruct (download_with_retries _ _ _ _ w) as [w1 [[[] msg]|e]]; [| |done];
      intros [= <- <-]; simpl; lia.
  - intros [= <- <-]. simpl. lia.
Qed.

Lemma failed_grows_subcollection dest_root coll_name coll_folder sub s w w' s' :
  process_subcollection dest_root coll_name coll_folder sub s w = (w', Ok s') ->
  (failed s <= failed s')%nat.
Proof.
  apply (process_subcollection_joint
           (fun u v => (failed (fst u) <= failed (fst v))%nat));
    [done|intros; lia|].
  intros ? ? ? ? ? ? ? ?. apply failed_grows_variation.
Qed.

Lemma failed_grows_collection dest_root coll s w w' s' :
  process_collection dest_root coll s w = (w', Ok s') ->
  (failed s <= failed s')%nat.
Proof.
  apply (process_collection_joint
           (fun u v => (failed (fst u) <= failed (fst v))%nat));
    [done|intros; lia|].
  intros ? ? ? ? ? ? ? ?. apply failed_grows_variation.
Qed.

Lemma reruns_clean_skip a ab (wb : world) :
  exists ab' : summary,
    (wb, Ok ab) = (wb, Ok ab') /\ idle ab ab'
    /\ (skipped ab' + visited a = skipped ab + visited a)%nat.
Proof. exists ab. split; [done|]. split; [done|lia]. Qed.

Lemma process_subcollection_reruns dest_root coll_name coll_folder sub :
  reruns_clean (process_subcollection dest_root coll_name coll_folder sub).
Proof.
  intros a w a1 w1 ab wb.
  rewrite !process_subcollection_unfold.
  destruct (_get_subcollection_name sub) as [sub_name|e]; [|done].
  destruct (negb (nonempty sub_name)).
  { intros [= <- <-] _ _. apply reruns_clean_skip. }
  destruct (resolve _) as [target_dir|e]; [|done].
  destruct (_ ≫= _) as [vars|e]; [|done].
  apply for_eachM_reruns.
  - intros x b v v' b'. apply failed_grows_variation.
  - intros x b v. apply process_variation_keeps.
  - intros x. apply process_variation_reruns.
Qed.

Lemma process_collection_reruns dest_root coll :
  reruns_clean (process_collection dest_root coll).
Proof.
  intros a w a1 w1 ab wb.
  unfold process_collection, mbind at 1 2 4 5, M_bind, lift.
  destruct (_get_collection_name coll) as [coll_name|e]; [|done].
  destruct (negb (nonempty coll_name)).
  { intros [= <- <-] _ _. apply reruns_clean_skip. }
  destruct (_ ≫= _) as [subs|e]; [|done].
  apply for_eachM_reruns.
  - intros x b v v' b'. apply failed_grows_subcollection.
  - intros x b v. apply process_subcollection_keeps.
  - intros x. apply process_subcollection_reruns.
Qed.

Lemma process_all_reruns data dest_root w w1 s1 wb :
  process_all data dest_root w = (w1, Ok s1) ->
  failed s1 = 0%nat ->
  keeps_finished w1 wb ->
  process_all data dest_root wb = (wb, Ok (Summary 0 (visited s1) 0 [])).
Proof.
  unfold process_all, mbind at 1 3, M_bind, lift.
  destruct (_ ≫= _) as [colls|e]; [|done].
  intros H Hf Hk.
  destruct (for_eachM_reruns (process_collection dest_root) colls
              (fun x b v v' b' => failed_grows_collection dest_root x b v v' b')
              (fun x b v => process_collection_keeps dest_root x b v)
              (fun x => process_collection_reruns dest_root x)
              (Summary 0 0 0 []) w s1 w1 (Summary 0 0 0 []) wb H Hf Hk)
    as (ab' & -> & (I1 & I2 & I3) & C).
  destruct ab' as [d k f errs]. simpl in *. subst.
  unfold visited in C at 1. simpl in C. do 3 f_equal. lia.
Qed.
End Net.
End RefetchFacts.

(** ** Resolved paths *)

Module ResolveFacts.
Import PyStr Py Os.

Lemma normalize_plain cur l : plain l = true -> normalize cur l = cur ++ l.
Proof.
  induction l as [|c l IH] in cur |- *; simpl.
  - by rewrite app_nil_r.
  - intros [Hc Hl]%andb_true_iff. apply negb_true_iff in Hc. rewrite Hc.
    rewrite (IH _ Hl). by rewrite <- app_assoc.
Qed.

Lemma normalize_app cur a l :
  normalize cur (a ++ l) = normalize (normalize cur a) l.
Proof.
  induction a as [|c a IH] in cur |- *; simpl; [done|].
  by destruct (str_eqb c (py "..")).
Qed.

(** Plain components under a path stay where they are when the path is
    resolved. *)
Lemma resolve_below `{Process} base l r :
  plain l = true -> is_absolute l = false ->
  resolve (base ++ l) = Ok r ->
  exists root, resolve base = Ok root /\ r = root ++ l.
Proof.
  intros Hl Habs. unfold resolve. rewrite existsb_app.
  destruct (existsb _ base); [done|]. cbn [orb].
  destruct (existsb _ l); [done|].
  intros [= <-]. eexists. split; [reflexivity|].
  destruct base as [|c base].
  - rewrite app_nil_l, Habs. simpl. by apply normalize_plain.
  - change (is_absolute ((c :: base) ++ l)) with (is_absolute (c :: base)).
    destruct (is_absolute (c :: base)).
    + change (tail ((c :: base) ++ l)) with (tail (c :: base) ++ l).
      by rewrite normalize_app, normalize_plain.
    + by rewrite normalize_app, normalize_plain.
Qed.

Lemma resolve_raises `{Process} p e : resolve p = Raise e -> e = ValueError.
Proof. unfold resolve. destruct (existsb _ p); [by intros [= <-]|done]. Qed.
End ResolveFacts.

(** ** The entries of [build_material_specs] *)

Module SpecFacts.
Import PyStr PyStrFacts SlugFacts TokenFacts TokenFixed Py Os Shapes ComponentFacts
  FolderFacts ResolveFacts create_materials Views.

Lemma for_each_invariant {A S} (I : S -> Prop) (body : A -> S -> result S)
    items acc acc' :
  (forall x a a', I a -> body x a = Ok a' -> I a') ->
  I acc -> for_each body items acc = Ok acc' -> I acc'.
Proof.
  intros Hbody. induction items as [|x rest IH] in acc |- *; simpl.
  - by intros H [= <-].
  - intros Hacc. destruct (body x acc) as [a1|e] eqn:E; [|done].
    apply IH. by apply (Hbody _ _ _ Hacc E).
Qed.

Lemma Ok_inj {A} (x y : A) : Ok x = Ok y -> x = y.
Proof. by intros [= ->]. Qed.

Lemma final_char_plain c : final_char c = true -> (c =? 47) = false.
Proof. intros H. unfold final_char in H. class_arith. Qed.

Section Build.
Context {U : UnicodeData} {proc : Process}.
Variable base_fs : path.
Variable base_asset : str.

Lemma asset_file_component p coll_tok sub_tok var_tok :
  Forall (fun c => final_char c = true) (coll_tok ++ sub_tok ++ var_tok) ->
  let name := py "MI_" ++ coll_tok ++ py "_" ++ sub_tok ++ py "_" ++ var_tok in
  joinpath p (name ++ py ".uasset") = p ++ [name ++ py ".uasset"].
Proof.
  intros Hc name.
  apply joinpath_single; [unfold name; change (py "MI_") with [77; 73; 95]; done| |].
  - apply Forall_app in Hc as [H1 Hc]. apply Forall_app in Hc as [H2 H3].
    assert (forall t, Forall (fun c => final_char c = true) t -> one_of t 47 = false)
      as Hplain.
    { intros t Ht. by apply (Forall_one_of_false final_char). }
    unfold name.
    rewrite !FsFacts.one_of_app, (Hplain _ H1), (Hplain _ H2), (Hplain _ H3).
    reflexivity.
  - unfold name. intros E. apply (f_equal length) in E.
    rewrite !length_app in E. simpl in E. lia.
Qed.

Lemma wellformed_folder_plain s :
  wellformed_folder s -> str_eqb s (py "..") = false /\ str_eqb s (py "/") = false.
Proof.
  intros (_ & Hinv & _ & _ & _ & Hend). unfold str_eqb.
  split; apply bool_decide_eq_false_2; intros ->.
  - by vm_compute in Hend.
  - inversion Hinv as [|? ? Hc _]. by vm_compute in Hc.
Qed.

Lemma spec_of_variation_shape coll_raw sub_raw var specs specs' :
  Forall (wellformed_spec base_fs base_asset) specs ->
  spec_of_variation base_fs base_asset coll_raw sub_raw
    (sanitize_folder coll_raw) (sanitize_folder sub_raw) var specs = Ok specs' ->
  Forall (wellformed_spec base_fs base_asset) specs'.
Proof.
  intros Hspecs. unfold spec_of_variation.
  destruct (_get_variation_label var) as [var_raw|e]; [|done].
  unfold mbind, result_bind. cbv beta iota zeta.
  destruct (sanitize_token coll_raw) as [|c1 t1] eqn:E1; [by intros [= <-]|].
  destruct (sanitize_token sub_raw) as [|c2 t2] eqn:E2; [by intros [= <-]|].
  destruct (sanitize_token var_raw) as [|c3 t3] eqn:E3; [by intros [= <-]|].
  cbn [nonempty andb negb].
  pose proof (sanitize_folder_shape coll_raw) as Hcf.
  pose proof (sanitize_folder_shape sub_raw) as Hsf.
  change (downloadTextures.sanitize_folder coll_raw) with (sanitize_folder coll_raw)
    in Hcf.
  change (downloadTextures.sanitize_folder sub_raw) with (sanitize_folder sub_raw)
    in Hsf.
  assert (Forall (fun c => final_char c = true) ((c1 :: t1) ++ (c2 :: t2) ++ c3 :: t3))
    as Hc.
  { rewrite <- E1, <- E2, <- E3. rewrite !Forall_app.
    repeat split; apply sanitize_token_alphabet. }
  assert (nonempty (sanitize_folder sub_raw) = true) as ->
    by (destruct Hsf as [Hne _]; by destruct (sanitize_folder sub_raw)).
  cbv iota.
  assert (nonempty (sanitize_folder coll_raw ++ py "/" ++ sanitize_folder sub_raw)
          = true) as ->
    by (destruct Hcf as [Hne _]; by destruct (sanitize_folder coll_raw)).
  cbv iota.
  destruct (resolve _) as [fs_path|e] eqn:Er; [|done].
  intros E%Ok_inj. subst specs'. apply Forall_app. split; [exact Hspecs|].
  constructor; [|done].
  exists (c1 :: t1), (c2 :: t2), (c3 :: t3),
    (sanitize_folder coll_raw), (sanitize_folder sub_raw).
  split; [done|]. split; [exact Hc|]. split; [exact Hcf|]. split; [exact Hsf|].
  cbn [spec_name package_path asset_path object_path filesystem_path parent].
  split; [done|]. split; [done|].
  split; [done|]. split; [done|]. split; [|done].
  match type of Er with
  | resolve ?joined = _ =>
      assert (joined
              = base_fs ++ [sanitize_folder coll_raw; sanitize_folder sub_raw;
                            (py "MI_" ++ (c1 :: t1) ++ py "_" ++ (c2 :: t2)
                               ++ py "_" ++ c3 :: t3) ++ py ".uasset"]) as Ej
  end.
  { change (joinpath (joinpath base_fs (sanitize_folder coll_raw))
              (sanitize_folder sub_raw))
      with (joinpath (joinpath base_fs (downloadTextures.sanitize_folder coll_raw))
              (downloadTextures.sanitize_folder sub_raw)).
    pose proof (fun p => asset_file_component p _ _ _ Hc) as Hj. cbv zeta in Hj.
    rewrite !sanitize_folder_component, Hj.
    by rewrite <- !app_assoc. }
  rewrite Ej in Er.
  destruct (wellformed_folder_plain _ Hcf) as [Hcf1 Hcf2].
  destruct (wellformed_folder_plain _ Hsf) as [Hsf1 _].
  apply resolve_below in Er; [exact Er| |exact Hcf2].
  unfold plain. cbn [forallb].
  rewrite Hcf1, Hsf1. cbn [negb andb]. rewrite andb_true_r.
  apply negb_true_iff, bool_decide_eq_false_2. intros E.
  apply (f_equal length) in E. rewrite !length_app in E. simpl in E. lia.
Qed.

Lemma build_material_specs_shape data specs :
  build_material_specs base_fs base_asset data = Ok specs ->
  Forall (wellformed_spec base_fs base_asset) specs.
Proof.
  unfold build_material_specs. unfold mbind at 1. unfold result_bind at 1.
  destruct (_ ≫= _) as [colls|e]; [|done].
  apply for_each_invariant; [|done].
  intros coll a a' Ha. unfold specs_of_collection.
  unfold mbind at 1 2. unfold result_bind at 1 2.
  destruct (_get_collection_name coll) as [coll_raw|e]; [|done].
  destruct (negb (nonempty coll_raw)); [by intros <-%Ok_inj|].
  destruct (_ ≫= _) as [sub_list|e]; [|done].
  apply for_each_invariant; [|done].
  intros sub b b' Hb. unfold specs_of_subcollection.
  unfold mbind at 1 2. unfold result_bind at 1 2.
  destruct (_get_subcollection_name sub) as [sub_raw|e]; [|done].
  destruct (negb (nonempty sub_raw)); [by intros <-%Ok_inj|].
  destruct (_ ≫= _) as [vars|e]; [|done].
  apply for_each_invariant; [|done].
  intros var d d' Hd. by apply spec_of_variation_shape.
Qed.
End Build.
End SpecFacts.

(** ** A root that is not a list *)

Module RootFacts.
Import PyStr Py Os Shapes.

Lemma root_items data :
  (forall l, data <> JArr l) ->
  (v ← or_else data (Ok (JArr [])); iter v) =
  (if truthy data then
     match data with
     | JStr s => Ok (List.map (fun c => JStr [c]) s)
     | JObj f => Ok (List.map (fun kv => JStr (fst kv)) f)
     | _ => Raise TypeError
     end
   else Ok []).
Proof.
  intros Hl. unfold or_else. destruct data as [|[]|n|s|l|f]; simpl; try done.
  - by destruct (n =? 0)%Z.
  - by destruct s.
  - by destruct (Hl l).
  - by destruct f.
Qed.
End RootFacts.

(** X11: [download_with_retries] sends at least one and at most [retries]
    requests, whatever the remote end does and however the call ends; with a
    budget of zero it sends none and returns [False] with the text "error". *)
Theorem X11_requests_within_the_retry_budget (net : Os.Network)
    (url : str) (dest : Os.path) (retries : nat) (backoff : Q) (w : Os.world) :
  (Os.requests w + Nat.min 1 retries
   <= Os.requests (fst (downloadTextures.download_with_retries url dest retries backoff w)))%nat
  /\ (Os.requests (fst (downloadTextures.download_with_retries url dest retries backoff w))
      <= Os.requests w + retries)%nat
  /\ downloadTextures.download_with_retries url dest 0 backoff w
     = (w, Py.Ok (false, py "error")).
Proof.
  unfold downloadTextures.download_with_retries.
  destruct (DownloadFacts.attempts_requests url dest retries backoff (seq 1 retries)
              None w) as (k & Hk & Hk1 & ->).
  rewrite length_seq in Hk.
  split; [|split; [lia|reflexivity]].
  destruct retries as [|n]; [simpl; lia|].
  specialize (Hk1 ltac:(done)). simpl. lia.
Qed.

(** X12: a download touches only its own files.  On a store written in
    resolved paths, for a resolved destination [dir / name], whatever the
    remote end does, whatever the budget and however the call ends, every
    other resolved path but the temporary sibling holds afterwards what it
    held before, or holds a new directory, made where there was nothing at a
    prefix of [dir]. *)
Theorem X12_download_touches_only_its_own_files (net : Os.Network)
    (url : str) (dir : Os.path) (name : str) (retries : nat) (backoff : Q)
    (w : Os.world) (q : Os.path) :
  name <> [] -> PyStr.one_of name 47 = false ->
  Shapes.resolved_store (Os.files w) ->
  Shapes.resolved_path (dir ++ [name]) = true ->
  Shapes.resolved_path q = true ->
  q <> dir ++ [name] -> q <> dir ++ [name ++ py ".part"] ->
  let w' := fst (downloadTextures.download_with_retries url (dir ++ [name])
                   retries backoff w) in
  Os.files w' !! q = Os.files w !! q
  \/ (Os.files w !! q = None /\ Os.files w' !! q = Some Os.Dir /\ q `prefix_of` dir).
Proof.
  intros Hne Hsep _ _ _ Hd Ht w'.
  assert (Shapes.download_step dir name (Os.files w) (Os.files w')) as H.
  { unfold w', downloadTextures.download_with_retries.
    apply (DownloadFacts.attempts_steps
             (fun u v => Shapes.download_step dir name (Os.files u) (Os.files v)));
      [intros; apply DownloadFacts.download_step_refl
      |intros ? ? ?; apply DownloadFacts.download_step_trans
      |intros v; by apply DownloadFacts.attempt_once_step
      |intros; apply DownloadFacts.download_step_refl]. }
  apply H. tauto.
Qed.

Lemma X12_download_witness :
  Os.files (fst (@downloadTextures.download_with_retries Samples.net_up (py "u")
                   (MoreSamples.repo_heavy_dir ++ [py "100-200.jpg"]) 3 (3 # 2)
                   MoreSamples.repo_with_notes))
    !! [py "/"; py "repo"; py "textures"; py "notes.txt"]
  = Some (Os.File [Byte.x4a]).
Proof.
  destruct (X12_download_touches_only_its_own_files Samples.net_up (py "u")
              MoreSamples.repo_heavy_dir (py "100-200.jpg") 3 (3 # 2)
              MoreSamples.repo_with_notes
              [py "/"; py "repo"; py "textures"; py "notes.txt"])
    as [H | (H & _)].
  - discriminate.
  - reflexivity.
  - intros p [x Hx]. unfold MoreSamples.repo_with_notes in Hx.
    cbn [Os.files] in Hx. apply lookup_singleton_Some in Hx as [<- _]. reflexivity.
  - reflexivity.
  - reflexivity.
  - discriminate.
  - discriminate.
  - rewrite H. reflexivity.
  - vm_compute in H. discriminate.
Defined.

(** X13: [process_all] never loses a finished file.  For a process whose
    working directory is a resolved path, on a store written in resolved
    paths, and for a catalog in which no pattern has a [".."] component:
    every node that exists before the run and whose name does not end in
    ".part" is there unchanged after it, for every behaviour of the remote
    end, and also when the run is cut short by an exception. *)
Theorem X13_process_all_keeps_existing_files (net : Os.Network)
    (proc : Os.Process) (data : Py.json) (dest_root : Os.path) (w : Os.world)
    (q : Os.path) (n : Os.node) :
  Shapes.resolved_path Os.cwd = true ->
  Shapes.resolved_store (Os.files w) ->
  Shapes.tame data = true ->
  Os.files w !! q = Some n ->
  Shapes.ends_with (py ".part") (Os.name q) = false ->
  Os.files (fst (downloadTextures.process_all data dest_root w)) !! q = Some n.
Proof.
  intros _ _ _ Hq Hp. by apply (ProcessFacts.process_all_keeps data dest_root w).
Qed.

Lemma X13_process_all_witness :
  Os.files (fst (@downloadTextures.process_all Samples.net_up Samples.home
                   (Py.JArr [Samples.wools]) [py "textures"]
                   MoreSamples.repo_with_notes))
    !! [py "/"; py "repo"; py "textures"; py "notes.txt"]
  = Some (Os.File [Byte.x4a]).
Proof.
  apply (X13_process_all_keeps_existing_files Samples.net_up Samples.home).
  - reflexivity.
  - intros p [x Hx]. unfold MoreSamples.repo_with_notes in Hx.
    cbn [Os.files] in Hx. apply lookup_singleton_Some in Hx as [<- _]. reflexivity.
  - reflexivity.
  - reflexivity.
  - reflexivity.
Defined.

(** X14: the summary of [process_all] holds one error entry for every
    failure: the number of entries of [errors] is [failed]. *)
Theorem X14_one_error_entry_per_failure (net : Os.Network) (proc : Os.Process)
    (data : Py.json) (dest_root : Os.path) (w w' : Os.world)
    (s : downloadTextures.summary) :
  downloadTextures.process_all data dest_root w = (w', Py.Ok s) ->
  length (downloadTextures.errors s) = downloadTextures.failed s.
Proof.
  intros H.
  pose proof (SummaryFacts.process_all_joint
    (fun u v =>
       (length (downloadTextures.errors (fst v)) + downloadTextures.failed (fst u)
        = length (downloadTextures.errors (fst u)) + downloadTextures.failed (fst v))%nat))
    as Hj.
  specialize (Hj ltac:(done) ltac:(intros a b c H1 H2; cbv beta in *; lia)).
  specialize (Hj (fun cn sn td var s0 w0 w1 s1 E =>
                    proj1 (proj2 (SummaryFacts.process_variation_counts
                                    cn sn td var s0 w0 w1 s1 E)))).
  specialize (Hj data dest_root w w' s H). simpl in Hj. lia.
Qed.

Lemma X14_errors_witness :
  length (downloadTextures.errors
            (downloadTextures.Summary 0 0 1 [py "100-200: unreachable"]))
  = downloadTextures.failed
      (downloadTextures.Summary 0 0 1 [py "100-200: unreachable"]).
Proof.
  eapply (X14_one_error_entry_per_failure Samples.net_down Samples.home
            (Py.JArr [Samples.wools]) [py "textures"] Samples.empty_world).
  vm_compute. reflexivity.
Defined.

(** X15: the requests of a run of [process_all] are covered by its summary:
    at least one request was sent for every file counted as downloaded, and at
    most three for every variation counted as downloaded or failed; skipped
    variations cost none. *)
Theorem X15_requests_of_a_run (net : Os.Network) (proc : Os.Process)
    (data : Py.json) (dest_root : Os.path) (w w' : Os.world)
    (s : downloadTextures.summary) :
  downloadTextures.process_all data dest_root w = (w', Py.Ok s) ->
  (Os.requests w + downloadTextures.downloaded s <= Os.requests w')%nat
  /\ (Os.requests w'
      <= Os.requests w
         + 3 * (downloadTextures.downloaded s + downloadTextures.failed s))%nat.
Proof.
  intros H.
  pose proof (SummaryFacts.process_all_joint Shapes.within_budget) as Hj.
  specialize (Hj ltac:(by intros [? ?]; split)).
  specialize (Hj ltac:(intros [? ?] [? ?] [? ?] [? ?] [? ?]; split; simpl in *; lia)).
  specialize (Hj (fun cn sn td var s0 w0 w1 s1 E =>
                    proj1 (proj2 (proj2 (SummaryFacts.process_variation_counts
                                           cn sn td var s0 w0 w1 s1 E))))).
  destruct (Hj data dest_root w w' s H) as [H1 H2].
  unfold Shapes.spent in *. simpl in *. lia.
Qed.

Lemma X15_requests_witness :
  (Os.requests Samples.empty_world
   + downloadTextures.downloaded
       (downloadTextures.Summary 0 0 1 [py "100-200: unreachable"]) <= 3)%nat
  /\ (3 <= Os.requests Samples.empty_world
           + 3 * (downloadTextures.downloaded
                    (downloadTextures.Summary 0 0 1 [py "100-200: unreachable"])
                  + downloadTextures.failed
                      (downloadTextures.Summary 0 0 1 [py "100-200: unreachable"])))%nat.
Proof.
  apply (X15_requests_of_a_run Samples.net_down Samples.home (Py.JArr [Samples.wools])
           [py "textures"] Samples.empty_world
           (Os.World ∅ 3
              [Os.Request (downloadTextures.build_download_url (py "100-200"));
               Os.Sleep ((3 # 2) ^ 1);
               Os.Request (downloadTextures.build_download_url (py "100-200"));
               Os.Sleep ((3 # 2) ^ 2);
               Os.Request (downloadTextures.build_download_url (py "100-200"))])
           (downloadTextures.Summary 0 0 1 [py "100-200: unreachable"])).
  vm_compute. reflexivity.
Defined.

(** X16: every variation of a subcollection that is walked lands in exactly
    one of the three counters: when the loop over the variations returns,
    [downloaded + skipped + failed] has grown by the number of variations. *)
Theorem X16_every_variation_is_counted_once (net : Os.Network)
    (coll_name sub_name : str) (target_dir : Os.path) (vars : list Py.json)
    (s s' : downloadTextures.summary) (w w' : Os.world) :
  Os.for_eachM (downloadTextures.process_variation coll_name sub_name target_dir)
    vars s w = (w', Py.Ok s') ->
  (downloadTextures.downloaded s' + downloadTextures.skipped s'
   + downloadTextures.failed s'
   = downloadTextures.downloaded s + downloadTextures.skipped s
     + downloadTextures.failed s + length vars)%nat.
Proof.
  intros H.
  pose proof (WalkFacts.for_eachM_measure _ Shapes.visited 1 _ _ _ _ _
                (fun x a v v' a' E =>
                   eq_trans (proj1 (SummaryFacts.process_variation_counts
                                      coll_name sub_name target_dir x a v v' a' E))
                     (eq_sym (Nat.add_1_r _))) H) as Hm.
  unfold Shapes.visited in Hm. lia.
Qed.

Lemma X16_counted_witness :
  (0 + 1 + 1
   = 0 + 0 + 0 + length [Samples.red_variation; Py.JStr (py "Red")])%nat.
Proof.
  apply (X16_every_variation_is_counted_once Samples.net_up (py "Wools") (py "Heavy")
           Samples.heavy_dir [Samples.red_variation; Py.JStr (py "Red")]
           (downloadTextures.Summary 0 0 0 [])
           (downloadTextures.Summary 0 1 1
              [py "Sin 'variation-pattern' -> " ++ py "Wools" ++ py "/" ++ py "Heavy"])
           Samples.world_with_texture Samples.world_with_texture).
  vm_compute. reflexivity.
Defined.

(** X17: re-running is safe.  After a run of [process_all] that returned
    without a failure, a second run over the same catalog, on any store that
    still holds the finished files of the first, sends no request, performs no
    file-system operation and leaves the world exactly as it is; it reports
    every variation as skipped. *)
Theorem X17_second_run_downloads_nothing (net : Os.Network) (proc : Os.Process)
    (data : Py.json) (dest_root : Os.path) (w w1 wb : Os.world)
    (s1 : downloadTextures.summary) :
  downloadTextures.process_all data dest_root w = (w1, Py.Ok s1) ->
  downloadTextures.failed s1 = 0%nat ->
  Shapes.keeps_finished w1 wb ->
  downloadTextures.process_all data dest_root wb
  = (wb, Py.Ok (downloadTextures.Summary 0
                  (downloadTextures.downloaded s1 + downloadTextures.skipped s1) 0 [])).
Proof.
  intros H Hf Hk.
  rewrite (RefetchFacts.process_all_reruns data dest_root w w1 s1 wb H Hf Hk).
  unfold Shapes.visited. rewrite Hf. do 3 f_equal. lia.
Qed.

Lemma X17_second_run_witness :
  @downloadTextures.process_all Samples.net_up Samples.home (Py.JArr [Samples.wools])
    [py "textures"]
    (fst (@downloadTextures.process_all Samples.net_up Samples.home (Py.JArr [Samples.wools])
            [py "textures"] Samples.empty_world))
  = (fst (@downloadTextures.process_all Samples.net_up Samples.home (Py.JArr [Samples.wools])
            [py "textures"] Samples.empty_world),
     Py.Ok (downloadTextures.Summary 0 (1 + 0) 0 [])).
Proof.
  apply (X17_second_run_downloads_nothing Samples.net_up Samples.home
           (Py.JArr [Samples.wools])
           [py "textures"] Samples.empty_world
           (fst (@downloadTextures.process_all Samples.net_up Samples.home (Py.JArr [Samples.wools])
                   [py "textures"] Samples.empty_world))
           (fst (@downloadTextures.process_all Samples.net_up Samples.home (Py.JArr [Samples.wools])
                   [py "textures"] Samples.empty_world))
           (downloadTextures.Summary 1 0 0 [])).
  - vm_compute. reflexivity.
  - reflexivity.
  - intros q n Hq _. exact Hq.
Defined.

Module AbortFacts.
Import PyStr Py Os FetchFacts Shapes downloadTextures Views.

Section Net.
Context {net : Network}.

(** An exception that the [except] clause does not list leaves the loop at
    once. *)
Lemma attempts_step_uncaught url dest_path retries backoff attempt rest last w e :
  respond (requests w) url = Raise e -> caught e = false ->
  attempts url dest_path retries backoff (attempt :: rest) last w
  = (after_request url w, Raise e).
Proof.
  intros H Hc. cbn [attempts]. unfold mbind at 1. unfold M_bind at 1.
  unfold try_except. unfold mbind at 1. unfold M_bind at 1.
  by rewrite (attempt_once_fail _ _ _ _ H), Hc.
Qed.
End Net.
End AbortFacts.

(** X18: an exception outside the [except] clause is not retried.  When the
    first request of a download raises anything but an HTTP error, a URL
    error, a timeout or an OS error, [download_with_retries] (with a budget
    that is not zero) raises it after that one request, without sleeping; the
    loop of [process_all] over the variations raises it too, and the
    variations that remain are not processed. *)
Theorem X18_other_exceptions_are_not_retried (net : Os.Network) :
  (forall url dest retries backoff w e,
      Os.respond (Os.requests w) url = Py.Raise e ->
      downloadTextures.caught e = false ->
      downloadTextures.download_with_retries url dest (S retries) backoff w
      = (Views.after_request url w, Py.Raise e))
  /\ (forall coll_name sub_name target_dir var pattern rest s w e,
      downloadTextures._get_variation_pattern var = Py.Ok (Some pattern) ->
      Os.files w !! Os.joinpath target_dir (pattern ++ py ".jpg") = None ->
      Os.respond (Os.requests w) (downloadTextures.build_download_url pattern)
      = Py.Raise e ->
      downloadTextures.caught e = false ->
      Os.for_eachM (downloadTextures.process_variation coll_name sub_name target_dir)
        (var :: rest) s w
      = (Views.after_request (downloadTextures.build_download_url pattern) w,
         Py.Raise e)).
Proof.
  split.
  - intros url dest retries backoff w e H Hc.
    unfold downloadTextures.download_with_retries. cbn [seq].
    by apply AbortFacts.attempts_step_uncaught.
  - intros coll_name sub_name target_dir var pattern rest s w e Hp Hd H Hc.
    cbn [Os.for_eachM]. unfold mbind at 1. unfold Os.M_bind at 1.
    rewrite ProcessFacts.process_variation_unfold, Hp. cbv zeta. rewrite Hd.
    unfold downloadTextures.download_with_retries, downloadTextures.default_retries.
    cbn [seq].
    by rewrite (AbortFacts.attempts_step_uncaught _ _ _ _ _ _ _ _ _ H Hc).
Qed.

Lemma X18_abort_witness :
  @downloadTextures.download_with_retries MoreSamples.net_broken (py "u")
    (Samples.heavy_dir ++ [py "100-200.jpg"]) 3 (3 # 2) Samples.empty_world
  = (Views.after_request (py "u") Samples.empty_world,
     Py.Raise (Py.OtherError (py "IncompleteRead"))).
Proof.
  apply (proj1 (X18_other_exceptions_are_not_retried MoreSamples.net_broken)).
  - reflexivity.
  - reflexivity.
Defined.

(** X19: a root that is not a list.  [build_material_specs] and
    [process_all] take a falsy root ([null], [false], [0], the empty string,
    the empty object) for an empty catalog; on any other root that is not a
    list they raise before anything is done: [AttributeError] for an object or
    a string, whose items have no [get], and [TypeError] for a number or
    [true], which cannot be iterated.  The world is left as it was. *)
Theorem X19_root_that_is_not_a_list (U : UnicodeData) (net : Os.Network)
    (proc : Os.Process) (data : Py.json) (base_fs : Os.path) (base_asset : str) (dest_root : Os.path)
    (w : Os.world) :
  (forall l, data <> Py.JArr l) ->
  create_materials.build_material_specs base_fs base_asset data
  = (if Py.truthy data then Py.Raise (Shapes.root_error data) else Py.Ok [])
  /\ downloadTextures.process_all data dest_root w
     = (w, if Py.truthy data then Py.Raise (Shapes.root_error data)
           else Py.Ok (downloadTextures.Summary 0 0 0 [])).
Proof.
  intros Hl.
  unfold create_materials.build_material_specs, downloadTextures.process_all.
  unfold mbind at 1. unfold Py.result_bind at 1.
  unfold mbind at 2. unfold Os.M_bind, Os.lift.
  rewrite (RootFacts.root_items data Hl).
  destruct data as [|[]|n|s|l|f]; try done.
  - simpl. by destruct (n =? 0)%Z.
  - by destruct s.
  - by destruct (Hl l).
  - by destruct f as [|[k v] f].
Qed.

Lemma X19_root_witness :
  @create_materials.build_material_specs ascii_only Samples.home [py "Content"]
    (py "/Game/Materials/MayerFabrics") MoreSamples.wrapped_catalog
  = Py.Raise Py.AttributeError
  /\ @downloadTextures.process_all Samples.net_up Samples.home
       MoreSamples.wrapped_catalog
       [py "textures"] Samples.empty_world
     = (Samples.empty_world, Py.Raise Py.AttributeError).
Proof.
  apply (X19_root_that_is_not_a_list ascii_only Samples.net_up Samples.home
           MoreSamples.wrapped_catalog).
  discriminate.
Defined.

(** X20: the paths of an AssetSpec fit together.  Every entry that
    [build_material_specs] returns is named
    [MI_<collection>_<subcollection>_<variation>] with three tokens over
    [A-Z0-9-] that are not empty; its package path is the vendor root followed
    by the collection folder and the subcollection folder, its asset path adds
    the name, its object path repeats the name after a dot, and its file is
    [<name>.uasset], exactly three components below the resolved vendor
    directory in the same two folders; the parent is always the sample
    material.  The package path never falls back to the bare root or to the
    collection folder alone. *)
Theorem X20_specs_are_wellformed (U : UnicodeData) (proc : Os.Process)
    (base_fs : Os.path) (base_asset : str) (data : Py.json)
    (specs : list create_materials.spec) :
  create_materials.build_material_specs base_fs base_asset data = Py.Ok specs ->
  Forall (Shapes.wellformed_spec base_fs base_asset) specs.
Proof. apply SpecFacts.build_material_specs_shape. Qed.

Lemma X20_specs_witness :
  Forall (@Shapes.wellformed_spec Samples.home
            [py "Content"; py "Materials"; py "MayerFabrics"]
            (py "/Game/Materials/MayerFabrics"))
    [create_materials.AssetSpec
       (py "MI_WOOLS_HEAVY_RED")
       (py "/Game/Materials/MayerFabrics/Wools/Heavy")
       (py "/Game/Materials/MayerFabrics/Wools/Heavy/MI_WOOLS_HEAVY_RED")
       (py "/Game/Materials/MayerFabrics/Wools/Heavy/MI_WOOLS_HEAVY_RED.MI_WOOLS_HEAVY_RED")
       [py "/"; py "repo"; py "Content"; py "Materials"; py "MayerFabrics";
        py "Wools"; py "Heavy"; py "MI_WOOLS_HEAVY_RED.uasset"]
       create_materials.PARENT_MATERIAL_OBJECT_PATH].
Proof.
  apply (X20_specs_are_wellformed ascii_only Samples.home _ _ Samples.legacy_catalog).
  vm_compute. reflexivity.
Defined.

(** ** The entry point of [create-folders.py] *)

Module EntryFacts.
Import PyStr Py Os Shapes StoreFacts MaterializerFacts create_folders create_folders_main.

Section Script.
Context {U : UnicodeData} {decoder : JsonDecoder}.

(** [load_collections] reads and never writes. *)
Lemma load_collections_reads json_path w :
  fst (load_collections json_path w) = w.
Proof.
  unfold load_collections, mbind, M_bind, exists_, lift, read_json.
  destruct (files w !! json_path) as [[|content]|] eqn:E.
  - rewrite bool_decide_eq_true_2 by (by eexists). cbn [negb]. by rewrite E.
  - rewrite bool_decide_eq_true_2 by (by eexists). cbn [negb]. rewrite E.
    destruct (json_load content) as [[]|e]; done.
  - by rewrite bool_decide_eq_false_2 by (by intros [? ?]).
Qed.

(** It returns the root of the decoded file when that is a list, and
    raises otherwise. *)
Lemma load_collections_list json_path w l :
  snd (load_collections json_path w) = Ok l <->
  exists content,
    files w !! json_path = Some (File content) /\ json_load content = Ok (JArr l).
Proof.
  unfold load_collections, mbind, M_bind, exists_, lift, read_json.
  destruct (files w !! json_path) as [[|content]|] eqn:E.
  - rewrite bool_decide_eq_true_2 by (by eexists). cbn [negb]. rewrite E.
    split; [done|]. by intros (c & [=] & _).
  - rewrite bool_decide_eq_true_2 by (by eexists). cbn [negb]. rewrite E. split.
    + destruct (json_load content) as [[]|e] eqn:Ej; try done.
      simpl. intros [= ->]. by exists content.
    + intros (c & [= <-] & ->). done.
  - rewrite bool_decide_eq_false_2 by (by intros [? ?]). simpl.
    split; [done|]. by intros (c & [=] & _).
Qed.

Lemma main_unfold script_dir DEST_DIR w :
  main script_dir DEST_DIR w =
  match snd (load_collections (joinpath script_dir JSON_FILENAME) w) with
  | Ok collections =>
      let '(w1, _) := ensure_dir DEST_DIR w in
      let '(w2, r) := create_structure collections DEST_DIR w1 in
      (w2, match r with Ok _ => Ok tt | Raise e => Raise e end)
  | Raise _ => (w, Ok tt)
  end.
Proof.
  unfold main. cbv zeta. set (json_path := joinpath script_dir JSON_FILENAME).
  pose proof (load_collections_reads json_path w) as Hr.
  pose proof (load_collections_list json_path w) as Hl.
  unfold mbind at 1. unfold M_bind at 1. unfold exists_.
  destruct (files w !! json_path) as [n|] eqn:E.
  - rewrite bool_decide_eq_true_2 by (by eexists). cbn [negb].
    unfold mbind at 1. unfold M_bind at 1. unfold try_except.
    unfold mbind at 1. unfold M_bind at 1.
    destruct (load_collections json_path w) as [w0 [l|e]]; simpl in Hr; subst w0;
      cbn [snd]; [|done].
    unfold mret at 1. unfold M_ret at 1.
    unfold mbind at 1. unfold M_bind at 1.
    destruct (MaterializerFacts.ensure_dir_cases DEST_DIR w) as [[_ ->] | [_ ->]];
      unfold mbind at 1; unfold M_bind at 1;
      by destruct (create_structure l DEST_DIR _) as [w2 [c|e]].
  - rewrite bool_decide_eq_false_2 by (by intros [? ?]). cbn [negb].
    destruct (snd (load_collections json_path w)) as [l|e] eqn:El; [|done].
    destruct (proj1 (Hl l) eq_refl) as (c & Hc & _). done.
Qed.

Lemma main_step script_dir DEST_DIR w :
  materializer_step DEST_DIR w (fst (main script_dir DEST_DIR w)).
Proof.
  rewrite main_unfold.
  destruct (snd (load_collections _ w)) as [l|e]; [|apply step_refl].
  pose proof (ensure_dir_step DEST_DIR [] w) as H1.
  rewrite app_nil_r in H1. specialize (H1 ltac:(simpl; lia)).
  destruct (ensure_dir DEST_DIR w) as [w1 r1]. cbn [fst] in H1.
  pose proof (create_structure_step l DEST_DIR w1) as H2.
  destruct (create_structure l DEST_DIR w1) as [w2 r2]. cbn [fst] in *.
  by eapply step_trans.
Qed.
End Script.
End EntryFacts.

(** X21: [create-folders.py] validates the root before it creates anything.
    [load_collections] never writes, and it returns exactly when the catalog
    file exists, decodes, and its root is a list.  In every other case (no
    file, a directory in its place, text that does not decode, a root that is
    an object, a string, a number) [main] returns with the world exactly as it
    was: not even the destination root is created.  And whatever the catalog
    holds, [main] only adds directories, at the ancestors of the destination,
    the destination itself or at most two levels below it, and sends no
    request. *)
Theorem X21_main_validates_before_it_creates (U : UnicodeData)
    (decoder : JsonDecoder) (script_dir DEST_DIR : Os.path) (w : Os.world) :
  let json_path := Os.joinpath script_dir create_folders_main.JSON_FILENAME in
  let w' := fst (create_folders_main.main script_dir DEST_DIR w) in
  fst (create_folders_main.load_collections json_path w) = w
  /\ (forall l,
        snd (create_folders_main.load_collections json_path w) = Py.Ok l <->
        exists content,
          Os.files w !! json_path = Some (Os.File content)
          /\ json_load content = Py.Ok (Py.JArr l))
  /\ ((forall l, snd (create_folders_main.load_collections json_path w) <> Py.Ok l) ->
        create_folders_main.main script_dir DEST_DIR w = (w, Py.Ok tt))
  /\ (forall q,
        Os.files w' !! q = Os.files w !! q
        \/ (Os.files w !! q = None /\ Os.files w' !! q = Some Os.Dir
            /\ (q `prefix_of` DEST_DIR
                \/ (DEST_DIR `prefix_of` q
                    /\ (length q <= length DEST_DIR + 2)%nat))))
  /\ Os.requests w' = Os.requests w.
Proof.
  intros json_path w'.
  split; [apply EntryFacts.load_collections_reads|].
  split; [intros l; apply EntryFacts.load_collections_list|].
  split.
  - intros Hno. rewrite EntryFacts.main_unfold. fold json_path.
    destruct (snd (create_folders_main.load_collections json_path w)) as [l|e] eqn:E;
      [by destruct (Hno l)|done].
  - destruct (EntryFacts.main_step script_dir DEST_DIR w) as [H1 H2].
    split; [|exact H2]. intros q. exact (H1 q (fun absurd => absurd)).
Qed.

Lemma X21_main_witness :
  @create_folders_main.main ascii_only (fun _ => Py.Ok MoreSamples.wrapped_catalog)
    [py "Python"] [py "dest"] MoreSamples.world_with_catalog
  = (MoreSamples.world_with_catalog, Py.Ok tt).
Proof.
  apply (X21_main_validates_before_it_creates ascii_only
           (fun _ => Py.Ok MoreSamples.wrapped_catalog) [py "Python"] [py "dest"]
           MoreSamples.world_with_catalog).
  intros l. vm_compute. discriminate.
Defined.

(** ** The roots of the project *)

Module RootsFacts.
Import PyStr Py Os ComponentFacts create_materials_main downloadTextures_main.

Lemma joinpath_plain p s :
  s <> [] -> Forall (fun c => is_upper_az c || is_lower_az c = true) s ->
  joinpath p s = p ++ [s].
Proof.
  intros Hne Hc. apply joinpath_single; [done| |].
  - by apply (Forall_one_of_false (fun c => is_upper_az c || is_lower_az c)).
  - intros ->. apply Forall_inv in Hc. done.
Qed.

Lemma vendor_root p :
  joinpath (joinpath (joinpath p (py "Content")) (py "Materials")) MANUFACTURER_FOLDER
  = p ++ [py "Content"; py "Materials"; py "MayerFabrics"].
Proof.
  unfold MANUFACTURER_FOLDER.
  rewrite !joinpath_plain by (done || (vm_compute; repeat constructor)).
  by rewrite <- !app_assoc.
Qed.

Lemma parent_name_snoc (root : path) d f :
  parent (root ++ [d; f]) = root ++ [d] /\ name (parent (root ++ [d; f])) = d
  /\ parent (parent (root ++ [d; f])) = root.
Proof.
  unfold parent, name.
  change (root ++ [d; f]) with (root ++ [d] ++ [f]). rewrite app_assoc.
  by rewrite !removelast_last, last_last.
Qed.
End RootsFacts.

(** X22: the two scripts find the same project root.  For a catalog at
    [root / dir / file], [resolve_roots] of [create_materials.py] and
    [resolve_project_root] of [downloadTextures.py] both answer [root] when
    [dir] is "python" in any letter case and [root / dir] otherwise; the
    materials go to [Content/Materials/MayerFabrics] and the textures to
    [Content/Texture/MayerFabrics] under that root, and the vendor package is
    [/Game/Materials/MayerFabrics]. *)
Theorem X22_both_scripts_find_the_same_root (U : UnicodeData)
    (root : Os.path) (dir file : str) :
  let json_file := root ++ [dir; file] in
  let found := if Py.str_eqb (PyStr.lower dir) (py "python") then root
               else root ++ [dir] in
  let roots := create_materials_main.resolve_roots json_file in
  downloadTextures_main.resolve_project_root json_file = found
  /\ create_materials_main.project_root roots = found
  /\ create_materials_main.base_fs_root_vendor roots
     = found ++ [py "Content"; py "Materials"; py "MayerFabrics"]
  /\ downloadTextures_main.dest_root json_file
     = found ++ [py "Content"; py "Texture"; py "MayerFabrics"]
  /\ create_materials_main.base_asset_root_vendor roots
     = py "/Game/Materials/MayerFabrics"
  /\ downloadTextures_main.resolve_project_root (root ++ [py "Python"; file]) = root
  /\ downloadTextures_main.resolve_project_root (root ++ [py "PYTHON"; file]) = root.
Proof.
  intros json_file found roots.
  destruct (RootsFacts.parent_name_snoc root dir file) as (E1 & E2 & E3).
  assert (downloadTextures_main.resolve_project_root json_file = found) as Hd.
  { unfold downloadTextures_main.resolve_project_root, json_file, found.
    cbv zeta. rewrite E2, E3, E1. done. }
  assert (create_materials_main.project_root roots = found) as Hm.
  { unfold roots, create_materials_main.resolve_roots, json_file, found.
    cbv zeta. cbn [create_materials_main.project_root]. rewrite E2, E3, E1. done. }
  split; [exact Hd|]. split; [exact Hm|]. split; [|split; [|split; [|split]]].
  - unfold roots, create_materials_main.resolve_roots in *. cbv zeta in *.
    cbn [create_materials_main.project_root
           create_materials_main.base_fs_root_vendor] in *.
    rewrite Hm. apply RootsFacts.vendor_root.
  - unfold downloadTextures_main.dest_root. by rewrite Hd.
  - reflexivity.
  - destruct (RootsFacts.parent_name_snoc root (py "Python") file) as (F1 & F2 & F3).
    unfold downloadTextures_main.resolve_project_root. cbv zeta.
    rewrite F2, F3. done.
  - destruct (RootsFacts.parent_name_snoc root (py "PYTHON") file) as (F1 & F2 & F3).
    unfold downloadTextures_main.resolve_project_root. cbv zeta.
    rewrite F2, F3. done.
Qed.

(** X23: the list of variations comes from [variations], and from the
    legacy [variation] only when [variations] is absent or null.  In both
    scripts, a subcollection whose [variations] holds anything but null is
    read from that field alone, a legacy [variation] beside it plays no part
    (an empty new list is not replaced by the legacy one); a falsy value is
    read as the empty list. *)
Theorem X23_variations_before_variation (fields : list (str * Py.json)) :
  let new := default Py.JNull (Py.assoc (py "variations") fields) in
  let legacy := default Py.JNull (Py.assoc (py "variation") fields) in
  let or_empty v := if Py.truthy v then v else Py.JArr [] in
  create_materials._get_variations_list (Py.JObj fields)
  = downloadTextures._get_variations_list (Py.JObj fields)
  /\ (new <> Py.JNull ->
        downloadTextures._get_variations_list (Py.JObj fields) = Py.Ok (or_empty new))
  /\ (new = Py.JNull ->
        downloadTextures._get_variations_list (Py.JObj fields)
        = Py.Ok (or_empty legacy)).
Proof.
  intros new legacy or_empty. split; [reflexivity|].
  unfold downloadTextures._get_variations_list. simpl. fold new legacy.
  unfold Py.or_else, or_empty. split.
  - intros Hn. destruct new; try done; simpl;
      match goal with |- (if ?c then _ else _) = _ => by destruct c end.
  - intros ->. simpl. by destruct (Py.truthy legacy).
Qed.

Lemma X23_variations_witness :
  downloadTextures._get_variations_list
    (Py.JObj [(py "variations", Py.JArr []);
              (py "variation", Py.JArr [Py.JStr (py "Red")])])
  = Py.Ok (Py.JArr []).
Proof.
  apply (proj1 (proj2 (X23_variations_before_variation
                         [(py "variations", Py.JArr []);
                          (py "variation", Py.JArr [Py.JStr (py "Red")])]))).
  discriminate.
Defined.
